(** * srt2slide: the content-analysis pipeline of [utils.py]

    A shallow embedding of the pure parts of [utils.py] (subtitles,
    chunking, chunk analysis, merging, partitioning, size adjustment and
    the splitter of file lists) and of [create_zip_file] of [app.py],
    together with the properties stated for them.  Python [str] values are
    sequences of Unicode code points; the language model, [yaml.safe_load]
    and [yaml.dump] are external and enter the development as
    parameters. *)

From Stdlib Require Import List ZArith NArith Lia Bool Arith.

From Stdlib Require String Ascii DecimalString DecimalNat DecimalFacts.

Import ListNotations.

Import String.StringSyntax.

Delimit Scope string_scope with string.

(** ** Python strings *)

Module Str.

(** A Python [str] is a sequence of code points. *)
Definition char := N.

Definition str := list char.

Definition NL : char := 10%N.

(** ASCII literals, for readable examples. *)
Definition of_string (s : String.string) : str :=
  map Ascii.N_of_ascii (String.list_ascii_of_string s).

Definition char_eqb (a b : char) : bool := N.eqb a b.

Fixpoint str_eqb (a b : str) : bool :=
  match a, b with
  | [], [] => true
  | x :: a', y :: b' => char_eqb x y && str_eqb a' b'
  | _, _ => false
  end.

(** [str.isspace] on one code point: the white-space table of CPython. *)
Definition isspace (c : char) : bool :=
  (((9 <=? c) && (c <=? 13)) || ((28 <=? c) && (c <=? 32))
   || (c =? 133) || (c =? 160) || (c =? 5760)
   || ((8192 <=? c) && (c <=? 8202))
   || (c =? 8232) || (c =? 8233) || (c =? 8239) || (c =? 8287)
   || (c =? 12288))%N.

Fixpoint lstrip (s : str) : str :=
  match s with
  | [] => []
  | c :: s' => if isspace c then lstrip s' else s
  end.

Definition rstrip (s : str) : str := rev (lstrip (rev s)).

(** [s.strip()] *)
Definition strip (s : str) : str := rstrip (lstrip s).

(** Truth value of a string: [bool(s)]. *)
Definition nonempty (s : str) : bool :=
  match s with [] => false | _ :: _ => true end.

(** [bool(s.strip())], the test of lines 24 and 36. *)
Definition nonblank (s : str) : bool := nonempty (strip s).

(** Pushes a character on the piece being read. *)
Definition cons_head (c : char) (l : list str) : list str :=
  match l with
  | [] => [[c]]
  | p :: ps => (c :: p) :: ps
  end.

(** [s.split('\n')] *)
Fixpoint split_newline (s : str) : list str :=
  match s with
  | [] => [[]]
  | c :: s' =>
      if char_eqb c NL then [] :: split_newline s'
      else cons_head c (split_newline s')
  end.

(** [s.split('\n\n')]: leftmost, non-overlapping occurrences. *)
Fixpoint split_blankline (s : str) : list str :=
  match s with
  | [] => [[]]
  | c :: s' =>
      match s' with
      | [] => [[c]]
      | d :: s'' =>
          if char_eqb c NL && char_eqb d NL
          then [] :: split_blankline s''
          else cons_head c (split_blankline s')
      end
  end.

(** [sep.join(l)] *)
Fixpoint join (sep : str) (l : list str) : str :=
  match l with
  | [] => []
  | p :: l' =>
      match l' with
      | [] => p
      | _ :: _ => p ++ sep ++ join sep l'
      end
  end.

Definition blank_line : str := [NL; NL].

(** [l[a:b]] for [0 <= a], [0 <= b]. *)
Definition slice {A} (a b : nat) (l : list A) : list A :=
  firstn (b - a) (skipn a l).

(** [str(n)] for a non-negative integer. *)
Definition str_of_nat (n : nat) : str :=
  of_string (DecimalString.NilZero.string_of_uint (Nat.to_uint n)).

(** [[point.strip() for point in s.split("\n") if point.strip()]] *)
Definition stripped_lines (s : str) : list str :=
  map strip (filter nonblank (split_newline s)).

(** [truncate_content], lines 74-87.  For [max_length < 3] the slice bound
    [max_length-3] is negative and counts from the end of the string. *)
Definition truncate_content (content : str) (max_length : Z) : str :=
  if (Z.of_nat (length content) <=? max_length)%Z then content
  else
    let stop := (max_length - 3)%Z in
    let stop' := if (stop <? 0)%Z
                 then Z.max 0 (Z.of_nat (length content) + stop)
                 else stop in
    firstn (Z.to_nat stop') content ++ of_string "..."%string.

(** Number of bytes of a code point, and of a string, in UTF-8. *)
Definition utf8_width (c : char) : N :=
  (if c <? 128 then 1 else if c <? 2048 then 2
   else if c <? 65536 then 3 else 4)%N.

Definition utf8_length (s : str) : N :=
  fold_right (fun c n => (utf8_width c + n)%N) 0%N s.

End Str.

Import Str.

(** ** Exceptions *)

Inductive exn : Type :=
| ZeroDivisionError
| ValueError
| TypeError
| KeyError
| AttributeError
| YAMLError
| APIError                   (* the chat-completion request failed *)
| PartErrors (count : nat).  (* line 350: the message carries [len(errors)] *)

Inductive result (A : Type) : Type :=
| Ok (a : A)
| Raise (e : exn).

Arguments Ok {A} a.

Arguments Raise {A} e.

(** ** Chunker: [split_text], lines 12-39 *)

Module Chunker.

(** Line 24: the non-blank pieces between blank lines. *)
Definition paragraphs_of (text : str) : list str :=
  filter nonblank (split_blankline text).

(** [math.ceil(a / b)] for [b <> 0].  The quotient is a float; below
    2^53 its rounding does not change the ceiling. *)
Definition py_ceil_div (a b : Z) : Z := (- ((- a) / b))%Z.

(** [range(0, stop, step)] for [0 <= stop]. *)
Definition py_range0 (stop : nat) (step : Z) : result (list nat) :=
  if (step =? 0)%Z then Raise ValueError
  else if (step <? 0)%Z then Ok []
  else Ok (map (fun j => j * Z.to_nat step)
               (seq 0 (Z.to_nat (py_ceil_div (Z.of_nat stop) step)))).

(** Lines 24-39. *)
Definition split_text (text : str) (num_parts : Z) : result (list str) :=
  let paragraphs := paragraphs_of text in
  let n := length paragraphs in
  if (Z.of_nat n <=? num_parts)%Z then Ok paragraphs
  else if (num_parts =? 0)%Z then Raise ZeroDivisionError
  else
    let paragraphs_per_part := py_ceil_div (Z.of_nat n) num_parts in
    match py_range0 n paragraphs_per_part with
    | Raise e => Raise e
    | Ok starts =>
        Ok (filter nonblank
              (map (fun i =>
                      join blank_line
                        (slice i (i + Z.to_nat paragraphs_per_part) paragraphs))
                   starts))
    end.

End Chunker.

Import Chunker.

(** ** Python values

    The values of [yaml.safe_load] that the pipeline looks into: null,
    booleans, integers, strings, sequences and mappings (floats, dates and
    binary scalars are left out).  A mapping is kept as its list of items
    in insertion order. *)

#[warnings="-register-all"]
Inductive value : Type :=
| VNone
| VBool (b : bool)
| VInt (z : Z)
| VStr (s : str)
| VList (l : list value)
| VDict (d : list (value * value)).

Definition bind {A B} (r : result A) (k : A -> result B) : result B :=
  match r with
  | Ok a => k a
  | Raise e => Raise e
  end.

Notation "x <- r ;; k" := (bind r (fun x => k))
  (at level 61, r at next level, right associativity).

(** Runs [f] over a list from left to right, threading the accumulator. *)
Fixpoint foldM {A S} (f : S -> A -> result S) (s : S) (l : list A)
  : result S :=
  match l with
  | [] => Ok s
  | a :: l' => s' <- f s a ;; foldM f s' l'
  end.

Fixpoint mapM {A B} (f : A -> result B) (l : list A) : result (list B) :=
  match l with
  | [] => Ok []
  | a :: l' => b <- f a ;; bs <- mapM f l' ;; Ok (b :: bs)
  end.

Module Py.

Definition is_key (k : str) (kv : value * value) : bool :=
  match fst kv with
  | VStr s => str_eqb s k
  | _ => false
  end.

(** Item of a mapping under a string key. *)
Definition dict_get (k : str) (d : list (value * value)) : option value :=
  option_map snd (find (is_key k) d).

(** [v.get(k, default)]: only mappings have [get]. *)
Definition get (v : value) (k : str) (default : value) : result value :=
  match v with
  | VDict d =>
      match dict_get k d with
      | Some x => Ok x
      | None => Ok default
      end
  | _ => Raise AttributeError
  end.

(** [v[k]] for a string [k]. *)
Definition subscript (v : value) (k : str) : result value :=
  match v with
  | VDict d =>
      match dict_get k d with
      | Some x => Ok x
      | None => Raise KeyError
      end
  | _ => Raise TypeError
  end.

(** [bool(v)] *)
Definition truthy (v : value) : bool :=
  match v with
  | VNone => false
  | VBool b => b
  | VInt z => negb (z =? 0)%Z
  | VStr s => nonempty s
  | VList l => match l with [] => false | _ :: _ => true end
  | VDict d => match d with [] => false | _ :: _ => true end
  end.

(** [for x in v]: the elements of a sequence, the characters of a string,
    the keys of a mapping. *)
Definition iter (v : value) : result (list value) :=
  match v with
  | VList l => Ok l
  | VStr s => Ok (map (fun c => VStr [c]) s)
  | VDict d => Ok (map fst d)
  | _ => Raise TypeError
  end.

Definition as_str (v : value) : result str :=
  match v with
  | VStr s => Ok s
  | _ => Raise TypeError
  end.

(** [sep.join(v)] *)
Definition join_value (sep : str) (v : value) : result str :=
  items <- iter v ;;
  strs <- mapM as_str items ;;
  Ok (join sep strs).

Definition hashable (v : value) : bool :=
  match v with
  | VList _ | VDict _ => false
  | _ => true
  end.

(** [a == b] on hashable values; [True == 1] and [False == 0]. *)
Definition key_eqb (a b : value) : bool :=
  match a, b with
  | VNone, VNone => true
  | VStr s, VStr t => str_eqb s t
  | VInt x, VInt y => (x =? y)%Z
  | VBool x, VBool y => Bool.eqb x y
  | VBool x, VInt y | VInt y, VBool x => (y =? (if x then 1 else 0))%Z
  | _, _ => false
  end.

End Py.

(** ** Documents *)

Record slide : Type := mkSlide {
  slide_number : str;
  slide_title : value;
  slide_content : value;
  slide_teaching_points : value
}.

Record section : Type := mkSection {
  section_number : str;
  section_name : value;
  section_slides : list slide
}.

Record document : Type := mkDocument {
  lecture_name : value;
  sections : list section
}.

(** ** Document Merger and Partitioner: [analyze_content], lines 370-432 *)

Module Merger.

Definition k_lecture_name : str := of_string "lecture_name"%string.

Definition k_sections : str := of_string "sections"%string.

Definition k_name : str := of_string "name"%string.

Definition k_slides : str := of_string "slides"%string.

Definition k_title : str := of_string "title"%string.

Definition k_content : str := of_string "content"%string.

Definition k_teaching_points : str := of_string "teaching_points"%string.

(** The two accumulators of lines 379-380.  [sections_dict] is kept as the
    dictionary's items in insertion order. *)
Record merge_state : Type := mkState {
  sections_dict : list (value * list slide);
  section_order : list value
}.

Definition empty_state : merge_state := mkState [] [].

(** [name in sections_dict] *)
Definition dict_mem (name : value) (d : list (value * list slide)) : bool :=
  existsb (fun kv => Py.key_eqb (fst kv) name) d.

(** [sections_dict[name]] *)
Definition dict_lookup (name : value) (d : list (value * list slide))
  : result (list slide) :=
  match find (fun kv => Py.key_eqb (fst kv) name) d with
  | Some kv => Ok (snd kv)
  | None => Raise KeyError
  end.

(** [sections_dict[name].append(x)] *)
Fixpoint dict_append (name : value) (x : slide)
  (d : list (value * list slide)) : list (value * list slide) :=
  match d with
  | [] => []
  | (k, v) :: d' =>
      if Py.key_eqb k name then (k, v ++ [x]) :: d'
      else (k, v) :: dict_append name x d'
  end.

(** Lines 398-403. *)
Definition merge_slide (slide_num : nat) (sl : value) : result slide :=
  title <- Py.subscript sl k_title ;;
  content <- Py.subscript sl k_content ;;
  points <- Py.get sl k_teaching_points (VList []) ;;
  joined <- Py.join_value [NL] points ;;
  Ok (mkSlide (str_of_nat slide_num) title content (VStr joined)).

(** Lines 397-404: [enumerate(..., 1)] numbers the slides of this
    occurrence of the section. *)
Fixpoint merge_slides (name : value) (slide_num : nat) (slides : list value)
  (d : list (value * list slide)) : result (list (value * list slide)) :=
  match slides with
  | [] => Ok d
  | sl :: slides' =>
      slide_data <- merge_slide slide_num sl ;;
      merge_slides name (S slide_num) slides' (dict_append name slide_data d)
  end.

(** Lines 389-404, the body of the loop over the sections of a part. *)
Definition merge_section (st : merge_state) (sec : value)
  : result merge_state :=
  section_name <- Py.get sec k_name VNone ;;
  if negb (Py.truthy section_name) then Ok st
  else if negb (Py.hashable section_name) then Raise TypeError
  else
    let st1 :=
      if dict_mem section_name (sections_dict st) then st
      else mkState (sections_dict st ++ [(section_name, [])])
                   (section_order st ++ [section_name]) in
    slides <- Py.get sec k_slides (VList []) ;;
    items <- Py.iter slides ;;
    d <- merge_slides section_name 1 items (sections_dict st1) ;;
    Ok (mkState d (section_order st1)).

(** Lines 385-404, the body of the loop over the parts. *)
Definition merge_part (st : merge_state) (part : value) : result merge_state :=
  secs <- Py.get part k_sections (VList []) ;;
  items <- Py.iter secs ;;
  foldM merge_section st items.

(** Lines 379-404. *)
Definition merge_parts (yaml_parts : list value) : result merge_state :=
  foldM merge_part empty_state yaml_parts.

(** Lines 370-376. *)
Definition lecture_name_of (yaml_parts : list value) : result value :=
  match yaml_parts with
  | [] => Raise ValueError
  | part :: _ =>
      name <- Py.get part k_lecture_name VNone ;;
      match name with
      | VNone => Raise ValueError
      | _ => Ok name
      end
  end.

(** Line 408. *)
Definition sections_per_file (st : merge_state) : nat :=
  Nat.max 1 (length (section_order st) / 8).

(** Lines 419-425: [enumerate(..., 1)] numbers the sections of one file. *)
Fixpoint number_sections (d : list (value * list slide)) (section_num : nat)
  (names : list value) : result (list section) :=
  match names with
  | [] => Ok []
  | name :: names' =>
      slides <- dict_lookup name d ;;
      rest <- number_sections d (S section_num) names' ;;
      Ok (mkSection (str_of_nat section_num) name slides :: rest)
  end.

(** Lines 415-425 for file [i]. *)
Definition file_sections (st : merge_state) (i : nat) : result (list section) :=
  let start_idx := i * sections_per_file st in
  let end_idx :=
    if i <? 7 then (i + 1) * sections_per_file st
    else length (section_order st) in
  number_sections (sections_dict st) 1
    (slice start_idx end_idx (section_order st)).

(** Lines 414-432: the documents handed to the size adjuster; a file
    without sections is not created. *)
Definition yaml_files (name : value) (st : merge_state)
  : result (list document) :=
  foldM (fun files i =>
           secs <- file_sections st i ;;
           Ok (match secs with
               | [] => files
               | _ :: _ => files ++ [mkDocument name secs]
               end))
        [] (seq 0 8).

End Merger.

Import Merger.

(** ** Chunk Analyzer: [analyze_content_part] and [process_all_parts] *)

Module Analyzer.

Fixpoint starts_with (pat s : str) : bool :=
  match pat, s with
  | [], _ => true
  | a :: pat', b :: s' => char_eqb a b && starts_with pat' s'
  | _ :: _, [] => false
  end.

Fixpoint remove_from (pat : str) (skip : nat) (s : str) : str :=
  match s with
  | [] => []
  | c :: s' =>
      match skip with
      | S k => remove_from pat k s'
      | O =>
          if starts_with pat s then remove_from pat (length pat - 1) s'
          else c :: remove_from pat 0 s'
      end
  end.

(** [s.replace(pat, '')] for a non-empty [pat]. *)
Definition remove_all (pat s : str) : str := remove_from pat 0 s.

Definition fence_yaml : str := of_string "```yaml"%string.

Definition fence : str := of_string "```"%string.

(** Line 119. *)
Definition strip_fences (yaml_text : str) : str :=
  strip (remove_all fence (remove_all fence_yaml yaml_text)).

Section Parts.

(** The reply of the model to the request of lines 106-113 for a part, its
    number and the number of parts; [None] when the request raises. *)
Variable chat : str -> nat -> nat -> option str.

(** [yaml.safe_load]; [None] when it raises [yaml.YAMLError]. *)
Variable yaml_safe_load : str -> option value.

(** Lines 105-132: both failures are re-raised. *)
Definition analyze_content_part (part : str) (part_num total_parts : nat)
  : result value :=
  match chat part part_num total_parts with
  | None => Raise APIError
  | Some yaml_text =>
      match yaml_safe_load (strip_fences yaml_text) with
      | Some yaml_data => Ok yaml_data
      | None => Raise YAMLError
      end
  end.

(** [enumerate(l)] from [i]. *)
Fixpoint enumerate_from {A} (i : nat) (l : list A) : list (nat * A) :=
  match l with
  | [] => []
  | a :: l' => (i, a) :: enumerate_from (S i) l'
  end.

(** Lines 336-340.  [asyncio.gather(..., return_exceptions=True)] waits for
    every task and lists the outcomes, returned values and exceptions
    alike, in the order of the tasks. *)
Definition gathered (text_parts : list str) : list (result value) :=
  map (fun ip => analyze_content_part (snd ip) (fst ip) (length text_parts))
      (enumerate_from 0 text_parts).

Definition is_exception {A} (r : result A) : bool :=
  match r with
  | Ok _ => false
  | Raise _ => true
  end.

Definition returned {A} (results : list (result A)) : list A :=
  flat_map (fun r => match r with Ok v => [v] | Raise _ => [] end) results.

(** Lines 343-352. *)
Definition check_errors (results : list (result value)) : result (list value) :=
  let errors := filter is_exception results in
  match errors with
  | _ :: _ => Raise (PartErrors (length errors))
  | [] => Ok (returned results)
  end.

(** Lines 332-360; the handler of line 353 raises the exception again. *)
Definition process_all_parts (text_parts : list str) : result (list value) :=
  check_errors (gathered text_parts).

End Parts.

End Analyzer.

Import Analyzer.

(** ** Size Adjuster: [summarize_with_openai_async] and
    [adjust_yaml_size_async], lines 134-317

    The adjuster receives the documents built at lines 428-431, whose
    slides are the dictionaries of lines 398-403 (and later those of
    [create_slide_dict]): the records above, with fields that hold any
    value.  The source first issues the requests for all slides (lines
    208-223) and then applies what they returned (lines 226-235); a result
    only touches its own slide, and a slide dictionary occurs in one
    section of one document only, so here every slide is updated right
    after its own requests.  The requests are issued in the same order. *)

Module Adjuster.

Definition indent (n : nat) : str := repeat 32%N n.

(** Lines 169-176: the f-string up to [{content_text}]. *)
Definition expansion_prompt_head : str :=
  join [NL]
    [
     [];
     indent 20 ++ [20197; 19979; 12398; 20869; 23481; 12434; 12424;
       12426; 35443; 32048; 12395; 23637; 38283; 12375; 12390; 12367;
       12384; 12373; 12356; 65306]%N;
     indent 20 ++ [45; 32; 21508; 12509; 12452; 12531; 12488; 12395;
       20855; 20307; 20363; 12434; 36861; 21152]%N;
     indent 20 ++ [45; 32; 38306; 36899; 12377; 12427; 35036; 36275;
       24773; 22577; 12434; 21547; 12417; 12427]%N;
     indent 20 ++ [45; 32; 23455; 36341; 30340; 12394; 24540; 29992;
       20363; 12434; 36861; 21152]%N;
     indent 20;
     indent 20 ++ [20803; 12398; 20869; 23481; 65306]%N;
     indent 20
    ].

(** Lines 184-191: the f-string up to [{points_text}]. *)
Definition points_prompt_head : str :=
  join [NL]
    [
     [];
     indent 20 ++ [20197; 19979; 12398; 25351; 23566; 12509; 12452;
       12531; 12488; 12434; 12424; 12426; 35443; 32048; 12395; 23637;
       38283; 12375; 12390; 12367; 12384; 12373; 12356; 65306]%N;
     indent 20 ++ [45; 32; 20855; 20307; 30340; 12394; 25351; 23566;
       26041; 27861; 12434; 36861; 21152]%N;
     indent 20 ++ [45; 32; 20104; 24819; 12373; 12428; 12427; 36074;
       21839; 12420; 30097; 21839; 28857; 12408; 12398; 23550; 24540]%N;
     indent 20 ++ [45; 32; 23455; 36341; 30340; 12394; 12450; 12489;
       12496; 12452; 12473; 12434; 21547; 12417; 12427]%N;
     indent 20;
     indent 20 ++ [20803; 12398; 12509; 12452; 12531; 12488; 65306]%N;
     indent 20
    ].

(** Lines 177 and 192: the rest of both f-strings. *)
Definition slide_prompt_tail : str :=
  join [NL]
    [
     [];
     indent 20
    ].

(** Lines 247-255: the f-string up to [{combined_slides}]. *)
Definition summary_prompt_head : str :=
  join [NL]
    [
     [];
     indent 16 ++ [20197; 19979; 12398; 12473; 12521; 12452; 12489;
       32676; 12434; 49; 48; 20491; 12398; 37325; 35201; 12394; 12473;
       12521; 12452; 12489; 12395; 35201; 32004; 12375; 12390; 12367;
       12384; 12373; 12356; 12290]%N;
     indent 16 ++ [21508; 12473; 12521; 12452; 12489; 12395; 12399;
       20197; 19979; 12398; 24773; 22577; 12434; 21547; 12417; 12390;
       12367; 12384; 12373; 12356; 65306]%N;
     indent 16 ++ [45; 32; 12479; 12452; 12488; 12523]%N;
     indent 16 ++ [45; 32; 20869; 23481; 65288; 31623; 26465; 26360;
       12365; 65289]%N;
     indent 16 ++ [45; 32; 25945; 25480; 20869; 23481]%N;
     indent 16;
     indent 16 ++ [20803; 12398; 12473; 12521; 12452; 12489; 20869;
       23481; 65306]%N;
     indent 16
    ].

(** Line 256: its rest. *)
Definition summary_prompt_tail : str :=
  join [NL]
    [
     [];
     indent 16
    ].

(** Line 218: the f-string up to [{combined_points}]. *)
Definition limit_prompt_head : str :=
  join [NL]
    [
     [20197; 19979; 12398; 20869; 23481; 12434; 53; 12388; 12398; 37325;
       35201; 12394; 12509; 12452; 12531; 12488; 12395; 12414; 12392;
       12417; 12390; 12367; 12384; 12373; 12356; 65306]%N;
     []
    ].

(** The word of lines 244 and 281, with its space. *)
Definition slide_word : str :=
  [12473; 12521; 12452; 12489; 32]%N.

(** One request of [summarize_with_openai_async]: the text put into the
    user message and the token limit. *)
Record call : Type := mkCall {
  call_content : str;
  call_max_tokens : Z
}.

(** The requests issued so far, oldest first. *)
Definition trace : Type := list call.

(** Computations that issue requests and may raise. *)
Definition M (A : Type) : Type := trace -> result A * trace.

Definition ret {A} (a : A) : M A := fun tr => (Ok a, tr).

Definition lift {A} (r : result A) : M A := fun tr => (r, tr).

Definition bindM {A B} (m : M A) (k : A -> M B) : M B :=
  fun tr =>
    match m tr with
    | (Ok a, tr') => k a tr'
    | (Raise e, tr') => (Raise e, tr')
    end.

Notation "x <~ m ;; k" := (bindM m (fun x => k))
  (at level 61, m at next level, right associativity).

Fixpoint mapMM {A B} (f : A -> M B) (l : list A) : M (list B) :=
  match l with
  | [] => ret []
  | a :: l' => b <~ f a ;; bs <~ mapMM f l' ;; ret (b :: bs)
  end.

Definition k_number : str := of_string "number"%string.

(** The dictionary of a slide, keys in the order of lines 398-403. *)
Definition slide_value (s : slide) : value :=
  VDict [(VStr k_number, VStr (slide_number s));
         (VStr k_title, slide_title s);
         (VStr k_content, slide_content s);
         (VStr k_teaching_points, slide_teaching_points s)].

Definition str_of_Z (z : Z) : str :=
  of_string (DecimalString.NilZero.string_of_int (Z.to_int z)).

Section Adjust.

(** The reply of the model to a request, given the requests issued before
    it; [None] when the request raises (network, authentication, rate
    limit, empty message). *)
Variable llm : trace -> call -> option str.

(** [yaml.safe_load]; [None] when it raises. *)
Variable yaml_safe_load : str -> option value.

(** [yaml.dump(doc, allow_unicode=True)], the text of a document. *)
Variable yaml_dump : document -> str.

(** Lines 157 and 238: [len] of that text, its number of characters. *)
Definition dump_size (doc : document) : Z :=
  Z.of_nat (length (yaml_dump doc)).

(** [repr] of a string: its quoted and escaped form. *)
Variable repr_str : str -> str.

(** [repr(v)] *)
Fixpoint py_repr (v : value) : str :=
  match v with
  | VNone => of_string "None"%string
  | VBool true => of_string "True"%string
  | VBool false => of_string "False"%string
  | VInt z => str_of_Z z
  | VStr s => repr_str s
  | VList l =>
      of_string "["%string
      ++ join (of_string ", "%string) (map py_repr l)
      ++ of_string "]"%string
  | VDict d =>
      of_string "{"%string
      ++ join (of_string ", "%string)
           (map (fun kv => match kv with
                           | (k, x) =>
                               py_repr k ++ of_string ": "%string ++ py_repr x
                           end) d)
      ++ of_string "}"%string
  end.

(** [str(v)], also what an f-string puts for [{v}]. *)
Definition py_str (v : value) : str :=
  match v with
  | VStr s => s
  | _ => py_repr v
  end.

(** Lines 134-151: the reply, stripped; when the request raises, the
    handler of line 149 returns the truncated request text instead. *)
Definition summarize_with_openai (content : str) (max_tokens : Z) : M str :=
  fun tr =>
    let c := mkCall content max_tokens in
    (Ok (match llm tr c with
         | Some reply => strip reply
         | None => truncate_content content max_tokens
         end),
     tr ++ [c]).

Definition set_content (s : slide) (v : value) : slide :=
  mkSlide (slide_number s) (slide_title s) v (slide_teaching_points s).

Definition set_teaching_points (s : slide) (v : value) : slide :=
  mkSlide (slide_number s) (slide_title s) (slide_content s) v.

Definition set_slides (sec : section) (l : list slide) : section :=
  mkSection (section_number sec) (section_name sec) l.

Definition lines_value (text : str) : value :=
  VList (map VStr (stripped_lines text)).

(** Lines 166-194, the body of the loop over the slides. *)
Definition expand_slide (s : slide) : M slide :=
  s1 <~ match slide_content s with
        | VList _ =>
            content_text <~ lift (Py.join_value [NL] (slide_content s)) ;;
            expanded_content <~
              summarize_with_openai
                (expansion_prompt_head ++ content_text ++ slide_prompt_tail)
                300 ;;
            ret (set_content s (lines_value expanded_content))
        | _ => ret s
        end ;;
  points_text <~ lift (match slide_teaching_points s1 with
                       | VStr t => Ok t
                       | v => Py.join_value [NL] v
                       end) ;;
  expanded_points <~
    summarize_with_openai
      (points_prompt_head ++ points_text ++ slide_prompt_tail) 200 ;;
  ret (set_teaching_points s1 (lines_value expanded_points)).

(** Applies [f] to every slide of every section, in order. *)
Definition for_each_slide (f : slide -> M slide) (doc : document)
  : M document :=
  secs <~ mapMM (fun sec =>
                   slides <~ mapMM f (section_slides sec) ;;
                   ret (set_slides sec slides))
                (sections doc) ;;
  ret (mkDocument (lecture_name doc) secs).

Inductive task_type : Type := TContent | TContentLimit | TTeachingPoints.

(** Lines 210-223: the requests for one slide and what they returned. *)
Definition slide_tasks (s : slide) : M (list (task_type * str)) :=
  content_tasks <~
    match slide_content s with
    | VList items =>
        combined_content <~ lift (Py.join_value [NL] (VList items)) ;;
        r <~ summarize_with_openai combined_content 150 ;;
        if 5 <? length items then
          r5 <~ summarize_with_openai (limit_prompt_head ++ combined_content)
                  200 ;;
          ret [(TContent, r); (TContentLimit, r5)]
        else ret [(TContent, r)]
    | v =>
        r <~ summarize_with_openai (py_str v) 100 ;;
        ret [(TContent, r)]
    end ;;
  r <~ summarize_with_openai (py_str (slide_teaching_points s)) 200 ;;
  ret (content_tasks ++ [(TTeachingPoints, r)]).

(** Lines 227-235. *)
Definition apply_task (s : slide) (task : task_type * str) : slide :=
  match task with
  | (TContent, result) =>
      match slide_content s with
      | VList _ => set_content s (lines_value result)
      | _ => set_content s (VStr result)
      end
  | (TContentLimit, result) =>
      set_content s (VList (firstn 5 (map VStr (stripped_lines result))))
  | (TTeachingPoints, result) => set_teaching_points s (VStr result)
  end.

Definition compress_slide (s : slide) : M slide :=
  tasks <~ slide_tasks s ;;
  ret (fold_left apply_task tasks s).

(** Line 244. *)
Definition slide_text (s : slide) : str :=
  slide_word ++ slide_number s ++ of_string ": "%string
  ++ py_str (slide_title s) ++ [NL]
  ++ py_str (slide_content s) ++ [NL]
  ++ py_str (slide_teaching_points s).

Definition dict_get_default (k : str) (d : list (value * value))
  (default : value) : value :=
  match Py.dict_get k d with
  | Some x => x
  | None => default
  end.

(** Lines 263-284. *)
Definition create_slide_dict (slide_data : value) (index : nat) : slide :=
  match slide_data with
  | VDict d =>
      mkSlide (str_of_nat (index + 1))
        (dict_get_default k_title d (VStr []))
        (dict_get_default k_content d (VList []))
        (dict_get_default k_teaching_points d (VStr []))
  | VStr t => mkSlide (str_of_nat (index + 1)) (VStr t) (VList []) (VStr [])
  | _ =>
      mkSlide (str_of_nat (index + 1))
        (VStr (slide_word ++ str_of_nat (index + 1))) (VList []) (VStr [])
  end.

(** Lines 286-297. *)
Definition slides_data_of (summarized_data : value) : value :=
  match summarized_data with
  | VDict d =>
      match Py.dict_get k_slides d with
      | Some x => x
      | None => VList [summarized_data]
      end
  | VList _ => summarized_data
  | v => VList [VStr (py_str v)]
  end.

(** Lines 259-299, the [try] block. *)
Definition parse_summary (summarized_slides : str) : result (list slide) :=
  match yaml_safe_load summarized_slides with
  | None => Raise YAMLError
  | Some summarized_data =>
      items <- Py.iter (slides_data_of summarized_data) ;;
      Ok (map (fun ix => create_slide_dict (snd ix) (fst ix))
              (enumerate_from 0 items))
  end.

(** Lines 307-315, the handler. *)
Definition fallback_slides (slides : list slide) : list slide :=
  map (fun ix =>
         mkSlide (str_of_nat (fst ix + 1))
           (VStr (py_str (slide_value (snd ix)))) (VList []) (VStr []))
      (enumerate_from 0 (firstn 10 slides)).

(** Lines 258-315: the slide list assigned to the section, by the [try]
    block or, when it raises, by the handler. *)
Definition summary_slides (summarized_slides : str) (slides : list slide)
  : list slide :=
  match parse_summary summarized_slides with
  | Ok new_slides => new_slides
  | Raise _ => fallback_slides slides
  end.

(** Lines 241-315, the body of the loop over the sections. *)
Definition resummarize_section (sec : section) : M section :=
  let slides := section_slides sec in
  if 10 <? length slides then
    summarized_slides <~
      summarize_with_openai
        (summary_prompt_head
         ++ join blank_line (map slide_text slides)
         ++ summary_prompt_tail) 1000 ;;
    ret (set_slides sec (summary_slides summarized_slides slides))
  else ret sec.

Definition resummarize_document (doc : document) : M document :=
  secs <~ mapMM resummarize_section (sections doc) ;;
  ret (mkDocument (lecture_name doc) secs).

(** Lines 153-317. *)
Definition adjust_yaml_size (yaml_data : document) (max_chars : Z)
  : M document :=
  let current_size := dump_size yaml_data in
  if (current_size <? 8000)%Z then for_each_slide expand_slide yaml_data
  else if (current_size <=? max_chars)%Z then ret yaml_data
  else
    adjusted_data <~ for_each_slide compress_slide yaml_data ;;
    let final_size := dump_size adjusted_data in
    if (max_chars <? final_size)%Z then resummarize_document adjusted_data
    else ret adjusted_data.

End Adjust.

End Adjuster.

Import Adjuster.

(** ** Subtitles: [combine_subtitles], lines 41-72

    Of a subtitle only its [content] is read. *)

Module Subtitles.

(** The speaker given to a subtitle of one line, line 56. *)
Definition unknown_speaker : str := [19981; 26126]%N.

(** The full-width colon of lines 64 and 70. *)
Definition colon : char := 65306%N.

(** Lines 51-57: the second line is the speaker; the text is what follows
    it, or the first line when nothing follows. *)
Definition speaker_and_text (content : str) : str * str :=
  match split_newline content with
  | l0 :: l1 :: rest =>
      (l1, match rest with
           | [] => l0
           | _ :: _ => join [NL] rest
           end)
  | [l0] => (unknown_speaker, l0)
  | [] => (unknown_speaker, [])
  end.

(** The three variables of lines 45-47. *)
Record combine_state : Type := mkCombine {
  combined_text : str;
  current_speaker : option str;
  current_text : list str
}.

Definition initial_state : combine_state := mkCombine [] None [].

(** Lines 63-64 and 69-70: the pending block is written out. *)
Definition flush (st : combine_state) : str :=
  match current_speaker st with
  | Some speaker =>
      combined_text st ++ speaker ++ [colon] ++ concat (current_text st)
      ++ [NL; NL]
  | None => combined_text st
  end.

(** [speaker == current_speaker] *)
Definition same_speaker (speaker : str) (current : option str) : bool :=
  match current with
  | Some c => str_eqb speaker c
  | None => false
  end.

(** Lines 49-66, the body of the loop. *)
Definition combine_step (st : combine_state) (content : str) : combine_state :=
  let speaker := fst (speaker_and_text content) in
  let text := snd (speaker_and_text content) in
  if same_speaker speaker (current_speaker st)
  then mkCombine (combined_text st) (current_speaker st)
         (current_text st ++ [text])
  else mkCombine (flush st) (Some speaker) [text].

(** Lines 41-72. *)
Definition combine_subtitles (subtitles : list str) : str :=
  flush (fold_left combine_step subtitles initial_state).

End Subtitles.

Import Subtitles.

(** ** Splitting a parsed document: [check_and_split_yaml], lines 471-511 *)

Module Splitter.

Definition k_file : str := of_string "file"%string.

(** Line 511. *)
Definition unknown_document : value :=
  VDict [(VStr k_lecture_name, VStr (of_string "Unknown"%string));
         (VStr k_sections, VList [])].

(** [len(v)] *)
Definition seq_len (v : value) : result nat :=
  match v with
  | VList l => Ok (length l)
  | VStr t => Ok (length t)
  | VDict d => Ok (length d)
  | _ => Raise TypeError
  end.

(** [v[a:b]] for [0 <= a <= b].  A mapping cannot be sliced ([TypeError];
    [KeyError] from Python 3.12 on). *)
Definition seq_slice (a b : nat) (v : value) : result value :=
  match v with
  | VList l => Ok (VList (slice a b l))
  | VStr t => Ok (VStr (slice a b t))
  | _ => Raise TypeError
  end.

(** Lines 499-506, the body of the loop. *)
Definition split_step (yaml_data file : value) (files_per_part : nat)
  (yaml_files : list value) (i : nat) : result (list value) :=
  part_files <- seq_slice i (i + files_per_part) file ;;
  if Py.truthy part_files then
    name <- Py.subscript yaml_data k_lecture_name ;;
    Ok (yaml_files
        ++ [VDict [(VStr k_lecture_name, name); (VStr k_file, part_files)]])
  else Ok yaml_files.

(** Lines 471-511. *)
Definition check_and_split_yaml (yaml_data : value) (num_parts : Z)
  : result (list value) :=
  match yaml_data with
  | VList l => Ok l
  | VDict d =>
      match Py.dict_get k_file d with
      | None => Ok [yaml_data]
      | Some file =>
          if negb (Py.truthy file) then Ok [yaml_data]
          else
            total_files <- seq_len file ;;
            if (num_parts =? 0)%Z then Raise ZeroDivisionError
            else
              let files_per_part :=
                py_ceil_div (Z.of_nat total_files) num_parts in
              starts <- py_range0 total_files files_per_part ;;
              foldM (split_step yaml_data file (Z.to_nat files_per_part))
                [] starts
      end
  | _ => Ok [unknown_document]
  end.

End Splitter.

Import Splitter.

(** ** The archive: [create_zip_file] of [app.py], lines 52-74

    The archive is kept as the list of its entries, name and text, in the
    order in which [writestr] adds them. *)

Module Archive.


Section Zip.

(** [format_yaml_for_preview], the text of a document for the reader. *)
Variable format_yaml_for_preview : document -> str.


End Zip.

End Archive.

Import Archive.

(** ** The documents of a transcript: [analyze_content], lines 328-432

    The part of [analyze_content] before the size adjustment: the chunks,
    their analysis, the checks of lines 370 and 375, the merge and the
    partition.  Any exception is caught at line 464 and raised again as a
    plain [Exception]. *)

Module Pipeline.

Section Files.

Variable chat : str -> nat -> nat -> option str.

Variable yaml_safe_load : str -> option value.

Definition analysis_files (text : str) : result (list document) :=
  text_parts <- split_text text 8 ;;
  yaml_parts <- process_all_parts chat yaml_safe_load text_parts ;;
  lecture_name <- lecture_name_of yaml_parts ;;
  st <- merge_parts yaml_parts ;;
  yaml_files lecture_name st.

End Files.

End Pipeline.

Import Pipeline.

(** * Vocabulary of the statements *)

(** ** Strings and paragraphs *)

(** A string has ink when some character of it is not white space. *)
Definition has_ink (s : str) : bool := existsb (fun c => negb (isspace c)) s.

(** No two consecutive newlines. *)
Fixpoint sep_free (p : str) : bool :=
  match p with
  | [] => true
  | c :: p' =>
      match p' with
      | [] => true
      | d :: _ => negb (char_eqb c NL && char_eqb d NL) && sep_free p'
      end
  end.

(** No blank line inside, and no newline at the end. *)
Definition inner (p : str) : bool := sep_free (p ++ [NL]).

(** All pieces are free of blank lines; only the last may end in a newline. *)
Fixpoint pieces_ok (l : list str) : bool :=
  match l with
  | [] => true
  | p :: l' =>
      match l' with
      | [] => sep_free p
      | _ :: _ => inner p && pieces_ok l'
      end
  end.

(** ** Merged sections *)

(** The registered names are hashable and pairwise different. *)
Fixpoint distinct_keys (ks : list value) : Prop :=
  match ks with
  | [] => True
  | k :: ks' =>
      Py.hashable k = true
      /\ (forall k', In k' ks' -> Py.key_eqb k k' = false)
      /\ distinct_keys ks'
  end.

(** The dictionary and the order list register the same names in the same
    order. *)
Definition well_formed (st : merge_state) : Prop :=
  map fst (sections_dict st) = section_order st
  /\ distinct_keys (section_order st).

(** The name a section registers, if any. *)
Definition section_key (sec : value) : list value :=
  match Py.get sec k_name VNone with
  | Ok name => if Py.truthy name then [name] else []
  | Raise _ => []
  end.

(** The names met in a part, in order, with repetitions. *)
Definition part_keys (part : value) : list value :=
  match Py.get part k_sections (VList []) with
  | Ok secs =>
      match Py.iter secs with
      | Ok items => flat_map section_key items
      | Raise _ => []
      end
  | Raise _ => []
  end.

(** Registers each name when it is met for the first time. *)
Fixpoint first_seen (seen names : list value) : list value :=
  match names with
  | [] => seen
  | name :: names' =>
      first_seen
        (if existsb (fun k => Py.key_eqb k name) seen then seen
         else seen ++ [name])
        names'
  end.

(** A section mapping whose ["name"] is absent or false (empty string,
    null, ...): [section.get("name")] is falsy. *)
Definition nameless (sec : value) : Prop :=
  exists d,
    sec = VDict d
    /\ Py.truthy (match Py.dict_get k_name d with
                  | Some v => v
                  | None => VNone
                  end) = false.

(** A section of an output file, without its per-file number. *)
Definition section_pair (s : section) : value * list slide :=
  (section_name s, section_slides s).

(** The sections of file [i], or none when the lookup fails. *)
Definition sections_of_file (st : merge_state) (i : nat) : list section :=
  match file_sections st i with
  | Ok secs => secs
  | Raise _ => []
  end.

(** ** Adjusted sections *)

(** Same name and number, same number of slides. *)
Definition same_shape (s s' : section) : Prop :=
  section_name s' = section_name s
  /\ section_number s' = section_number s
  /\ length (section_slides s') = length (section_slides s).


Section AdjustedSections.

Variable yaml_safe_load : str -> option value.
Variable repr_str : str -> str.

(** A resummarized section keeps its name and number; a section of at most
    ten slides is left as it is. *)
Definition kept_or_summarized (s s' : section) : Prop :=
  section_name s' = section_name s
  /\ section_number s' = section_number s
  /\ (length (section_slides s) <= 10 -> s' = s)
  /\ (10 < length (section_slides s) ->
      exists summarized_slides,
        section_slides s'
        = summary_slides yaml_safe_load repr_str summarized_slides
            (section_slides s)).

End AdjustedSections.

(** ** Merged slides and output files *)

(** The slides already merged under a name. *)
Definition already_merged (st : merge_state) (name : value) : list slide :=
  match dict_lookup name (sections_dict st) with
  | Ok slides => slides
  | Raise _ => []
  end.

(** A slide as the merge builds it: a positive decimal number and a string
    for the teaching points. *)
Definition merged_slide (s : slide) : Prop :=
  (exists n, 1 <= n /\ slide_number s = str_of_nat n)
  /\ exists t, slide_teaching_points s = VStr t.

(** Every slide of a dictionary of sections is one. *)
Definition all_merged (d : list (value * list slide)) : Prop :=
  Forall (fun kv => Forall merged_slide (snd kv)) d.

Definition is_mapping (v : value) : Prop := exists d, v = VDict d.

(** The document of file [i], if the file has sections. *)
Definition file_document (name : value) (st : merge_state) (i : nat)
  : list document :=
  match sections_of_file st i with
  | [] => []
  | secs => [mkDocument name secs]
  end.

(** ** Requests and slides of the size adjuster *)

(** The number of slides of a document. *)
Definition total_slides (doc : document) : nat :=
  list_sum (map (fun sec => length (section_slides sec)) (sections doc)).

(** The number of sections with more than ten slides. *)
Definition long_sections (doc : document) : nat :=
  length (filter (fun sec => 10 <? length (section_slides sec))
            (sections doc)).

(** A computation that issues at most [n] requests and forgets none. *)
Definition within {A} (n : nat) (m : M A) : Prop :=
  forall tr, exists new, snd (m tr) = tr ++ new /\ length new <= n.


(** A slide after the compression of lines 208-235. *)
Definition compressed_slide (s s' : slide) : Prop :=
  slide_number s' = slide_number s
  /\ slide_title s' = slide_title s
  /\ (exists reply, slide_teaching_points s' = VStr reply)
  /\ match slide_content s with
     | VList items =>
         exists lines,
           slide_content s' = VList (map VStr lines)
           /\ (5 < length items -> length lines <= 5)
     | _ => exists reply, slide_content s' = VStr reply
     end.

(** Two documents with the same lecture name and the same sections, whose
    slides are related one by one. *)
Definition slides_related (R : slide -> slide -> Prop) (doc doc' : document)
  : Prop :=
  lecture_name doc' = lecture_name doc
  /\ Forall2 (fun sec sec' =>
                section_number sec' = section_number sec
                /\ section_name sec' = section_name sec
                /\ Forall2 R (section_slides sec) (section_slides sec'))
       (sections doc) (sections doc').

(** ** Resummarized sections *)

(** The request of lines 243-257 for the slides of a section. *)
Definition summary_request (repr_str : str -> str) (slides : list slide)
  : call :=
  mkCall (summary_prompt_head
          ++ join blank_line (map (slide_text repr_str) slides)
          ++ summary_prompt_tail) 1000.

(** What [summarize_with_openai_async] returns for a request issued after
    the requests [t]: the reply of the model, stripped, or the truncated
    request text when the call fails. *)
Definition reply_to (llm : trace -> call -> option str) (t : trace) (c : call)
  : str :=
  match llm t c with
  | Some reply => strip reply
  | None => truncate_content (call_content c) (call_max_tokens c)
  end.

Section ResummarizedSections.

Variable llm : trace -> call -> option str.
Variable yaml_safe_load : str -> option value.
Variable repr_str : str -> str.

(** Section [s] of the input comes out without slides because of a reply:
    its compressed form [m] has more than ten slides, the request for [m]
    is one of the requests issued between [tr] and [tr'], and what came
    back for it, at the point where it was issued, parses to an empty list
    of slides. *)
Definition emptied_by_reply (tr tr' : trace) (s s' : section) : Prop :=
  exists m earlier later data,
    same_shape s m
    /\ 10 < length (section_slides m)
    /\ tr' = (tr ++ earlier)
             ++ summary_request repr_str (section_slides m) :: later
    /\ yaml_safe_load
         (reply_to llm (tr ++ earlier)
            (summary_request repr_str (section_slides m))) = Some data
    /\ Py.iter (slides_data_of repr_str data) = Ok []
    /\ section_slides s' = [].

(** What the adjuster leaves of a section: its name, and at least one
    slide if it had one, unless a reply emptied it. *)
Definition section_kept (tr tr' : trace) (s s' : section) : Prop :=
  section_name s' = section_name s
  /\ (1 <= length (section_slides s) ->
      1 <= length (section_slides s') \/ emptied_by_reply tr tr' s s').

(** The slides of a section [m] of more than ten slides after the
    resummarization that started with the requests [tr1] and ended with
    [tr']: they are built from what came back for the request for [m],
    numbered from 1 without gaps, one for every entry of the parsed text,
    and ten when the text does not parse. *)
Definition resummarized_by (tr1 tr' : trace) (m s' : section) : Prop :=
  10 < length (section_slides m) ->
  exists earlier later,
    tr' = (tr1 ++ earlier)
          ++ summary_request repr_str (section_slides m) :: later
    /\ let reply :=
         reply_to llm (tr1 ++ earlier)
           (summary_request repr_str (section_slides m)) in
       section_slides s'
       = summary_slides yaml_safe_load repr_str reply (section_slides m)
       /\ map slide_number (section_slides s')
          = map str_of_nat (seq 1 (length (section_slides s')))
       /\ (forall data items,
              yaml_safe_load reply = Some data ->
              Py.iter (slides_data_of repr_str data) = Ok items ->
              length (section_slides s') = length items)
       /\ (yaml_safe_load reply = None ->
           length (section_slides s') = 10).

End ResummarizedSections.

(** ** Code fences *)

Definition backtick : char := 96%N.

(** [pat in s] *)
Definition contains (pat s : str) : Prop := exists a b, s = a ++ pat ++ b.

(** The same, as a test. *)
Fixpoint occurs (pat s : str) : bool :=
  match s with
  | [] => starts_with pat []
  | _ :: s' => starts_with pat s || occurs pat s'
  end.

(** ** Subtitles *)

Definition speaker_of (content : str) : str := fst (speaker_and_text content).

Definition utterance_of (content : str) : str := snd (speaker_and_text content).

(** The paragraph written for a run of utterances of one speaker. *)
Definition block (speaker : str) (utterances : list str) : str :=
  speaker ++ [colon] ++ concat utterances ++ [NL; NL].

(** ** Parts of a file list *)


(** * Example inputs *)

Module MergeExample.

Definition a_slide (title : String.string) : value :=
  VDict [(VStr k_title, VStr (of_string title));
         (VStr k_content, VList [VStr (of_string "point"%string)]);
         (VStr k_teaching_points, VList [VStr (of_string "hint"%string)])].

Definition a_section (name : String.string) (slides : list value) : value :=
  VDict [(VStr k_name, VStr (of_string name)); (VStr k_slides, VList slides)].

Definition a_part (secs : list value) : value :=
  VDict [(VStr k_lecture_name, VStr (of_string "Lecture"%string));
         (VStr k_sections, VList secs)].

(** Chunk 1 has section "Intro" with two slides, chunk 2 continues "Intro"
    with one more slide. *)
Definition two_chunks : list value :=
  [a_part [a_section "Intro"%string [a_slide "a"%string; a_slide "b"%string]];
   a_part [a_section "Intro"%string [a_slide "c"%string]]].

(** A section with an empty name and one slide. *)
Definition unnamed_section : value :=
  VDict [(VStr k_name, VStr []); (VStr k_slides, VList [a_slide "t"%string])].

(** Sections "Intro", "Intro", "Body" in that order. *)
Definition intro_intro_body : list value :=
  [a_part [a_section "Intro"%string [a_slide "a"%string]];
   a_part [a_section "Intro"%string [a_slide "b"%string];
           a_section "Body"%string [a_slide "c"%string]]].

End MergeExample.

Module AnalyzeExample.

Definition three_parts : list str :=
  [of_string "a"%string; of_string "b"%string; of_string "c"%string].

(** A model that repeats the part it is given. *)
Definition echo : str -> nat -> nat -> option str :=
  fun part _ _ => Some part.

(** The same model, with a failing request for the third part. *)
Definition fails_on_third : str -> nat -> nat -> option str :=
  fun part part_num _ => if part_num =? 2 then None else Some part.

(** A parser that reads every text as one string. *)
Definition text_load (s : str) : option value := Some (VStr s).

End AnalyzeExample.

Import AnalyzeExample.

Module AdjustExample.

(** [repr] of a string without quotes, backslashes or control characters. *)
Definition simple_repr (s : str) : str :=
  of_string "'"%string ++ s ++ of_string "'"%string.

(** [yaml.safe_load] on the replies used below. *)
Definition toy_load (s : str) : option value :=
  if str_eqb s (of_string "[]"%string) then Some (VList [])
  else if str_eqb s (join [NL] [of_string "- A"%string; of_string "- B"%string;
                                of_string "- C"%string])
  then Some (VList [VStr (of_string "A"%string); VStr (of_string "B"%string);
                    VStr (of_string "C"%string)])
  else None.

Definition text_of (v : value) : str :=
  match v with
  | VStr t => t ++ [NL]
  | VList l =>
      flat_map (fun x => match x with VStr t => t ++ [NL] | _ => [] end) l
  | _ => []
  end.

(** A stand-in for [yaml.dump] that writes the texts of the slides, one
    per line. *)
Definition plain_dump (doc : document) : str :=
  flat_map (fun sec =>
              flat_map (fun s =>
                          text_of (slide_title s) ++ text_of (slide_content s)
                          ++ text_of (slide_teaching_points s))
                       (section_slides sec))
           (sections doc).

(** One slide whose content is a line of 3000 hiragana letters, of three
    bytes each. *)
Definition japanese_document : document :=
  mkDocument (VStr (of_string "Lecture"%string))
    [mkSection (of_string "1"%string) (VStr (of_string "Intro"%string))
       [mkSlide (of_string "1"%string) (VStr (of_string "T1"%string))
          (VList [VStr (repeat 12354%N (N.to_nat 3000))])
          (VStr (of_string "note"%string))]].

(** A model that answers [summary] to the request for a section (the one
    with 1000 tokens) and "ok" to the requests for slides. *)
Definition reply_with (summary : str) : trace -> call -> option str :=
  fun _ c =>
    if (call_max_tokens c =? 1000)%Z then Some summary
    else Some (of_string "ok"%string).

(** A model whose every request fails. *)
Definition unreachable : trace -> call -> option str := fun _ _ => None.

(** The title of slide [i]: "T", the number, and 1000 letters.  Titles
    are never shortened by the adjuster. *)
Definition long_title (i : nat) : str :=
  of_string "T"%string ++ str_of_nat i ++ repeat 120%N 1000.

Definition titled_slides (n : nat) : list slide :=
  map (fun i =>
         mkSlide (str_of_nat i) (VStr (long_title i))
           (VList [VStr (of_string "point"%string)])
           (VStr (of_string "note"%string)))
      (seq 1 n).

Definition eleven_slides : list slide := titled_slides 11.

(** One section of eleven slides; too large before and after the pass over
    the slides. *)
Definition big_document : document :=
  mkDocument (VStr (of_string "Lecture"%string))
    [mkSection (of_string "1"%string) (VStr (of_string "Intro"%string))
       eleven_slides].

(** One section of nine slides, 9126 characters. *)
Definition in_band_document : document :=
  mkDocument (VStr (of_string "Lecture"%string))
    [mkSection (of_string "1"%string) (VStr (of_string "Intro"%string))
       (titled_slides 9)].


Definition three_entries : str :=
  join [NL] [of_string "- A"%string; of_string "- B"%string;
             of_string "- C"%string].

End AdjustExample.

Import AdjustExample.

(** The runs used below, evaluated once. *)
Definition compressed_big :=
  Eval vm_compute in
    for_each_slide (compress_slide (reply_with three_entries) simple_repr)
      big_document [].

Definition big_after_compression : document :=
  match fst compressed_big with
  | Ok mid => mid
  | Raise _ => big_document
  end.

Definition three_entries_run :=
  Eval vm_compute in
    adjust_yaml_size (reply_with three_entries) toy_load plain_dump
      simple_repr big_document 10000 [].

Definition three_entries_document : document :=
  match fst three_entries_run with
  | Ok doc => doc
  | Raise _ => big_document
  end.



(** A document whose only section has no slide. *)
Definition slideless_document : document :=
  mkDocument (VStr (of_string "Lecture"%string))
    [mkSection (of_string "1"%string) (VStr (of_string "Intro"%string)) []].

Module SubtitleExample.

(** A subtitle of two lines: the second line is read as the speaker. *)
Definition says (speaker text : String.string) : str :=
  of_string text ++ [NL] ++ of_string speaker.

Definition dialogue : list str :=
  [says "Ann"%string "Hello. "%string; says "Ann"%string "How are you?"%string;
   says "Bob"%string "Fine."%string].

End SubtitleExample.

Module SplitterExample.

(** A mapping with three file entries. *)
Definition three_files : list value :=
  [VStr (of_string "a"%string); VStr (of_string "b"%string);
   VStr (of_string "c"%string)].

Definition listing : list (value * value) :=
  [(VStr k_lecture_name, VStr (of_string "Lecture"%string));
   (VStr k_file, VList three_files)].


End SplitterExample.

Module PipelineExample.

(** A model that answers every chunk with the same text, and a parser
    that reads it as a lecture of one section with one slide. *)
Definition lecture_reply : str -> nat -> nat -> option str :=
  fun _ _ _ => Some (of_string "lecture"%string).

Definition lecture_load (s : str) : option value :=
  if str_eqb s (of_string "lecture"%string)
  then Some (MergeExample.a_part
               [MergeExample.a_section "Intro"%string
                  [MergeExample.a_slide "a"%string]])
  else None.

Definition files : list document :=
  Eval vm_compute in
    match analysis_files lecture_reply lecture_load
            (of_string "hello"%string) with
    | Ok fs => fs
    | Raise _ => []
    end.

End PipelineExample.

Module PartitionExample.

(** One chunk result with nine sections of one slide each. *)
Definition section_names : list String.string :=
  ["S1"; "S2"; "S3"; "S4"; "S5"; "S6"; "S7"; "S8"; "S9"]%string.

Definition nine_sections : list value :=
  [MergeExample.a_part
     (map (fun n => MergeExample.a_section n [MergeExample.a_slide "a"%string])
        section_names)].

Definition merged : merge_state :=
  Eval vm_compute in
    match merge_parts nine_sections with
    | Ok st => st
    | Raise _ => empty_state
    end.

Definition files : list document :=
  Eval vm_compute in
    match yaml_files (VStr (of_string "Lecture"%string)) merged with
    | Ok fs => fs
    | Raise _ => []
    end.

End PartitionExample.

(** * Properties *)

(** ** Facts about strings *)

Section StrFacts.

Lemma nonempty_rev (s : str) : nonempty (rev s) = nonempty s.
Proof.
  destruct s as [|c s]; [reflexivity|].
  simpl. destruct (rev s); reflexivity.
Qed.

Lemma has_ink_app (a b : str) : has_ink (a ++ b) = has_ink a || has_ink b.
Proof. apply existsb_app. Qed.

Lemma has_ink_rev (s : str) : has_ink (rev s) = has_ink s.
Proof.
  induction s as [|c s IH]; [reflexivity|].
  simpl. rewrite has_ink_app, IH. simpl.
  rewrite orb_false_r. apply orb_comm.
Qed.

Lemma lstrip_nonempty (s : str) : nonempty (lstrip s) = has_ink s.
Proof.
  induction s as [|c s IH]; [reflexivity|].
  simpl. destruct (isspace c); simpl; [exact IH | reflexivity].
Qed.

Lemma lstrip_ink (s : str) : has_ink (lstrip s) = has_ink s.
Proof.
  induction s as [|c s IH]; [reflexivity|].
  simpl. destruct (isspace c) eqn:E; simpl; [exact IH |].
  rewrite E. reflexivity.
Qed.

(** [s.strip()] is non-empty exactly when [s] has ink. *)
Lemma nonblank_ink (s : str) : nonblank s = has_ink s.
Proof.
  unfold nonblank, strip, rstrip.
  rewrite nonempty_rev, lstrip_nonempty, has_ink_rev. apply lstrip_ink.
Qed.

Lemma join_cons2 (sep p q : str) (l : list str) :
  join sep (p :: q :: l) = p ++ sep ++ join sep (q :: l).
Proof. reflexivity. Qed.

Lemma join_app (sep : str) (a b : list str) :
  a <> [] -> b <> [] ->
  join sep (a ++ b) = join sep a ++ sep ++ join sep b.
Proof.
  intros Ha Hb. induction a as [|p a IH]; [congruence|].
  destruct a as [|q a].
  - destruct b as [|r b]; [congruence|]. reflexivity.
  - change ((p :: q :: a) ++ b) with (p :: q :: (a ++ b)).
    rewrite !join_cons2.
    change (q :: a ++ b) with ((q :: a) ++ b).
    rewrite IH by discriminate.
    rewrite <- !app_assoc. reflexivity.
Qed.

(** Joining the joins of non-empty groups is joining their concatenation. *)
Lemma join_concat (sep : str) (gs : list (list str)) :
  Forall (fun g => g <> []) gs ->
  join sep (map (join sep) gs) = join sep (concat gs).
Proof.
  induction 1 as [|g gs Hg Hgs IH]; [reflexivity|].
  destruct gs as [|g' gs].
  - simpl. rewrite app_nil_r. reflexivity.
  - change (map (join sep) (g :: g' :: gs))
      with (join sep g :: join sep g' :: map (join sep) gs).
    rewrite join_cons2.
    change (join sep g' :: map (join sep) gs) with (map (join sep) (g' :: gs)).
    rewrite IH.
    change (concat (g :: g' :: gs)) with (g ++ concat (g' :: gs)).
    rewrite join_app; [reflexivity | assumption |].
    inversion Hgs as [|? ? Hg' _]; subst.
    simpl. destruct g'; [congruence | discriminate].
Qed.

Lemma join_ink (sep : str) (l : list str) :
  l <> [] -> Forall (fun p => has_ink p = true) l ->
  has_ink (join sep l) = true.
Proof.
  intros Hne H. destruct H as [|p l Hp Hl]; [congruence|].
  destruct l as [|q l]; [exact Hp|].
  rewrite join_cons2, has_ink_app, Hp. reflexivity.
Qed.

End StrFacts.

(** ** Splitting on blank lines and joining again *)

Section BlankLines.

Lemma split_blankline_cons2 (c d : char) (s : str) :
  split_blankline (c :: d :: s) =
  if char_eqb c NL && char_eqb d NL then [] :: split_blankline s
  else cons_head c (split_blankline (d :: s)).
Proof. reflexivity. Qed.

Lemma sep_free_cons2 (c d : char) (p : str) :
  sep_free (c :: d :: p) =
  negb (char_eqb c NL && char_eqb d NL) && sep_free (d :: p).
Proof. reflexivity. Qed.

Lemma pieces_ok_cons2 (p q : str) (l : list str) :
  pieces_ok (p :: q :: l) = inner p && pieces_ok (q :: l).
Proof. reflexivity. Qed.

Lemma str_pair_ind (P : str -> Prop) :
  P [] -> (forall c, P [c]) ->
  (forall c d s, P s -> P (d :: s) -> P (c :: d :: s)) ->
  forall s, P s.
Proof.
  intros H0 H1 H2 s.
  enough (P s /\ forall c, P (c :: s)) by tauto.
  induction s as [|d s [IHa IHb]]; split; auto.
Qed.

Lemma sep_free_app_l (a b : str) : sep_free (a ++ b) = true -> sep_free a = true.
Proof.
  induction a as [|c a IH]; [reflexivity|].
  destruct a as [|d a]; [reflexivity|].
  change ((c :: d :: a) ++ b) with (c :: d :: (a ++ b)).
  rewrite !sep_free_cons2. intros H. apply andb_true_iff in H as [H1 H2].
  rewrite H1. apply IH. exact H2.
Qed.

Lemma inner_sep_free (p : str) : inner p = true -> sep_free p = true.
Proof. apply sep_free_app_l. Qed.

Lemma split_blankline_nonnil (s : str) : split_blankline s <> [].
Proof.
  induction s as [| |c d s IHs IHd] using str_pair_ind; try discriminate.
  rewrite split_blankline_cons2.
  destruct (char_eqb c NL && char_eqb d NL); [discriminate|].
  destruct (split_blankline (d :: s)); discriminate.
Qed.

(** A piece that is [inner] is cut off at the blank line that follows it. *)
Lemma split_piece (p rest : str) :
  inner p = true ->
  split_blankline (p ++ NL :: NL :: rest) = p :: split_blankline rest.
Proof.
  induction p as [|c p IH]; intros Hp; [reflexivity|].
  destruct p as [|d p].
  - unfold inner in Hp. cbn in Hp. cbn.
    rewrite andb_true_r in Hp. apply negb_true_iff in Hp.
    unfold char_eqb in *. rewrite Hp. simpl. reflexivity.
  - unfold inner in Hp, IH.
    change ((c :: d :: p) ++ [NL]) with (c :: d :: (p ++ [NL])) in Hp.
    rewrite sep_free_cons2 in Hp. apply andb_true_iff in Hp as [H1 H2].
    change ((c :: d :: p) ++ NL :: NL :: rest)
      with (c :: d :: (p ++ NL :: NL :: rest)).
    rewrite split_blankline_cons2. apply negb_true_iff in H1. rewrite H1.
    change (d :: p ++ NL :: NL :: rest) with ((d :: p) ++ NL :: NL :: rest).
    rewrite IH by exact H2. reflexivity.
Qed.

Lemma split_last (p : str) : sep_free p = true -> split_blankline p = [p].
Proof.
  induction p as [| |c d p _ IHd] using str_pair_ind; intros Hp; try reflexivity.
  rewrite sep_free_cons2 in Hp. apply andb_true_iff in Hp as [H1 H2].
  rewrite split_blankline_cons2. apply negb_true_iff in H1. rewrite H1.
  rewrite IHd by exact H2. reflexivity.
Qed.

(** Splitting a join of well-formed pieces gives the pieces back. *)
Lemma split_join (l : list str) :
  pieces_ok l = true -> l <> [] ->
  split_blankline (join blank_line l) = l.
Proof.
  induction l as [|p l IH]; intros Hok Hne; [congruence|].
  destruct l as [|q l].
  - simpl. apply split_last. exact Hok.
  - rewrite pieces_ok_cons2 in Hok. apply andb_true_iff in Hok as [H1 H2].
    rewrite join_cons2. unfold blank_line at 1.
    change ([NL; NL] ++ join blank_line (q :: l))
      with (NL :: NL :: join blank_line (q :: l)).
    rewrite split_piece by exact H1.
    rewrite IH; [reflexivity | exact H2 | discriminate].
Qed.

(** The first piece of a split starts with the first character of the text,
    unless the text starts with a blank line. *)
Lemma split_first (d : char) (s : str) :
  (exists ps, ps <> [] /\ split_blankline (d :: s) = [] :: ps /\ d = NL)
  \/ (exists p ps, split_blankline (d :: s) = (d :: p) :: ps).
Proof.
  destruct s as [|e s].
  - right. exists [], []. reflexivity.
  - rewrite split_blankline_cons2.
    pose proof (split_blankline_nonnil (e :: s)) as Hn.
    destruct (char_eqb d NL && char_eqb e NL) eqn:E.
    + left. exists (split_blankline s). split; [apply split_blankline_nonnil|].
      split; [reflexivity|]. apply andb_true_iff in E as [Ed _].
      apply N.eqb_eq. exact Ed.
    + right. destruct (split_blankline (e :: s)) as [|p ps]; [congruence|].
      exists p, ps. reflexivity.
Qed.

Lemma split_pieces_ok (s : str) : pieces_ok (split_blankline s) = true.
Proof.
  induction s as [| |c d s IHs IHd] using str_pair_ind; try reflexivity.
  rewrite split_blankline_cons2.
  destruct (char_eqb c NL && char_eqb d NL) eqn:E.
  - pose proof (split_blankline_nonnil s) as Hn.
    destruct (split_blankline s) as [|p ps]; [congruence|].
    rewrite pieces_ok_cons2, IHs. reflexivity.
  - destruct (split_first d s) as [(ps & Hps & Hs & Hd) | (p & ps & Hs)];
      rewrite Hs in IHd |- *; cbn [cons_head].
    + destruct ps as [|q ps]; [congruence|].
      rewrite pieces_ok_cons2 in IHd |- *.
      apply andb_true_iff in IHd as [_ H2]. rewrite H2, andb_true_r.
      subst d. unfold inner. change ([c] ++ [NL]) with [c; NL].
      rewrite sep_free_cons2, E. reflexivity.
    + destruct ps as [|q ps].
      * cbn [pieces_ok] in IHd |- *. rewrite sep_free_cons2, E. exact IHd.
      * rewrite pieces_ok_cons2 in IHd |- *.
        apply andb_true_iff in IHd as [H1 H2]. rewrite H2, andb_true_r.
        unfold inner in *.
        change ((c :: d :: p) ++ [NL]) with (c :: d :: (p ++ [NL])).
        rewrite sep_free_cons2, E. exact H1.
Qed.

Lemma filter_pieces_ok (f : str -> bool) (l : list str) :
  pieces_ok l = true -> pieces_ok (filter f l) = true.
Proof.
  induction l as [|p l IH]; intros Hok; [reflexivity|].
  assert (Hl : pieces_ok l = true).
  { destruct l as [|q l]; [reflexivity|].
    rewrite pieces_ok_cons2 in Hok. apply andb_true_iff in Hok. tauto. }
  assert (Hp : sep_free p = true).
  { destruct l as [|q l]; [exact Hok|].
    rewrite pieces_ok_cons2 in Hok. apply andb_true_iff in Hok as [H1 _].
    apply inner_sep_free. exact H1. }
  cbn [filter]. destruct (f p); [|auto].
  destruct (filter f l) as [|q' l'] eqn:Ef; [exact Hp|].
  rewrite pieces_ok_cons2, (IH Hl), andb_true_r.
  destruct l as [|q l]; [discriminate|].
  rewrite pieces_ok_cons2 in Hok. apply andb_true_iff in Hok. tauto.
Qed.

Lemma filter_idem {A} (f : A -> bool) (l : list A) :
  filter f (filter f l) = filter f l.
Proof.
  induction l as [|a l IH]; [reflexivity|].
  simpl. destruct (f a) eqn:E; simpl; rewrite ?E, IH; reflexivity.
Qed.

(** Joining the paragraphs of a text with blank lines and splitting again
    yields the same paragraphs. *)
Lemma paragraphs_of_join (text : str) :
  paragraphs_of (join blank_line (paragraphs_of text)) = paragraphs_of text.
Proof.
  unfold paragraphs_of at 1.
  destruct (paragraphs_of text) as [|p l] eqn:E; [reflexivity|].
  rewrite split_join.
  - rewrite <- E. unfold paragraphs_of. apply filter_idem.
  - rewrite <- E. apply filter_pieces_ok, split_pieces_ok.
  - discriminate.
Qed.

End BlankLines.

(** ** Grouping a list into consecutive slices *)

Section Slices.

Context {A : Type}.

Lemma firstn_plus (a b : nat) (l : list A) :
  firstn (a + b) l = firstn a l ++ firstn b (skipn a l).
Proof.
  revert l. induction a as [|a IH]; intros l; [reflexivity|].
  destruct l as [|x l]; [destruct b; reflexivity|].
  simpl. rewrite IH. reflexivity.
Qed.

Lemma slice_width (i k : nat) (l : list A) :
  slice i (i + k) l = firstn k (skipn i l).
Proof. unfold slice. replace (i + k - i) with k by lia. reflexivity. Qed.

(** The first [m] slices of width [k] make up the first [m * k] elements. *)
Lemma concat_groups (k m : nat) (l : list A) :
  concat (map (fun j => firstn k (skipn (j * k) l)) (seq 0 m))
  = firstn (m * k) l.
Proof.
  induction m as [|m IH]; [reflexivity|].
  rewrite seq_S, map_app, concat_app, IH. simpl.
  rewrite app_nil_r. replace (k + m * k) with (m * k + k) by lia.
  symmetry. apply firstn_plus.
Qed.

Lemma group_nonempty (k i : nat) (l : list A) :
  0 < k -> i < length l -> firstn k (skipn i l) <> [].
Proof.
  intros Hk Hi E. apply (f_equal (@length A)) in E.
  rewrite length_firstn, length_skipn in E. simpl in E. lia.
Qed.

Lemma group_incl (k i : nat) (l : list A) (x : A) :
  In x (firstn k (skipn i l)) -> In x l.
Proof.
  intros H.
  rewrite <- (firstn_skipn i l). apply in_or_app. right.
  rewrite <- (firstn_skipn k (skipn i l)). apply in_or_app. left. exact H.
Qed.

End Slices.

(** ** Properties of the chunker *)

Section ChunkerFacts.

Lemma ceil_div_bounds (n p : Z) :
  (0 < p)%Z ->
  ((py_ceil_div n p - 1) * p < n <= py_ceil_div n p * p)%Z.
Proof.
  intros Hp. unfold py_ceil_div.
  pose proof (Z.div_mod (- n) p ltac:(lia)) as Hd.
  pose proof (Z.mod_pos_bound (- n) p Hp) as Hm.
  nia.
Qed.

Lemma paragraphs_of_ink (text : str) :
  Forall (fun p => has_ink p = true) (paragraphs_of text).
Proof.
  apply Forall_forall. intros p Hp.
  apply filter_In in Hp as [_ Hp]. rewrite <- nonblank_ink. exact Hp.
Qed.

(** The grouping loop of lines 33-37 on a list of inked paragraphs. *)
Lemma grouped_join (ps : list str) (k m : nat) :
  Forall (fun p => has_ink p = true) ps ->
  0 < k -> length ps <= m * k -> (forall j, j < m -> j * k < length ps) ->
  let parts :=
    filter nonblank
      (map (fun i => join blank_line (slice i (i + k) ps))
           (map (fun j => j * k) (seq 0 m))) in
  join blank_line parts = join blank_line ps.
Proof.
  intros Hink Hk Hcover Hin parts. subst parts.
  rewrite map_map.
  rewrite (map_ext _ (fun j => join blank_line (firstn k (skipn (j * k) ps))))
    by (intros j; rewrite slice_width; reflexivity).
  rewrite <- (map_map (fun j => firstn k (skipn (j * k) ps)) (join blank_line)).
  set (gs := map (fun j => firstn k (skipn (j * k) ps)) (seq 0 m)).
  assert (Hgs : Forall (fun g => g <> []) gs).
  { apply Forall_forall. intros g Hg. apply in_map_iff in Hg as (j & <- & Hj).
    apply in_seq in Hj. apply group_nonempty; [exact Hk | apply Hin; lia]. }
  rewrite forallb_filter_id.
  - rewrite join_concat by exact Hgs. unfold gs.
    rewrite concat_groups, firstn_all2 by exact Hcover. reflexivity.
  - apply forallb_forall. intros c Hc.
    apply in_map_iff in Hc as (g & <- & Hg).
    rewrite nonblank_ink. apply join_ink.
    + rewrite Forall_forall in Hgs. apply Hgs. exact Hg.
    + apply Forall_forall. intros p Hp.
      apply in_map_iff in Hg as (j & <- & _). apply group_incl in Hp.
      rewrite Forall_forall in Hink. apply Hink. exact Hp.
Qed.

End ChunkerFacts.

(** C3 (as amended): for every text and every [num_parts >= 1], [split_text]
    returns chunks; joining them with blank lines gives the same string as
    joining the non-blank paragraphs of the text, and splitting that string
    into paragraphs again gives exactly the paragraphs of the text, in
    order. *)
Theorem split_text_reconstructs (text : str) (num_parts : Z) :
  (1 <= num_parts)%Z ->
  exists chunks,
    split_text text num_parts = Ok chunks
    /\ join blank_line chunks = join blank_line (paragraphs_of text)
    /\ paragraphs_of (join blank_line chunks) = paragraphs_of text.
Proof.
  intros Hn.
  assert (Hjoin : exists chunks,
             split_text text num_parts = Ok chunks
             /\ join blank_line chunks = join blank_line (paragraphs_of text)).
  { unfold split_text.
    destruct (Z.of_nat (length (paragraphs_of text)) <=? num_parts)%Z eqn:Hle.
    { eexists. split; reflexivity. }
    apply Z.leb_gt in Hle.
    destruct (num_parts =? 0)%Z eqn:Hz; [apply Z.eqb_eq in Hz; lia|].
    set (n := length (paragraphs_of text)) in *.
    set (per := py_ceil_div (Z.of_nat n) num_parts).
    pose proof (ceil_div_bounds (Z.of_nat n) num_parts ltac:(lia)) as Hper.
    fold per in Hper.
    assert (Hpos : (0 < per)%Z) by nia.
    unfold py_range0.
    destruct (per =? 0)%Z eqn:Hp0; [apply Z.eqb_eq in Hp0; lia|].
    destruct (per <? 0)%Z eqn:Hp1; [apply Z.ltb_lt in Hp1; lia|].
    eexists. split; [reflexivity|].
    pose proof (ceil_div_bounds (Z.of_nat n) per Hpos) as Hm.
    set (m := py_ceil_div (Z.of_nat n) per) in *.
    apply grouped_join.
    - apply paragraphs_of_ink.
    - lia.
    - fold n. nia.
    - fold n. intros j Hj. nia. }
  destruct Hjoin as (chunks & Hs & Hj).
  exists chunks. split; [exact Hs|]. split; [exact Hj|].
  rewrite Hj. apply paragraphs_of_join.
Qed.

Lemma split_text_reconstructs_witness :
  exists chunks,
    split_text (of_string "a

b

c"%string) 2 = Ok chunks
    /\ join blank_line chunks
       = join blank_line (paragraphs_of (of_string "a

b

c"%string))
    /\ paragraphs_of (join blank_line chunks)
       = paragraphs_of (of_string "a

b

c"%string).
Proof. apply split_text_reconstructs. lia. Defined.

(** Three paragraphs and eight parts: one chunk per paragraph. *)
Example split_text_three_paragraphs :
  split_text (of_string "one

two

three"%string) 8
  = Ok [of_string "one"%string; of_string "two"%string;
        of_string "three"%string].
Proof. reflexivity. Qed.

(** C3 as stated fails for [num_parts <= 0]: with [num_parts = 0] and a
    non-empty text line 30 divides by zero, and with [num_parts = -1] the
    range of line 34 is empty and every paragraph is lost. *)
Lemma split_text_nonpositive_parts :
  split_text (of_string "a"%string) 0 = Raise ZeroDivisionError
  /\ split_text (of_string "a"%string) (-1) = Ok []
  /\ paragraphs_of (join blank_line [])
     <> paragraphs_of (of_string "a"%string).
Proof.
  split; [reflexivity|]. split; [reflexivity|]. discriminate.
Qed.

(** ** Facts about the monadic loops *)

Section Loops.

Context {A S : Type}.

Lemma foldM_app (f : S -> A -> result S) (s : S) (l1 l2 : list A) :
  foldM f s (l1 ++ l2) = (s' <- foldM f s l1 ;; foldM f s' l2).
Proof.
  revert s. induction l1 as [|a l1 IH]; intros s; [reflexivity|].
  simpl. destruct (f s a) as [s1|e]; simpl; [apply IH | reflexivity].
Qed.

(** A property kept by every step is kept by the loop. *)
Lemma foldM_invariant (P : S -> Prop) (f : S -> A -> result S) :
  (forall s a s', P s -> f s a = Ok s' -> P s') ->
  forall l s s', P s -> foldM f s l = Ok s' -> P s'.
Proof.
  intros Hstep l. induction l as [|a l IH]; intros s s' Hs H.
  - inversion H; subst. exact Hs.
  - simpl in H. destruct (f s a) as [s1|e] eqn:E; [|discriminate].
    simpl in H. eapply IH; [|exact H]. eapply Hstep; eassumption.
Qed.

End Loops.

(** ** Invariant of the merge *)

Section MergeFacts.

Lemma str_eqb_refl (s : str) : str_eqb s s = true.
Proof.
  induction s as [|c s IH]; [reflexivity|].
  simpl. unfold char_eqb. rewrite N.eqb_refl. exact IH.
Qed.

Lemma str_eqb_eq (s t : str) : str_eqb s t = true -> s = t.
Proof.
  revert t. induction s as [|c s IH]; intros [|d t] H; try discriminate.
  - reflexivity.
  - simpl in H. apply andb_true_iff in H as [H1 H2].
    apply N.eqb_eq in H1. f_equal; auto.
Qed.

Lemma key_eqb_refl (k : value) : Py.hashable k = true -> Py.key_eqb k k = true.
Proof.
  destruct k; simpl; intros H; try discriminate; try reflexivity.
  - destruct b; reflexivity.
  - apply Z.eqb_refl.
  - apply str_eqb_refl.
Qed.

Lemma distinct_keys_snoc (ks : list value) (name : value) :
  distinct_keys ks -> Py.hashable name = true ->
  (forall k, In k ks -> Py.key_eqb k name = false) ->
  distinct_keys (ks ++ [name]).
Proof.
  induction ks as [|k ks IH]; intros Hd Hh Hn.
  - simpl. repeat split; [exact Hh | intros k' []].
  - destruct Hd as (Hk & Hks & Hd). simpl. repeat split.
    + exact Hk.
    + intros k' Hin. apply in_app_or in Hin as [Hin | [<- | []]].
      * apply Hks. exact Hin.
      * apply Hn. left. reflexivity.
    + apply IH; [exact Hd | exact Hh |].
      intros k' Hin. apply Hn. right. exact Hin.
Qed.

Lemma distinct_keys_NoDup (ks : list value) : distinct_keys ks -> NoDup ks.
Proof.
  induction ks as [|k ks IH]; intros Hd; constructor.
  - destruct Hd as (Hk & Hks & _). intros Hin.
    specialize (Hks k Hin). rewrite key_eqb_refl in Hks by exact Hk.
    discriminate.
  - apply IH. apply Hd.
Qed.

Lemma dict_mem_false (name : value) (d : list (value * list slide)) :
  dict_mem name d = false ->
  forall k, In k (map fst d) -> Py.key_eqb k name = false.
Proof.
  unfold dict_mem. intros H k Hin.
  apply in_map_iff in Hin as (kv & <- & Hkv).
  destruct (Py.key_eqb (fst kv) name) eqn:E; [|reflexivity].
  assert (existsb (fun kv => Py.key_eqb (fst kv) name) d = true)
    by (apply existsb_exists; eauto).
  congruence.
Qed.

Lemma dict_append_keys (name : value) (x : slide) (d : list (value * list slide)) :
  map fst (dict_append name x d) = map fst d.
Proof.
  induction d as [|[k v] d IH]; [reflexivity|].
  simpl. destruct (Py.key_eqb k name); simpl; [reflexivity | f_equal; exact IH].
Qed.

Lemma merge_slides_keys (name : value) (items : list value) :
  forall n d d', merge_slides name n items d = Ok d' -> map fst d' = map fst d.
Proof.
  induction items as [|sl items IH]; intros n d d' H.
  - inversion H; subst. reflexivity.
  - simpl in H. destruct (merge_slide n sl) as [x|e]; [|discriminate].
    simpl in H. apply IH in H. rewrite H. apply dict_append_keys.
Qed.

Lemma merge_section_well_formed (st st' : merge_state) (sec : value) :
  well_formed st -> merge_section st sec = Ok st' -> well_formed st'.
Proof.
  intros [Hk Hd] H. unfold merge_section in H.
  destruct (Py.get sec k_name VNone) as [name|e]; [|discriminate].
  simpl in H.
  destruct (Py.truthy name); simpl in H;
    [|inversion H; subst; split; assumption].
  destruct (Py.hashable name) eqn:Hh; simpl in H; [|discriminate].
  destruct (Py.get sec k_slides (VList [])) as [slides|e]; [|discriminate].
  simpl in H. destruct (Py.iter slides) as [items|e]; [|discriminate].
  simpl in H.
  destruct (dict_mem name (sections_dict st)) eqn:Hm.
  - destruct (merge_slides name 1 items (sections_dict st)) as [d|e] eqn:Ed;
      [|discriminate].
    inversion H; subst. apply merge_slides_keys in Ed.
    split; simpl; [congruence | exact Hd].
  - cbn [sections_dict section_order] in H.
    destruct (merge_slides name 1 items (sections_dict st ++ [(name, [])]))
      as [d|e] eqn:Ed; [|discriminate].
    inversion H; subst. apply merge_slides_keys in Ed.
    split; simpl.
    + rewrite Ed, map_app, Hk. reflexivity.
    + apply distinct_keys_snoc; [exact Hd | exact Hh |].
      rewrite <- Hk. apply dict_mem_false. exact Hm.
Qed.

Lemma merge_part_well_formed (st st' : merge_state) (part : value) :
  well_formed st -> merge_part st part = Ok st' -> well_formed st'.
Proof.
  intros Hwf H. unfold merge_part in H.
  destruct (Py.get part k_sections (VList [])) as [secs|e]; [|discriminate].
  simpl in H. destruct (Py.iter secs) as [items|e]; [|discriminate].
  simpl in H.
  eapply (foldM_invariant well_formed); [|exact Hwf|exact H].
  intros s a s'. apply merge_section_well_formed.
Qed.

Lemma merge_parts_well_formed (yaml_parts : list value) (st : merge_state) :
  merge_parts yaml_parts = Ok st -> well_formed st.
Proof.
  intros H.
  eapply (foldM_invariant well_formed); [| |exact H].
  - intros s a s'. apply merge_part_well_formed.
  - split; simpl; auto.
Qed.

Lemma first_seen_app (seen a b : list value) :
  first_seen seen (a ++ b) = first_seen (first_seen seen a) b.
Proof.
  revert seen. induction a as [|x a IH]; intros seen; [reflexivity|].
  simpl. apply IH.
Qed.

Lemma dict_mem_keys (name : value) (d : list (value * list slide)) :
  dict_mem name d = existsb (fun k => Py.key_eqb k name) (map fst d).
Proof.
  unfold dict_mem. induction d as [|kv d IH]; [reflexivity|].
  simpl. rewrite IH. reflexivity.
Qed.

Lemma merge_section_order (st st' : merge_state) (sec : value) :
  well_formed st -> merge_section st sec = Ok st' ->
  section_order st' = first_seen (section_order st) (section_key sec).
Proof.
  intros [Hk _] H. unfold merge_section in H. unfold section_key.
  destruct (Py.get sec k_name VNone) as [name|e]; [|discriminate].
  simpl in H.
  destruct (Py.truthy name); simpl in H; [|inversion H; reflexivity].
  destruct (Py.hashable name); simpl in H; [|discriminate].
  destruct (Py.get sec k_slides (VList [])) as [slides|e]; [|discriminate].
  simpl in H. destruct (Py.iter slides) as [items|e]; [|discriminate].
  simpl in H. cbn [first_seen]. rewrite <- Hk, <- dict_mem_keys.
  destruct (dict_mem name (sections_dict st)).
  - destruct (merge_slides name 1 items (sections_dict st)); [|discriminate].
    inversion H; subst. simpl. congruence.
  - cbn [sections_dict section_order] in H.
    destruct (merge_slides name 1 items (sections_dict st ++ [(name, [])]));
      [|discriminate].
    inversion H; subst. simpl. congruence.
Qed.

Lemma merge_sections_order (items : list value) :
  forall st st',
    well_formed st -> foldM merge_section st items = Ok st' ->
    section_order st'
    = first_seen (section_order st) (flat_map section_key items).
Proof.
  induction items as [|sec items IH]; intros st st' Hwf H.
  - inversion H; subst. reflexivity.
  - simpl in H. destruct (merge_section st sec) as [st1|e] eqn:E;
      [|discriminate].
    simpl in H. simpl flat_map. rewrite first_seen_app.
    rewrite (IH st1 st');
      [|eapply merge_section_well_formed; eassumption | exact H].
    rewrite (merge_section_order st st1 sec Hwf E). reflexivity.
Qed.

(** The order list of a merge is the list of the section names in the
    order in which the chunks first mention them. *)
Lemma merge_first_seen_order (yaml_parts : list value) (st : merge_state) :
  merge_parts yaml_parts = Ok st ->
  section_order st = first_seen [] (flat_map part_keys yaml_parts).
Proof.
  unfold merge_parts.
  change (@nil value) with (section_order empty_state).
  assert (Hwf : well_formed empty_state) by (split; simpl; auto).
  revert Hwf. generalize empty_state.
  induction yaml_parts as [|part parts IH]; intros st0 Hwf H.
  - inversion H; subst. reflexivity.
  - simpl in H. destruct (merge_part st0 part) as [st1|e] eqn:E;
      [|discriminate].
    simpl in H. simpl flat_map. rewrite first_seen_app.
    rewrite (IH st1); [|eapply merge_part_well_formed; eassumption | exact H].
    f_equal. unfold merge_part in E. unfold part_keys.
    destruct (Py.get part k_sections (VList [])) as [secs|e]; [|discriminate].
    simpl in E. destruct (Py.iter secs) as [items|e]; [|discriminate].
    simpl in E. apply merge_sections_order; assumption.
Qed.

End MergeFacts.

(** ** Sections without a name *)

(** C10: a section whose name is absent or empty is skipped by the merge:
    the step returns the accumulators unchanged without raising, so the
    merged result is the one obtained without that section. *)
Theorem merge_skips_nameless (sec : value) :
  nameless sec ->
  (forall st, merge_section st sec = Ok st)
  /\ (forall st before after,
        foldM merge_section st (before ++ sec :: after)
        = foldM merge_section st (before ++ after)).
Proof.
  intros (d & -> & Hf).
  assert (Hskip : forall st, merge_section st (VDict d) = Ok st).
  { intros st. unfold merge_section, Py.get.
    destruct (Py.dict_get k_name d) as [v|]; simpl; rewrite ?Hf; reflexivity. }
  split; [exact Hskip|].
  intros st before after. rewrite !foldM_app.
  destruct (foldM merge_section st before) as [s1|e]; [|reflexivity].
  simpl. rewrite Hskip. reflexivity.
Qed.

Lemma merge_skips_nameless_witness :
  (forall st, merge_section st MergeExample.unnamed_section = Ok st)
  /\ (forall st before after,
        foldM merge_section st
          (before ++ MergeExample.unnamed_section :: after)
        = foldM merge_section st (before ++ after)).
Proof.
  apply merge_skips_nameless.
  eexists. split; [reflexivity | reflexivity].
Defined.

(** ** Slide numbers of a section fed by two chunks *)

Example merge_intro_intro_body :
  exists st,
    merge_parts MergeExample.intro_intro_body = Ok st
    /\ section_order st
       = [VStr (of_string "Intro"%string); VStr (of_string "Body"%string)]
    /\ map (fun kv => map slide_title (snd kv)) (sections_dict st)
       = [[VStr (of_string "a"%string); VStr (of_string "b"%string)];
          [VStr (of_string "c"%string)]].
Proof. eexists. split; [reflexivity|]. split; reflexivity. Qed.

(** C1, evaluated: when a later chunk adds a slide to a section that is
    already registered, line 397 numbers it from 1 again; the merged section
    "Intro" carries the slide numbers "1", "2", "1" instead of "1", "2",
    "3". *)
Theorem merge_restarts_numbering :
  exists slides,
    option_map sections_dict
      (match merge_parts MergeExample.two_chunks with
       | Ok st => Some st
       | Raise _ => None
       end)
    = Some [(VStr (of_string "Intro"%string), slides)]
    /\ map slide_title slides
       = [VStr (of_string "a"%string); VStr (of_string "b"%string);
          VStr (of_string "c"%string)]
    /\ map slide_number slides
       = [of_string "1"%string; of_string "2"%string; of_string "1"%string]
    /\ map slide_number slides <> map str_of_nat (seq 1 (length slides)).
Proof.
  eexists. split; [vm_compute; reflexivity|].
  split; [reflexivity|]. split; [reflexivity|]. vm_compute. discriminate.
Qed.

(** ** Properties of the partitioner *)

Section PartitionFacts.

Lemma dict_lookup_own (d : list (value * list slide)) :
  distinct_keys (map fst d) ->
  forall k v, In (k, v) d -> dict_lookup k d = Ok v.
Proof.
  induction d as [|[k0 v0] d IH]; intros Hd k v Hin; [destruct Hin|].
  destruct Hd as (Hh & Hne & Hd). unfold dict_lookup. simpl.
  destruct Hin as [E | Hin].
  - inversion E; subst. rewrite key_eqb_refl by exact Hh. reflexivity.
  - rewrite Hne by (apply in_map_iff; exists (k, v); auto).
    apply (IH Hd k v Hin).
Qed.

(** Pairs that carry the keys of [d] in order, each with the value stored
    under its key, are the items of [d]. *)
Lemma items_determined (d l : list (value * list slide)) :
  distinct_keys (map fst d) ->
  map fst l = map fst d ->
  (forall k v, In (k, v) l -> dict_lookup k d = Ok v) ->
  l = d.
Proof.
  revert l. induction d as [|[k0 v0] d IH]; intros l Hd Hk Hv.
  - destruct l; [reflexivity | discriminate].
  - destruct l as [|[k v] l]; [discriminate|].
    simpl in Hk. inversion Hk as [[Hk0 Hk']]. subst k.
    destruct Hd as (Hh & Hne & Hd).
    assert (E : dict_lookup k0 ((k0, v0) :: d) = Ok v) by (apply Hv; left; auto).
    unfold dict_lookup in E. simpl in E.
    rewrite key_eqb_refl in E by exact Hh. inversion E; subst v.
    f_equal. apply IH; [exact Hd | exact Hk' |].
    intros k v Hin.
    assert (E' : dict_lookup k ((k0, v0) :: d) = Ok v) by (apply Hv; right; auto).
    unfold dict_lookup in E' |- *. simpl in E'.
    rewrite Hne in E'; [exact E'|].
    rewrite <- Hk'. apply in_map_iff. exists (k, v). auto.
Qed.

Lemma number_sections_spec (d : list (value * list slide)) (names : list value) :
  (forall k, In k names -> exists v, In (k, v) d) ->
  distinct_keys (map fst d) ->
  forall n, exists secs,
    number_sections d n names = Ok secs
    /\ map section_name secs = names
    /\ map section_number secs = map str_of_nat (seq n (length names))
    /\ (forall s, In s secs ->
          dict_lookup (section_name s) d = Ok (section_slides s)).
Proof.
  intros Hin Hd. induction names as [|k names IH]; intros n.
  - exists []. repeat split. intros s [].
  - destruct (Hin k (or_introl eq_refl)) as (v & Hv).
    destruct (IH (fun k' H => Hin k' (or_intror H)) (S n))
      as (secs & Hs & Hn & Hnum & Hl).
    exists (mkSection (str_of_nat n) k v :: secs).
    simpl. rewrite (dict_lookup_own d Hd k v Hv). simpl. rewrite Hs. simpl.
    repeat split.
    + f_equal. exact Hn.
    + f_equal. exact Hnum.
    + intros s [<- | Hs']; [simpl; apply dict_lookup_own; assumption|].
      apply Hl. exact Hs'.
Qed.

(** The eight index ranges of lines 415-416 tile the list, whatever the
    width of the first seven. *)
Lemma ranges_cover {A} (w : nat) (l : list A) :
  concat (map (fun i => slice (i * w)
                          (if i <? 7 then (i + 1) * w else length l) l)
              (seq 0 8)) = l.
Proof.
  change (seq 0 8) with (seq 0 7 ++ [7]).
  rewrite map_app, concat_app.
  rewrite (map_ext_in _ (fun j => firstn w (skipn (j * w) l))).
  - rewrite concat_groups. simpl concat. rewrite app_nil_r.
    unfold slice. rewrite (firstn_all2 (n := length l - 7 * w)).
    + apply firstn_skipn.
    + rewrite length_skipn. lia.
  - intros i Hi. apply in_seq in Hi.
    destruct (Nat.ltb_spec i 7) as [_|]; [|lia].
    replace ((i + 1) * w) with (i * w + w) by lia. apply slice_width.
Qed.

Lemma slice_incl {A} (a b : nat) (l : list A) (x : A) :
  In x (slice a b l) -> In x l.
Proof. apply group_incl. Qed.

Lemma yaml_files_loop (name : value) (st : merge_state) (idx : list nat) :
  (forall i, In i idx -> exists secs, file_sections st i = Ok secs) ->
  forall files0, exists files,
    foldM (fun files i =>
             secs <- file_sections st i ;;
             Ok (match secs with
                 | [] => files
                 | _ :: _ => files ++ [mkDocument name secs]
                 end)) files0 idx = Ok (files0 ++ files)
    /\ concat (map sections files) = concat (map (sections_of_file st) idx)
    /\ Forall (fun f => sections f <> [] /\ lecture_name f = name) files
    /\ length files <= length idx.
Proof.
  induction idx as [|i idx IH]; intros Hok files0.
  - exists []. simpl. rewrite app_nil_r. repeat split; auto.
  - destruct (Hok i (or_introl eq_refl)) as (secs & Hsecs).
    simpl. unfold sections_of_file at 1. rewrite Hsecs. simpl.
    destruct secs as [|s secs].
    + destruct (IH (fun j H => Hok j (or_intror H)) files0)
        as (files & Hf & Hc & Hall & Hlen).
      exists files. repeat split; auto.
    + destruct (IH (fun j H => Hok j (or_intror H))
                  (files0 ++ [mkDocument name (s :: secs)]))
        as (files & Hf & Hc & Hall & Hlen).
      exists (mkDocument name (s :: secs) :: files).
      rewrite Hf, <- app_assoc. simpl. rewrite Hc.
      repeat split; auto; [|lia].
      constructor; [split; [discriminate | reflexivity] | exact Hall].
Qed.

End PartitionFacts.

(** C2: the files built from a merged result carry every merged section
    exactly once and in the merged order: the concatenation of their
    section lists, file after file, is the list of merged sections with
    their slides.  No name occurs twice, no file is empty and there are at
    most eight files. *)
Theorem partition_covers (yaml_parts : list value) (st : merge_state)
  (name : value) :
  merge_parts yaml_parts = Ok st ->
  exists files,
    yaml_files name st = Ok files
    /\ map section_pair (concat (map sections files)) = sections_dict st
    /\ map section_name (concat (map sections files)) = section_order st
    /\ NoDup (map section_name (concat (map sections files)))
    /\ Forall (fun f => sections f <> [] /\ lecture_name f = name) files
    /\ length files <= 8.
Proof.
  intros Hm. apply merge_parts_well_formed in Hm as [Hk Hd].
  assert (Hd' : distinct_keys (map fst (sections_dict st)))
    by (rewrite Hk; exact Hd).
  assert (Hfile : forall i, exists secs,
             file_sections st i = Ok secs
             /\ map section_name secs
                = slice (i * sections_per_file st)
                    (if i <? 7 then (i + 1) * sections_per_file st
                     else length (section_order st)) (section_order st)
             /\ (forall s, In s secs ->
                   dict_lookup (section_name s) (sections_dict st)
                   = Ok (section_slides s))).
  { intros i. unfold file_sections.
    destruct (number_sections_spec (sections_dict st)
                (slice (i * sections_per_file st)
                   (if i <? 7 then (i + 1) * sections_per_file st
                    else length (section_order st)) (section_order st)))
      with (n := 1) as (secs & Hs & Hn & _ & Hl).
    - intros k Hin. apply slice_incl in Hin. rewrite <- Hk in Hin.
      apply in_map_iff in Hin as ([k' v] & <- & Hin). exists v. exact Hin.
    - exact Hd'.
    - exists secs. auto. }
  destruct (yaml_files_loop name st (seq 0 8)) with (files0 := @nil document)
    as (files & Hf & Hc & Hall & Hlen).
  { intros i _. destruct (Hfile i) as (secs & Hs & _). eauto. }
  exists files. unfold yaml_files. rewrite Hf. simpl.
  assert (Hnames : map section_name (concat (map sections files))
                   = section_order st).
  { rewrite Hc, concat_map, map_map.
    etransitivity;
      [|apply (ranges_cover (sections_per_file st) (section_order st))].
    f_equal. apply map_ext. intros i.
    destruct (Hfile i) as (secs & Hs & Hn & _).
    unfold sections_of_file. rewrite Hs. exact Hn. }
  split; [reflexivity|]. split; [|split; [exact Hnames|split]].
  - apply items_determined; [exact Hd' | |].
    + rewrite map_map. simpl. rewrite Hk. exact Hnames.
    + intros k v Hin. apply in_map_iff in Hin as (s & E & Hin).
      inversion E; subst. rewrite Hc in Hin.
      apply in_concat in Hin as (secs & Hsecs & Hin).
      apply in_map_iff in Hsecs as (i & <- & _).
      destruct (Hfile i) as (secs & Hs & _ & Hl).
      unfold sections_of_file in Hin. rewrite Hs in Hin. apply Hl. exact Hin.
  - rewrite Hnames. apply distinct_keys_NoDup. exact Hd.
  - rewrite length_seq in Hlen. split; assumption.
Qed.

Lemma partition_covers_witness :
  exists files,
    yaml_files (VStr (of_string "Lecture"%string)) PartitionExample.merged
    = Ok files
    /\ map section_pair (concat (map sections files))
       = sections_dict PartitionExample.merged
    /\ map section_name (concat (map sections files))
       = section_order PartitionExample.merged
    /\ NoDup (map section_name (concat (map sections files)))
    /\ Forall (fun f => sections f <> []
                        /\ lecture_name f = VStr (of_string "Lecture"%string))
         files
    /\ length files <= 8.
Proof.
  apply (partition_covers PartitionExample.nine_sections
           PartitionExample.merged (VStr (of_string "Lecture"%string))).
  vm_compute. reflexivity.
Defined.

Example strip_fences_block :
  strip_fences (join [NL] [of_string "```yaml"%string;
                           of_string "lecture_name: L"%string;
                           of_string "```"%string])
  = of_string "lecture_name: L"%string.
Proof. reflexivity. Qed.

(** ** All-or-nothing analysis *)

Section AnalyzerFacts.

Lemma returned_all {A} (results : list (result A)) :
  filter is_exception results = [] -> map Ok (returned results) = results.
Proof.
  induction results as [|r results IH]; intros H; [reflexivity|].
  destruct r as [v|e]; simpl in H; [|discriminate].
  simpl. f_equal. apply IH. exact H.
Qed.

Lemma filter_nil_iff {A} (f : A -> bool) (l : list A) :
  filter f l = [] <-> Forall (fun x => f x = false) l.
Proof.
  induction l as [|a l IH]; simpl.
  - split; auto.
  - destruct (f a) eqn:E; split; intros H.
    + discriminate.
    + inversion H; congruence.
    + constructor; [exact E | apply IH; exact H].
    + apply IH. inversion H; assumption.
Qed.

Lemma length_enumerate_from {A} (l : list A) (i : nat) :
  length (enumerate_from i l) = length l.
Proof.
  revert i. induction l as [|a l IH]; intros i; [reflexivity|].
  simpl. f_equal. apply IH.
Qed.

End AnalyzerFacts.

(** C7: when at least one per-chunk analysis raises, the analysis step
    raises one exception that carries the number of failed chunks and
    returns no results; when none raises, it returns the per-chunk results
    in the order of the chunks. *)
Theorem analysis_all_or_nothing
  (chat : str -> nat -> nat -> option str)
  (yaml_safe_load : str -> option value) (text_parts : list str) :
  let outcomes := gathered chat yaml_safe_load text_parts in
  let failures := length (filter is_exception outcomes) in
  (Exists (fun r => is_exception r = true) outcomes ->
   process_all_parts chat yaml_safe_load text_parts = Raise (PartErrors failures)
   /\ 1 <= failures)
  /\ (Forall (fun r => is_exception r = false) outcomes ->
      exists results,
        process_all_parts chat yaml_safe_load text_parts = Ok results
        /\ map Ok results = outcomes
        /\ length results = length text_parts).
Proof.
  intros outcomes failures. unfold process_all_parts, check_errors.
  fold outcomes. split.
  - intros Hex. subst failures.
    destruct (filter is_exception outcomes) as [|e errors] eqn:E.
    + apply filter_nil_iff in E. apply Exists_exists in Hex as (r & Hin & Hr).
      rewrite Forall_forall in E. rewrite (E r Hin) in Hr. discriminate.
    + split; [reflexivity | simpl; lia].
  - intros Hall. apply filter_nil_iff in Hall. rewrite Hall.
    exists (returned outcomes). split; [reflexivity|].
    pose proof (returned_all outcomes Hall) as Hr. split; [exact Hr|].
    apply (f_equal (@length _)) in Hr. rewrite length_map in Hr.
    rewrite Hr. unfold outcomes, gathered.
    rewrite length_map. apply length_enumerate_from.
Qed.

(** ** Facts about computations that issue requests *)

Lemma bindM_inv {A B} (m : M A) (k : A -> M B) (tr tr' : trace) (b : B) :
  bindM m k tr = (Ok b, tr') ->
  exists a tr1, m tr = (Ok a, tr1) /\ k a tr1 = (Ok b, tr').
Proof.
  unfold bindM. destruct (m tr) as [[a|e] tr1]; intros H; [|discriminate].
  exists a, tr1. auto.
Qed.

Lemma bindM_ok {A B} (m : M A) (k : A -> M B) (tr tr1 : trace) (a : A) :
  m tr = (Ok a, tr1) -> bindM m k tr = k a tr1.
Proof. unfold bindM. intros ->. reflexivity. Qed.

Section MonadFacts.

Context {A B : Type}.

(** What holds between the input and the output of every step holds
    between the lists. *)
Lemma mapMM_Forall2 (R : A -> B -> Prop) (f : A -> M B) (l : list A) :
  (forall a tr b tr', In a l -> f a tr = (Ok b, tr') -> R a b) ->
  forall tr bs tr', mapMM f l tr = (Ok bs, tr') -> Forall2 R l bs.
Proof.
  induction l as [|a l IH]; intros Hf tr bs tr' H.
  - inversion H; subst. constructor.
  - simpl in H. apply bindM_inv in H as (b & tr1 & Hb & H).
    apply bindM_inv in H as (bs' & tr2 & Hbs & H).
    inversion H; subst. constructor.
    + eapply Hf; [left; reflexivity | exact Hb].
    + eapply IH; [|exact Hbs]. intros a' t b' t' Hin. apply Hf. right. exact Hin.
Qed.

(** A loop whose steps all return, returns. *)
Lemma mapMM_total (f : A -> M B) (l : list A) :
  (forall a tr, In a l -> exists b tr', f a tr = (Ok b, tr')) ->
  forall tr, exists bs tr', mapMM f l tr = (Ok bs, tr').
Proof.
  induction l as [|a l IH]; intros Hf tr.
  - exists [], tr. reflexivity.
  - destruct (Hf a tr (or_introl eq_refl)) as (b & tr1 & Hb).
    destruct (IH (fun a' t H => Hf a' t (or_intror H)) tr1) as (bs & tr2 & Hbs).
    exists (b :: bs), tr2. simpl.
    rewrite (bindM_ok _ _ _ _ _ Hb), (bindM_ok _ _ _ _ _ Hbs). reflexivity.
Qed.

End MonadFacts.

Lemma Forall2_compose {A B C} (R : A -> B -> Prop) (Q : B -> C -> Prop)
  (T : A -> C -> Prop) :
  (forall a b c, R a b -> Q b c -> T a c) ->
  forall l1 l2 l3, Forall2 R l1 l2 -> Forall2 Q l2 l3 -> Forall2 T l1 l3.
Proof.
  intros H l1 l2 l3 H1. revert l3.
  induction H1; intros l3 H2; inversion H2; subst; constructor; eauto.
Qed.

(** ** Properties of the size adjuster *)

Section AdjustFacts.

Variable llm : trace -> call -> option str.

Variable yaml_safe_load : str -> option value.

Variable yaml_dump : document -> str.

Variable repr_str : str -> str.

Local Abbreviation size := (dump_size yaml_dump).

Local Abbreviation summarize := (summarize_with_openai llm).

Local Abbreviation adjust :=
  (adjust_yaml_size llm yaml_safe_load yaml_dump repr_str).

(** [summarize_with_openai_async] always returns a text and issues one
    request. *)
Lemma summarize_returns (content : str) (max_tokens : Z) (tr : trace) :
  exists r,
    summarize content max_tokens tr
    = (Ok r, tr ++ [mkCall content max_tokens]).
Proof. eexists. reflexivity. Qed.

Lemma for_each_slide_shape (f : slide -> M slide) (doc doc' : document)
  (tr tr' : trace) :
  for_each_slide f doc tr = (Ok doc', tr') ->
  lecture_name doc' = lecture_name doc
  /\ Forall2 same_shape (sections doc) (sections doc').
Proof.
  unfold for_each_slide. intros H.
  apply bindM_inv in H as (secs & tr1 & Hsecs & H).
  inversion H; subst. simpl. split; [reflexivity|].
  eapply mapMM_Forall2; [|exact Hsecs].
  intros sec t sec' t' _ Hsec.
  apply bindM_inv in Hsec as (slides & t1 & Hslides & Hsec).
  inversion Hsec; subst. unfold same_shape. simpl.
  repeat split. symmetry. eapply Forall2_length.
  eapply (mapMM_Forall2 (fun _ _ => True)); [|exact Hslides]. auto.
Qed.

Lemma resummarize_section_spec (sec sec' : section) (tr tr' : trace) :
  resummarize_section llm yaml_safe_load repr_str sec tr = (Ok sec', tr') ->
  kept_or_summarized yaml_safe_load repr_str sec sec'.
Proof.
  unfold resummarize_section, kept_or_summarized.
  destruct (Nat.ltb_spec 10 (length (section_slides sec))) as [Hlt | Hle];
    intros H.
  - apply bindM_inv in H as (r & tr1 & _ & H). inversion H; subst. simpl.
    split; [reflexivity|]. split; [reflexivity|].
    split; [lia | eauto].
  - inversion H; subst.
    split; [reflexivity|]. split; [reflexivity|].
    split; [auto | lia].
Qed.

Lemma resummarize_document_spec (doc doc' : document) (tr tr' : trace) :
  resummarize_document llm yaml_safe_load repr_str doc tr = (Ok doc', tr') ->
  lecture_name doc' = lecture_name doc
  /\ Forall2 (kept_or_summarized yaml_safe_load repr_str)
       (sections doc) (sections doc').
Proof.
  unfold resummarize_document. intros H.
  apply bindM_inv in H as (secs & tr1 & Hsecs & H).
  inversion H; subst. simpl. split; [reflexivity|].
  eapply mapMM_Forall2; [|exact Hsecs].
  intros sec t sec' t' _. apply resummarize_section_spec.
Qed.

Lemma resummarize_document_total (doc : document) (tr : trace) :
  exists doc' tr',
    resummarize_document llm yaml_safe_load repr_str doc tr = (Ok doc', tr').
Proof.
  unfold resummarize_document.
  destruct (mapMM_total (resummarize_section llm yaml_safe_load repr_str)
              (sections doc)) with (tr := tr) as (secs & tr1 & Hsecs).
  { intros sec t _. unfold resummarize_section.
    destruct (10 <? length (section_slides sec)); eexists; eexists; reflexivity. }
  rewrite (bindM_ok _ _ _ _ _ Hsecs). eexists. eexists. reflexivity.
Qed.

Lemma length_enumerate_map {X Y} (g : nat * X -> Y) (l : list X) (i : nat) :
  length (map g (enumerate_from i l)) = length l.
Proof. rewrite length_map. apply length_enumerate_from. Qed.

Lemma create_slide_dict_number (v : value) (i : nat) :
  slide_number (create_slide_dict v i) = str_of_nat (i + 1).
Proof. destruct v; reflexivity. Qed.

Lemma enumerate_numbers {X} (g : nat * X -> slide) (l : list X) :
  (forall ix, slide_number (g ix) = str_of_nat (fst ix + 1)) ->
  forall i,
    map slide_number (map g (enumerate_from i l))
    = map str_of_nat (seq (i + 1) (length l)).
Proof.
  intros Hg. induction l as [|x l IH]; intros i; [reflexivity|].
  simpl. rewrite Hg. simpl. f_equal. apply (IH (S i)).
Qed.

Lemma parse_summary_spec (summarized_slides : str) (new_slides : list slide) :
  parse_summary yaml_safe_load repr_str summarized_slides = Ok new_slides ->
  exists data items,
    yaml_safe_load summarized_slides = Some data
    /\ Py.iter (slides_data_of repr_str data) = Ok items
    /\ new_slides
       = map (fun ix => create_slide_dict (snd ix) (fst ix))
           (enumerate_from 0 items).
Proof.
  unfold parse_summary.
  destruct (yaml_safe_load summarized_slides) as [data|]; [|discriminate].
  destruct (Py.iter (slides_data_of repr_str data)) as [items|e] eqn:Ei;
    [|discriminate].
  simpl. intros H. inversion H; subst.
  exists data, items. repeat split. exact Ei.
Qed.

(** The new slides are numbered from 1 without gaps, however many. *)
Lemma summary_slides_numbered (summarized_slides : str) (slides : list slide) :
  let new_slides :=
    summary_slides yaml_safe_load repr_str summarized_slides slides in
  map slide_number new_slides
  = map str_of_nat (seq 1 (length new_slides)).
Proof.
  unfold summary_slides.
  destruct (parse_summary yaml_safe_load repr_str summarized_slides)
    as [new_slides|e] eqn:E; cbv zeta.
  - apply parse_summary_spec in E as (data & items & _ & _ & ->).
    rewrite length_enumerate_map.
    apply (enumerate_numbers _ items) with (i := 0).
    intros ix. apply create_slide_dict_number.
  - unfold fallback_slides. rewrite length_enumerate_map.
    apply (enumerate_numbers _ (firstn 10 slides)) with (i := 0).
    intros ix. reflexivity.
Qed.

(** There are as many new slides as the parsed reply has entries, and ten
    when the handler builds them. *)
Lemma summary_slides_length (summarized_slides : str) (slides : list slide) :
  10 < length slides ->
  let new_slides :=
    summary_slides yaml_safe_load repr_str summarized_slides slides in
  (forall data items,
      yaml_safe_load summarized_slides = Some data ->
      Py.iter (slides_data_of repr_str data) = Ok items ->
      length new_slides = length items)
  /\ (parse_summary yaml_safe_load repr_str summarized_slides
        = Raise YAMLError
      \/ parse_summary yaml_safe_load repr_str summarized_slides
        = Raise TypeError ->
      length new_slides = 10).
Proof.
  intros Hlen new_slides. subst new_slides. unfold summary_slides. split.
  - intros data items Hd Hi. unfold parse_summary. rewrite Hd, Hi. simpl.
    apply length_enumerate_map.
  - intros [-> | ->]; unfold fallback_slides;
      rewrite length_enumerate_map, length_firstn; lia.
Qed.





Lemma Forall2_diag {X} (R : X -> X -> Prop) (l : list X) :
  (forall x, R x x) -> Forall2 R l l.
Proof. intros H. induction l; constructor; auto. Qed.

(** A section of more than ten slides is emptied only by a reply that
    parses to an empty list of slides. *)
Lemma summary_slides_empty (summarized_slides : str) (slides : list slide) :
  10 < length slides ->
  length (summary_slides yaml_safe_load repr_str summarized_slides slides) = 0 ->
  exists data,
    yaml_safe_load summarized_slides = Some data
    /\ Py.iter (slides_data_of repr_str data) = Ok [].
Proof.
  intros Hlen. unfold summary_slides.
  destruct (parse_summary yaml_safe_load repr_str summarized_slides)
    as [new_slides|e] eqn:E; intros H0.
  - apply parse_summary_spec in E as (data & items & Hd & Hi & ->).
    rewrite length_enumerate_map in H0.
    destruct items; [|discriminate]. eauto.
  - unfold fallback_slides in H0.
    rewrite length_enumerate_map, length_firstn in H0. lia.
Qed.

(** C4 (as amended): a document whose text has at least 8000 and at most
    [max_chars] characters is returned as it is, and no request is
    issued. *)
Theorem adjust_in_band_unchanged (doc : document) (max_chars : Z) (tr : trace) :
  (8000 <= size doc)%Z -> (size doc <= max_chars)%Z ->
  adjust doc max_chars tr = (Ok doc, tr).
Proof.
  intros Hlo Hhi. unfold adjust_yaml_size.
  destruct (Z.ltb_spec (size doc) 8000); [lia|].
  destruct (Z.leb_spec (size doc) max_chars); [reflexivity | lia].
Qed.


End AdjustFacts.

(** ** Concrete runs of the size adjuster *)

Lemma adjust_in_band_unchanged_witness :
  adjust_yaml_size unreachable toy_load plain_dump simple_repr
    in_band_document 10000 []
  = (Ok in_band_document, []).
Proof.
  apply adjust_in_band_unchanged; apply Z.leb_le; vm_compute; reflexivity.
Defined.

(** C4 as stated fails: the text of this document has 3009 characters and
    9009 bytes.  By bytes it lies between 8000 and 10000, but line 157
    counts characters, so the document is taken as too small: two requests
    are issued and its content is replaced. *)
Lemma byte_band_document_is_expanded :
  length (plain_dump japanese_document) = N.to_nat 3009
  /\ utf8_length (plain_dump japanese_document) = 9009%N
  /\ exists doc' tr',
       adjust_yaml_size (reply_with []) toy_load plain_dump simple_repr
         japanese_document 10000 [] = (Ok doc', tr')
       /\ length tr' = 2
       /\ map (fun s => map slide_content (section_slides s)) (sections doc')
          = [[VList [VStr (of_string "ok"%string)]]].
Proof.
  split; [vm_compute; reflexivity|]. split; [vm_compute; reflexivity|].
  eexists. eexists. split; [vm_compute; reflexivity|].
  split; reflexivity.
Qed.

(** C6 as stated fails: the document stays too large, its section has
    eleven slides, and the model answers "[]" to the request for the
    section; line 299 then leaves the section without any slide. *)
Lemma resummarization_can_empty_section :
  exists doc' tr',
    adjust_yaml_size (reply_with (of_string "[]"%string)) toy_load
      plain_dump simple_repr big_document 10000 [] = (Ok doc', tr')
    /\ map (fun s => length (section_slides s)) (sections big_document) = [11]
    /\ map (fun s => length (section_slides s)) (sections doc') = [0].
Proof.
  eexists. eexists. split; [vm_compute; reflexivity|].
  split; reflexivity.
Qed.



(** C9 as stated fails: the reply to the request for the section of eleven
    slides is a list of three entries, which parses; the section is left
    with three slides, numbered "1", "2", "3", not with ten. *)
Lemma resummarization_keeps_reply_count :
  exists doc' tr',
    adjust_yaml_size (reply_with three_entries) toy_load plain_dump
      simple_repr big_document 10000 [] = (Ok doc', tr')
    /\ toy_load three_entries
       = Some (VList [VStr (of_string "A"%string); VStr (of_string "B"%string);
                      VStr (of_string "C"%string)])
    /\ map (fun s => map slide_number (section_slides s)) (sections doc')
       = [[of_string "1"%string; of_string "2"%string; of_string "3"%string]]
    /\ map (fun s => map slide_title (section_slides s)) (sections doc')
       = [[VStr (of_string "A"%string); VStr (of_string "B"%string);
           VStr (of_string "C"%string)]].
Proof.
  eexists. eexists. split; [vm_compute; reflexivity|].
  split; [reflexivity|]. split; reflexivity.
Qed.

(** C5, evaluated: the reply "[" to the request for the section does not
    parse; the adjuster returns ten slides with empty content, but line 310
    makes the title of each the text of the whole slide dictionary,
    "{'number': '1', 'title': 'T1xxx...', 'content': ['ok'],
    'teaching_points': 'ok'}", not the title "T1xxx..." of the slide. *)
Theorem fallback_titles_are_whole_slides :
  exists doc' tr' slides',
    adjust_yaml_size (reply_with (of_string "["%string)) toy_load
      plain_dump simple_repr big_document 10000 [] = (Ok doc', tr')
    /\ toy_load (of_string "["%string) = None
    /\ map section_slides (sections doc') = [slides']
    /\ length slides' = 10
    /\ Forall (fun s => slide_content s = VList []
                        /\ slide_teaching_points s = VStr []) slides'
    /\ map slide_title slides'
       = map (fun i =>
                VStr (of_string "{'number': '"%string ++ str_of_nat i
                      ++ of_string "', 'title': '"%string ++ long_title i
                      ++ of_string
                           "', 'content': ['ok'], 'teaching_points': 'ok'}"%string))
             (seq 1 10)
    /\ map slide_title (firstn 10 eleven_slides)
       = map (fun i => VStr (long_title i)) (seq 1 10)
    /\ map slide_title slides' <> map slide_title (firstn 10 eleven_slides).
Proof.
  eexists. eexists. eexists. split; [vm_compute; reflexivity|].
  split; [reflexivity|]. split; [reflexivity|]. split; [reflexivity|].
  split; [repeat constructor|]. split; [vm_compute; reflexivity|].
  split; [vm_compute; reflexivity|]. vm_compute. discriminate.
Qed.

Lemma analysis_all_or_nothing_witness :
  (process_all_parts fails_on_third text_load three_parts
   = Raise (PartErrors 1) /\ 1 <= 1)
  /\ exists results,
       process_all_parts echo text_load three_parts = Ok results
       /\ map Ok results
          = [Ok (VStr (of_string "a"%string)); Ok (VStr (of_string "b"%string));
             Ok (VStr (of_string "c"%string))]
       /\ length results = 3.
Proof.
  split.
  - apply (analysis_all_or_nothing fails_on_third text_load three_parts).
    apply Exists_cons_tl, Exists_cons_tl, Exists_cons_hd. reflexivity.
  - apply (analysis_all_or_nothing echo text_load three_parts).
    repeat constructor.
Defined.

(** * Further properties *)

(** ** The chunker: number and size of the chunks *)

Section ChunkShape.

Lemma pieces_ok_tail (p : str) (l : list str) :
  pieces_ok (p :: l) = true -> pieces_ok l = true.
Proof.
  destruct l as [|q l]; [reflexivity|].
  rewrite pieces_ok_cons2. intros H. apply andb_true_iff in H. tauto.
Qed.

Lemma pieces_ok_head (p : str) (l : list str) :
  pieces_ok (p :: l) = true -> sep_free p = true.
Proof.
  destruct l as [|q l]; [auto|].
  rewrite pieces_ok_cons2. intros H. apply andb_true_iff in H as [H _].
  apply inner_sep_free. exact H.
Qed.

Lemma pieces_ok_skipn (i : nat) (l : list str) :
  pieces_ok l = true -> pieces_ok (skipn i l) = true.
Proof.
  revert l. induction i as [|i IH]; intros l H; [exact H|].
  destruct l as [|p l]; [reflexivity|].
  simpl. apply IH. eapply pieces_ok_tail. exact H.
Qed.

Lemma pieces_ok_firstn (k : nat) (l : list str) :
  pieces_ok l = true -> pieces_ok (firstn k l) = true.
Proof.
  revert l. induction k as [|k IH]; intros l H; [reflexivity|].
  destruct l as [|p l]; [reflexivity|].
  cbn [firstn]. specialize (IH l (pieces_ok_tail p l H)).
  destruct (firstn k l) as [|q g] eqn:E.
  - cbn [pieces_ok]. eapply pieces_ok_head. exact H.
  - rewrite pieces_ok_cons2, IH, andb_true_r.
    destruct l as [|q' l]; [destruct k; discriminate|].
    rewrite pieces_ok_cons2 in H. apply andb_true_iff in H. tauto.
Qed.

(** A non-empty run of consecutive paragraphs, joined, has these paragraphs
    and no others. *)
Lemma paragraphs_of_run (g : list str) :
  pieces_ok g = true -> Forall (fun p => has_ink p = true) g -> g <> [] ->
  paragraphs_of (join blank_line g) = g.
Proof.
  intros Hok Hink Hne. unfold paragraphs_of.
  rewrite split_join by assumption.
  apply forallb_filter_id. apply forallb_forall. intros p Hp.
  rewrite nonblank_ink. rewrite Forall_forall in Hink. apply Hink, Hp.
Qed.

Lemma paragraphs_of_pieces_ok (text : str) :
  pieces_ok (paragraphs_of text) = true.
Proof. apply filter_pieces_ok, split_pieces_ok. Qed.

(** The list built by lines 33-37, group by group. *)
Lemma grouped_parts (ps : list str) (k m : nat) :
  Forall (fun p => has_ink p = true) ps ->
  0 < k -> (forall j, j < m -> j * k < length ps) ->
  filter nonblank
    (map (fun i => join blank_line (slice i (i + k) ps))
         (map (fun j => j * k) (seq 0 m)))
  = map (fun j => join blank_line (firstn k (skipn (j * k) ps))) (seq 0 m).
Proof.
  intros Hink Hk Hin. rewrite map_map.
  rewrite (map_ext _ (fun j => join blank_line (firstn k (skipn (j * k) ps))))
    by (intros j; rewrite slice_width; reflexivity).
  apply forallb_filter_id. apply forallb_forall. intros c Hc.
  apply in_map_iff in Hc as (j & <- & Hj). apply in_seq in Hj.
  rewrite nonblank_ink. apply join_ink.
  - apply group_nonempty; [exact Hk | apply Hin; lia].
  - apply Forall_forall. intros p Hp. apply group_incl in Hp.
    rewrite Forall_forall in Hink. apply Hink, Hp.
Qed.

End ChunkShape.

(** X1: for [num_parts >= 1], [split_text] returns at most [num_parts]
    chunks, and none of them is blank. *)
Theorem split_text_at_most_num_parts (text : str) (num_parts : Z) :
  (1 <= num_parts)%Z ->
  exists chunks,
    split_text text num_parts = Ok chunks
    /\ (Z.of_nat (length chunks) <= num_parts)%Z
    /\ Forall (fun c => nonblank c = true) chunks.
Proof.
  intros Hn. unfold split_text.
  destruct (Z.of_nat (length (paragraphs_of text)) <=? num_parts)%Z eqn:Hle.
  { apply Z.leb_le in Hle. eexists. split; [reflexivity|].
    split; [exact Hle|]. apply Forall_forall. intros p Hp.
    apply filter_In in Hp. tauto. }
  apply Z.leb_gt in Hle.
  destruct (num_parts =? 0)%Z eqn:Hz; [apply Z.eqb_eq in Hz; lia|].
  set (n := length (paragraphs_of text)) in *.
  set (per := py_ceil_div (Z.of_nat n) num_parts).
  pose proof (ceil_div_bounds (Z.of_nat n) num_parts ltac:(lia)) as Hper.
  fold per in Hper.
  assert (Hpos : (0 < per)%Z) by nia.
  unfold py_range0.
  destruct (per =? 0)%Z eqn:Hp0; [apply Z.eqb_eq in Hp0; lia|].
  destruct (per <? 0)%Z eqn:Hp1; [apply Z.ltb_lt in Hp1; lia|].
  eexists. split; [reflexivity|].
  pose proof (ceil_div_bounds (Z.of_nat n) per Hpos) as Hm.
  set (m := py_ceil_div (Z.of_nat n) per) in *.
  split.
  - eapply Z.le_trans; [apply inj_le, filter_length_le|].
    rewrite !length_map, length_seq. nia.
  - apply Forall_forall. intros c Hc. apply filter_In in Hc. tauto.
Qed.

Lemma split_text_at_most_num_parts_witness :
  exists chunks,
    split_text (of_string "a

b

c"%string) 2 = Ok chunks
    /\ (Z.of_nat (length chunks) <= 2)%Z
    /\ Forall (fun c => nonblank c = true) chunks.
Proof. apply split_text_at_most_num_parts. lia. Defined.

(** X2: for [num_parts >= 1], every chunk consists of at least one and at
    most [ceil(n / num_parts)] paragraphs of the text, [n] being the number
    of its non-blank paragraphs, and the paragraphs of the chunks, chunk
    after chunk, are the paragraphs of the text. *)
Theorem split_text_chunk_sizes (text : str) (num_parts : Z) :
  (1 <= num_parts)%Z ->
  exists chunks,
    split_text text num_parts = Ok chunks
    /\ concat (map paragraphs_of chunks) = paragraphs_of text
    /\ Forall
         (fun c =>
            (1 <= Z.of_nat (length (paragraphs_of c))
             <= py_ceil_div (Z.of_nat (length (paragraphs_of text)))
                  num_parts)%Z)
         chunks.
Proof.
  intros Hn. unfold split_text.
  pose proof (paragraphs_of_pieces_ok text) as Hok.
  pose proof (paragraphs_of_ink text) as Hink.
  set (ps := paragraphs_of text) in *. set (n := length ps).
  pose proof (ceil_div_bounds (Z.of_nat n) num_parts ltac:(lia)) as Hper.
  set (per := py_ceil_div (Z.of_nat n) num_parts) in *.
  destruct (Z.of_nat n <=? num_parts)%Z eqn:Hle.
  { apply Z.leb_le in Hle. exists ps. split; [reflexivity|].
    assert (Hone : forall p, In p ps -> paragraphs_of p = [p]).
    { intros p Hp. apply in_split in Hp as (l1 & l2 & E).
      change p with (join blank_line [p]). apply paragraphs_of_run.
      - rewrite E in Hok. apply (pieces_ok_skipn (length l1)) in Hok.
        rewrite skipn_app, skipn_all, Nat.sub_diag in Hok. simpl in Hok.
        apply (pieces_ok_head p l2 Hok).
      - constructor; [|constructor]. rewrite Forall_forall in Hink.
        apply Hink. rewrite E. apply in_or_app. right. left. reflexivity.
      - discriminate. }
    split.
    - clear - Hone. induction ps as [|p ps IH]; [reflexivity|].
      simpl. rewrite (Hone p (or_introl eq_refl)). simpl. f_equal.
      apply IH. intros q Hq. apply Hone. right. exact Hq.
    - apply Forall_forall. intros p Hp. rewrite (Hone p Hp). simpl.
      assert (0 < n) by (unfold n; destruct ps; [destruct Hp | simpl; lia]).
      nia. }
  apply Z.leb_gt in Hle.
  destruct (num_parts =? 0)%Z eqn:Hz; [apply Z.eqb_eq in Hz; lia|].
  assert (Hpos : (0 < per)%Z) by nia.
  unfold py_range0.
  destruct (per =? 0)%Z eqn:Hp0; [apply Z.eqb_eq in Hp0; lia|].
  destruct (per <? 0)%Z eqn:Hp1; [apply Z.ltb_lt in Hp1; lia|].
  eexists. split; [reflexivity|].
  pose proof (ceil_div_bounds (Z.of_nat n) per Hpos) as Hm.
  set (m := py_ceil_div (Z.of_nat n) per) in *.
  set (k := Z.to_nat per).
  assert (Hin : forall j, j < Z.to_nat m -> j * k < length ps)
    by (intros j Hj; fold n; unfold k; nia).
  rewrite (grouped_parts ps k (Z.to_nat m) Hink ltac:(unfold k; lia) Hin).
  assert (Hrun : forall j, j < Z.to_nat m ->
            paragraphs_of (join blank_line (firstn k (skipn (j * k) ps)))
            = firstn k (skipn (j * k) ps)).
  { intros j Hj. apply paragraphs_of_run.
    - apply pieces_ok_firstn, pieces_ok_skipn, Hok.
    - apply Forall_forall. intros p Hp. apply group_incl in Hp.
      rewrite Forall_forall in Hink. apply Hink, Hp.
    - apply group_nonempty; [unfold k; lia | apply Hin, Hj]. }
  split.
  - rewrite map_map.
    rewrite (map_ext_in _ (fun j => firstn k (skipn (j * k) ps)))
      by (intros j Hj; apply in_seq in Hj; apply Hrun; lia).
    rewrite concat_groups. apply firstn_all2. fold n. unfold k. nia.
  - apply Forall_forall. intros c Hc.
    apply in_map_iff in Hc as (j & <- & Hj). apply in_seq in Hj.
    rewrite (Hrun j) by lia.
    assert (Hne := group_nonempty k (j * k) ps ltac:(unfold k; lia)
                     (Hin j ltac:(lia))).
    assert (Hlen : length (firstn k (skipn (j * k) ps)) <= k)
      by (rewrite length_firstn; lia).
    destruct (firstn k (skipn (j * k) ps)); [congruence|].
    simpl length in *. unfold k in Hlen. lia.
Qed.

Lemma split_text_chunk_sizes_witness :
  exists chunks,
    split_text (of_string "a

b

c"%string) 2 = Ok chunks
    /\ concat (map paragraphs_of chunks)
       = paragraphs_of (of_string "a

b

c"%string)
    /\ Forall
         (fun c =>
            (1 <= Z.of_nat (length (paragraphs_of c))
             <= py_ceil_div
                  (Z.of_nat (length (paragraphs_of (of_string "a

b

c"%string)))) 2)%Z)
         chunks.
Proof. apply split_text_chunk_sizes. lia. Defined.

(** ** Truncation and the lines of a reply *)

(** X3: for [max_length >= 3] the result of [truncate_content] never has
    more than [max_length] characters: a content that fits is returned as
    it is, a longer one becomes its first [max_length - 3] characters and
    "...", [max_length] characters in all. *)
Theorem truncate_content_bound (content : str) (max_length : Z) :
  (3 <= max_length)%Z ->
  (Z.of_nat (length (truncate_content content max_length)) <= max_length)%Z
  /\ ((Z.of_nat (length content) <= max_length)%Z ->
      truncate_content content max_length = content)
  /\ ((max_length < Z.of_nat (length content))%Z ->
      truncate_content content max_length
      = firstn (Z.to_nat (max_length - 3)) content ++ of_string "..."%string
      /\ Z.of_nat (length (truncate_content content max_length))
         = max_length).
Proof.
  intros Hm. unfold truncate_content.
  destruct (Z.leb_spec (Z.of_nat (length content)) max_length) as [Hle | Hgt].
  - split; [exact Hle|]. split; [reflexivity | lia].
  - destruct (Z.ltb_spec (max_length - 3) 0) as [Hneg | _]; [lia|].
    cbv zeta. rewrite length_app, length_firstn.
    change (length (of_string "..."%string)) with 3.
    split; [lia|]. split; [lia|]. intros _. split; [reflexivity | lia].
Qed.

Lemma truncate_content_bound_witness :
  (Z.of_nat (length (truncate_content (of_string "abcdefghij"%string) 5))
   <= 5)%Z
  /\ ((Z.of_nat (length (of_string "abcdefghij"%string)) <= 5)%Z ->
      truncate_content (of_string "abcdefghij"%string) 5
      = of_string "abcdefghij"%string)
  /\ ((5 < Z.of_nat (length (of_string "abcdefghij"%string)))%Z ->
      truncate_content (of_string "abcdefghij"%string) 5
      = firstn (Z.to_nat (5 - 3)) (of_string "abcdefghij"%string)
        ++ of_string "..."%string
      /\ Z.of_nat (length (truncate_content (of_string "abcdefghij"%string) 5))
         = 5%Z).
Proof. apply truncate_content_bound. lia. Defined.

(** X4: for [max_length < 3] the bound is lost: a content longer than
    [max_length] gives a text of [max(3, len(content) + max_length)]
    characters, which is more than [max_length]. *)
Theorem truncate_content_small_limit (content : str) (max_length : Z) :
  (max_length < 3)%Z -> (max_length < Z.of_nat (length content))%Z ->
  Z.of_nat (length (truncate_content content max_length))
  = Z.max 3 (Z.of_nat (length content) + max_length)
  /\ (max_length < Z.of_nat (length (truncate_content content max_length)))%Z.
Proof.
  intros Hm Hlen. unfold truncate_content.
  destruct (Z.leb_spec (Z.of_nat (length content)) max_length) as [Hle | _];
    [lia|].
  destruct (Z.ltb_spec (max_length - 3) 0) as [_ | Hpos]; [|lia].
  cbv zeta. rewrite length_app, length_firstn.
  change (length (of_string "..."%string)) with 3. lia.
Qed.

Lemma truncate_content_small_limit_witness :
  Z.of_nat (length (truncate_content (of_string "abcdefghij"%string) 2))
  = Z.max 3 (Z.of_nat (length (of_string "abcdefghij"%string)) + 2)
  /\ (2 < Z.of_nat
            (length (truncate_content (of_string "abcdefghij"%string) 2)))%Z.
Proof. apply truncate_content_small_limit; simpl; lia. Defined.

Section CleanLines.

Lemma lstrip_idem (s : str) : lstrip (lstrip s) = lstrip s.
Proof.
  induction s as [|c s IH]; [reflexivity|].
  simpl. destruct (isspace c) eqn:E; [exact IH|]. simpl. rewrite E. reflexivity.
Qed.

(** Stripping on the left never removes a final character with ink. *)
Lemma lstrip_keeps_last (a : str) (c : char) :
  isspace c = false -> exists t, lstrip (a ++ [c]) = t ++ [c].
Proof.
  intros Hc. induction a as [|x a [t IH]].
  - exists []. simpl. rewrite Hc. reflexivity.
  - simpl. destruct (isspace x).
    + exists t. exact IH.
    + exists (x :: a). reflexivity.
Qed.

Lemma rstrip_idem (s : str) : rstrip (rstrip s) = rstrip s.
Proof. unfold rstrip. rewrite rev_involutive, lstrip_idem. reflexivity. Qed.

Lemma lstrip_rstrip (s : str) : lstrip (rstrip (lstrip s)) = rstrip (lstrip s).
Proof.
  destruct (lstrip s) as [|c q] eqn:E; [reflexivity|].
  assert (Hc : isspace c = false).
  { clear - E. induction s as [|x s IH]; [discriminate|].
    simpl in E. destruct (isspace x) eqn:Ex; [auto|].
    inversion E; subst. exact Ex. }
  unfold rstrip. simpl rev.
  destruct (lstrip_keeps_last (rev q) c Hc) as (t & Ht). rewrite Ht.
  rewrite rev_app_distr. simpl. rewrite Hc. reflexivity.
Qed.

Lemma strip_idem (s : str) : strip (strip s) = strip s.
Proof.
  unfold strip at 1. unfold strip at 1.
  rewrite lstrip_rstrip. fold (strip s). unfold strip. apply rstrip_idem.
Qed.

Lemma lstrip_incl (s : str) (x : char) : In x (lstrip s) -> In x s.
Proof.
  induction s as [|c s IH]; [auto|].
  simpl. destruct (isspace c); [right; auto | auto].
Qed.

Lemma strip_incl (s : str) (x : char) : In x (strip s) -> In x s.
Proof.
  unfold strip, rstrip. intros H. apply in_rev in H.
  apply lstrip_incl in H. apply in_rev in H. apply lstrip_incl. exact H.
Qed.

Lemma cons_head_no_newline (c : char) (l : list str) :
  c <> NL -> Forall (fun p => ~ In NL p) l ->
  Forall (fun p => ~ In NL p) (cons_head c l).
Proof.
  intros Hc Hl. destruct Hl as [|p l Hp Hl]; simpl.
  - constructor; [|constructor]. intros [E | []]. congruence.
  - constructor; [|exact Hl]. intros [E | E]; [congruence | auto].
Qed.

Lemma split_newline_no_newline (s : str) :
  Forall (fun p => ~ In NL p) (split_newline s).
Proof.
  induction s as [|c s IH]; simpl.
  - constructor; [intros [] | constructor].
  - unfold char_eqb. destruct (N.eqb_spec c NL) as [E | E].
    + constructor; [intros [] | exact IH].
    + apply cons_head_no_newline; assumption.
Qed.

End CleanLines.

(** X5: the lines kept from a reply (lines 179, 194, 229 and 233) are
    never empty, carry no white space at either end and contain no
    newline. *)
Theorem stripped_lines_clean (text : str) :
  Forall (fun line => nonempty line = true
                      /\ strip line = line
                      /\ ~ In NL line)
    (stripped_lines text).
Proof.
  unfold stripped_lines. apply Forall_forall. intros line Hin.
  apply in_map_iff in Hin as (p & <- & Hp).
  apply filter_In in Hp as [Hp Hnb].
  split; [exact Hnb|]. split; [apply strip_idem|].
  intros Hnl. apply strip_incl in Hnl.
  pose proof (split_newline_no_newline text) as H.
  rewrite Forall_forall in H. exact (H p Hp Hnl).
Qed.

(** ** The merger: what an occurrence of a section adds *)

Section MergeShape.

Lemma key_eqb_sym (a b : value) : Py.key_eqb a b = Py.key_eqb b a.
Proof.
  destruct a as [|x|x|x|x|x], b as [|y|y|y|y|y]; simpl; try reflexivity.
  - destruct x, y; reflexivity.
  - apply Z.eqb_sym.
  - clear. revert y. induction x as [|c x IH]; intros [|d y]; simpl;
      try reflexivity.
    unfold char_eqb. rewrite N.eqb_sym, IH. reflexivity.
Qed.

Lemma str_eqb_true_iff (s t : str) : str_eqb s t = true <-> s = t.
Proof. split; [apply str_eqb_eq | intros ->; apply str_eqb_refl]. Qed.

(** Two keys equal to a third one are equal to each other. *)
Lemma key_eqb_trans (k a b : value) :
  Py.key_eqb k a = true -> Py.key_eqb k b = true -> Py.key_eqb a b = true.
Proof.
  destruct k as [|x|x|x|x|x], a as [|y|y|y|y|y], b as [|z|z|z|z|z]; simpl;
    try discriminate; try reflexivity;
    rewrite ?Z.eqb_eq, ?str_eqb_true_iff; intros; subst;
    try reflexivity; try apply Z.eqb_refl.
  all: try (destruct x, y, z; simpl in *; congruence).
  all: try (destruct x, y; simpl in *; try congruence; try lia).
  all: try (destruct x, z; simpl in *; try congruence; try lia).
  all: try (destruct y, z; simpl in *; try congruence; try lia).
Qed.

Lemma dict_lookup_append_same (name : value) (x : slide)
  (d : list (value * list slide)) :
  dict_mem name d = true ->
  dict_lookup name (dict_append name x d)
  = (l <- dict_lookup name d ;; Ok (l ++ [x])).
Proof.
  unfold dict_mem, dict_lookup.
  induction d as [|[k v] d IH]; [discriminate|].
  simpl. destruct (Py.key_eqb k name) eqn:E; simpl.
  - rewrite E. reflexivity.
  - rewrite E. exact IH.
Qed.

Lemma dict_lookup_append_other (name other : value) (x : slide)
  (d : list (value * list slide)) :
  Py.key_eqb other name = false ->
  dict_lookup other (dict_append name x d) = dict_lookup other d.
Proof.
  intros Hne. unfold dict_lookup.
  induction d as [|[k v] d IH]; [reflexivity|].
  simpl. destruct (Py.key_eqb k name) eqn:E; simpl.
  - destruct (Py.key_eqb k other) eqn:Eo; [|reflexivity].
    rewrite (key_eqb_trans k other name Eo E) in Hne. discriminate.
  - destruct (Py.key_eqb k other); [reflexivity | exact IH].
Qed.

Lemma dict_mem_append (name name' : value) (x : slide)
  (d : list (value * list slide)) :
  dict_mem name' (dict_append name x d) = dict_mem name' d.
Proof. rewrite !dict_mem_keys, dict_append_keys. reflexivity. Qed.

Lemma dict_lookup_mem (name : value) (d : list (value * list slide)) :
  dict_mem name d = true -> exists l, dict_lookup name d = Ok l.
Proof.
  unfold dict_mem, dict_lookup. induction d as [|[k v] d IH]; [discriminate|].
  simpl. destruct (Py.key_eqb k name); simpl; eauto.
Qed.

Lemma dict_lookup_not_mem (name : value) (d : list (value * list slide)) :
  dict_mem name d = false -> dict_lookup name d = Raise KeyError.
Proof.
  unfold dict_mem, dict_lookup. induction d as [|[k v] d IH]; [reflexivity|].
  simpl. destruct (Py.key_eqb k name); simpl; [discriminate | exact IH].
Qed.

Lemma merge_slide_number (n : nat) (sl : value) (x : slide) :
  merge_slide n sl = Ok x ->
  slide_number x = str_of_nat n /\ exists t, slide_teaching_points x = VStr t.
Proof.
  unfold merge_slide.
  destruct (Py.subscript sl k_title); [|discriminate].
  destruct (Py.subscript sl k_content); [|discriminate].
  destruct (Py.get sl k_teaching_points (VList [])); [|discriminate].
  simpl. destruct (Py.join_value [NL] a1); [|discriminate].
  simpl. intros H. inversion H; subst. simpl. eauto.
Qed.

(** The loop of lines 397-404 appends one slide for every item, numbered
    from [n] on, to the list of [name] and to no other. *)
Lemma merge_slides_appends (name : value) (items : list value) :
  forall n d d',
    dict_mem name d = true ->
    merge_slides name n items d = Ok d' ->
    exists old new,
      dict_lookup name d = Ok old
      /\ dict_lookup name d' = Ok (old ++ new)
      /\ map slide_number new = map str_of_nat (seq n (length items))
      /\ Forall (fun s => exists t, slide_teaching_points s = VStr t) new
      /\ forall other,
           Py.key_eqb other name = false ->
           dict_lookup other d' = dict_lookup other d.
Proof.
  induction items as [|sl items IH]; intros n d d' Hmem H.
  - inversion H; subst. destruct (dict_lookup_mem name d' Hmem) as (old & Ho).
    exists old, []. rewrite app_nil_r. repeat split; auto.
  - simpl in H. destruct (merge_slide n sl) as [x|e] eqn:Ex; [|discriminate].
    simpl in H.
    destruct (IH (S n) (dict_append name x d) d') as
      (old1 & new & Ho1 & Hl & Hnum & Htp & Hother);
      [rewrite dict_mem_append; exact Hmem | exact H |].
    destruct (dict_lookup_mem name d Hmem) as (old & Ho).
    rewrite dict_lookup_append_same, Ho in Ho1 by exact Hmem.
    simpl in Ho1. inversion Ho1; subst old1.
    apply merge_slide_number in Ex as [Hx Hxt].
    exists old, (x :: new). split; [exact Ho|]. split.
    { rewrite Hl, <- app_assoc. reflexivity. }
    split; [simpl; rewrite Hx, Hnum; reflexivity|].
    split; [constructor; assumption|].
    intros other Hne. rewrite (Hother other Hne).
    apply dict_lookup_append_other. exact Hne.
Qed.

Lemma dict_lookup_snoc_other (name other : value) (d : list (value * list slide)) :
  Py.key_eqb other name = false ->
  dict_lookup other (d ++ [(name, [])]) = dict_lookup other d.
Proof.
  intros Hne. unfold dict_lookup. induction d as [|[k v] d IH].
  - simpl. rewrite key_eqb_sym, Hne. reflexivity.
  - simpl. destruct (Py.key_eqb k other); [reflexivity | exact IH].
Qed.

Lemma dict_lookup_snoc_same (name : value) (d : list (value * list slide)) :
  Py.hashable name = true -> dict_mem name d = false ->
  dict_lookup name (d ++ [(name, [])]) = Ok [].
Proof.
  intros Hh. unfold dict_mem, dict_lookup. induction d as [|[k v] d IH].
  - intros _. simpl. rewrite key_eqb_refl by exact Hh. reflexivity.
  - simpl. destruct (Py.key_eqb k name); simpl; [discriminate | exact IH].
Qed.

Lemma dict_mem_snoc (name : value) (d : list (value * list slide)) :
  Py.hashable name = true -> dict_mem name (d ++ [(name, [])]) = true.
Proof.
  intros Hh. unfold dict_mem. rewrite existsb_app. simpl.
  rewrite key_eqb_refl by exact Hh. apply orb_true_r.
Qed.

End MergeShape.

(** X6: an occurrence of a section whose name is true adds exactly one
    slide for every item of its ["slides"], in order and numbered "1", "2",
    ... from 1 for this occurrence, behind the slides already merged under
    that name; the slides merged under the other names are as before. *)
Theorem merge_section_appends (st st' : merge_state) (sec name slides : value)
  (items : list value) :
  Py.get sec k_name VNone = Ok name -> Py.truthy name = true ->
  Py.get sec k_slides (VList []) = Ok slides -> Py.iter slides = Ok items ->
  merge_section st sec = Ok st' ->
  exists new,
    map slide_number new = map str_of_nat (seq 1 (length items))
    /\ dict_lookup name (sections_dict st')
       = Ok (already_merged st name ++ new)
    /\ forall other,
         Py.key_eqb other name = false ->
         dict_lookup other (sections_dict st')
         = dict_lookup other (sections_dict st).
Proof.
  intros Hname Htrue Hslides Hitems H. unfold merge_section in H.
  rewrite Hname in H. simpl in H. rewrite Htrue in H. simpl in H.
  destruct (Py.hashable name) eqn:Hh; simpl in H; [|discriminate].
  rewrite Hslides in H. simpl in H. rewrite Hitems in H. simpl in H.
  unfold already_merged.
  destruct (dict_mem name (sections_dict st)) eqn:Hm.
  - destruct (merge_slides name 1 items (sections_dict st)) as [d|e] eqn:Ed;
      [|discriminate].
    inversion H; subst. simpl.
    destruct (merge_slides_appends name items 1 _ _ Hm Ed)
      as (old & new & Ho & Hl & Hnum & _ & Hother).
    exists new. rewrite Ho. auto.
  - cbn [sections_dict section_order] in H.
    destruct (merge_slides name 1 items (sections_dict st ++ [(name, [])]))
      as [d|e] eqn:Ed; [|discriminate].
    inversion H; subst. simpl.
    destruct (merge_slides_appends name items 1 _ _
                (dict_mem_snoc name (sections_dict st) Hh) Ed)
      as (old & new & Ho & Hl & Hnum & _ & Hother).
    rewrite dict_lookup_snoc_same in Ho by assumption. inversion Ho; subst old.
    exists new. rewrite (dict_lookup_not_mem name _ Hm).
    split; [exact Hnum|]. split; [exact Hl|].
    intros other Hne. rewrite (Hother other Hne).
    apply dict_lookup_snoc_other. exact Hne.
Qed.

Lemma merge_section_appends_witness :
  exists new,
    map slide_number new = map str_of_nat (seq 1 1)
    /\ dict_lookup (VStr (of_string "Intro"%string))
         [(VStr (of_string "Intro"%string),
           [mkSlide (of_string "1"%string) (VStr (of_string "a"%string))
              (VList []) (VStr []);
            mkSlide (of_string "1"%string) (VStr (of_string "c"%string))
              (VList [VStr (of_string "point"%string)])
              (VStr (of_string "hint"%string))])]
       = Ok (already_merged
               (mkState
                  [(VStr (of_string "Intro"%string),
                    [mkSlide (of_string "1"%string)
                       (VStr (of_string "a"%string)) (VList []) (VStr [])])]
                  [VStr (of_string "Intro"%string)])
               (VStr (of_string "Intro"%string)) ++ new)
    /\ forall other,
         Py.key_eqb other (VStr (of_string "Intro"%string)) = false ->
         dict_lookup other
           [(VStr (of_string "Intro"%string),
             [mkSlide (of_string "1"%string) (VStr (of_string "a"%string))
                (VList []) (VStr []);
              mkSlide (of_string "1"%string) (VStr (of_string "c"%string))
                (VList [VStr (of_string "point"%string)])
                (VStr (of_string "hint"%string))])]
         = dict_lookup other
             [(VStr (of_string "Intro"%string),
               [mkSlide (of_string "1"%string)
                  (VStr (of_string "a"%string)) (VList []) (VStr [])])].
Proof.
  apply (merge_section_appends
           (mkState
              [(VStr (of_string "Intro"%string),
                [mkSlide (of_string "1"%string)
                   (VStr (of_string "a"%string)) (VList []) (VStr [])])]
              [VStr (of_string "Intro"%string)])
           (mkState
              [(VStr (of_string "Intro"%string),
                [mkSlide (of_string "1"%string) (VStr (of_string "a"%string))
                   (VList []) (VStr []);
                 mkSlide (of_string "1"%string) (VStr (of_string "c"%string))
                   (VList [VStr (of_string "point"%string)])
                   (VStr (of_string "hint"%string))])]
              [VStr (of_string "Intro"%string)])
           (MergeExample.a_section "Intro"%string
              [MergeExample.a_slide "c"%string])
           (VStr (of_string "Intro"%string))
           (VList [MergeExample.a_slide "c"%string])
           [MergeExample.a_slide "c"%string]);
    reflexivity.
Defined.

(** ** The merger: shape of the merged slides, and failures *)

Section MergedSlides.

Lemma dict_append_merged (name : value) (x : slide)
  (d : list (value * list slide)) :
  merged_slide x -> all_merged d -> all_merged (dict_append name x d).
Proof.
  intros Hx Hd. induction Hd as [|[k v] d Hv Hd IH]; [constructor|].
  simpl. destruct (Py.key_eqb k name); constructor; simpl in *; auto.
  apply Forall_app. split; [exact Hv | constructor; [exact Hx | constructor]].
Qed.

Lemma merge_slides_merged (name : value) (items : list value) :
  forall n d d',
    1 <= n -> all_merged d -> merge_slides name n items d = Ok d' ->
    all_merged d'.
Proof.
  induction items as [|sl items IH]; intros n d d' Hn Hd H.
  - inversion H; subst. exact Hd.
  - simpl in H. destruct (merge_slide n sl) as [x|e] eqn:Ex; [|discriminate].
    simpl in H. apply merge_slide_number in Ex as [Hx Hxt].
    eapply (IH (S n)); [lia | | exact H].
    apply dict_append_merged; [|exact Hd]. split; [eauto | exact Hxt].
Qed.

Lemma merge_section_merged (st st' : merge_state) (sec : value) :
  all_merged (sections_dict st) -> merge_section st sec = Ok st' ->
  all_merged (sections_dict st').
Proof.
  intros Hd H. unfold merge_section in H.
  destruct (Py.get sec k_name VNone) as [name|e]; [|discriminate].
  simpl in H.
  destruct (Py.truthy name); simpl in H; [|inversion H; subst; exact Hd].
  destruct (Py.hashable name); simpl in H; [|discriminate].
  destruct (Py.get sec k_slides (VList [])) as [slides|e]; [|discriminate].
  simpl in H. destruct (Py.iter slides) as [items|e]; [|discriminate].
  simpl in H.
  destruct (dict_mem name (sections_dict st)).
  - destruct (merge_slides name 1 items (sections_dict st)) as [d|e] eqn:Ed;
      [|discriminate].
    inversion H; subst. simpl.
    eapply merge_slides_merged; [| |exact Ed]; [lia | exact Hd].
  - cbn [sections_dict section_order] in H.
    destruct (merge_slides name 1 items (sections_dict st ++ [(name, [])]))
      as [d|e] eqn:Ed; [|discriminate].
    inversion H; subst. simpl.
    eapply merge_slides_merged; [| |exact Ed]; [lia|].
    apply Forall_app. split; [exact Hd|].
    constructor; [constructor | constructor].
Qed.

Lemma mapM_as_str (ls : list str) : mapM Py.as_str (map VStr ls) = Ok ls.
Proof.
  induction ls as [|l ls IH]; [reflexivity|].
  simpl. rewrite IH. reflexivity.
Qed.

End MergedSlides.

(** X7: in the result of a merge every slide has a number that is the
    decimal form of a positive integer, and its teaching points are a
    string, whatever form they had in the chunk results. *)
Theorem merged_slides_shape (yaml_parts : list value) (st : merge_state) :
  merge_parts yaml_parts = Ok st ->
  Forall (fun kv => Forall merged_slide (snd kv)) (sections_dict st).
Proof.
  intros H.
  eapply (foldM_invariant (fun s => all_merged (sections_dict s)));
    [| |exact H]; [|constructor].
  intros s part s' Hs Hpart. unfold merge_part in Hpart.
  destruct (Py.get part k_sections (VList [])) as [secs|e]; [|discriminate].
  simpl in Hpart. destruct (Py.iter secs) as [items|e]; [|discriminate].
  simpl in Hpart.
  eapply (foldM_invariant (fun s => all_merged (sections_dict s)));
    [|exact Hs|exact Hpart].
  intros s0 sec s1. apply merge_section_merged.
Qed.

Lemma merged_slides_shape_witness :
  Forall (fun kv => Forall merged_slide (snd kv))
    [(VStr (of_string "Intro"%string),
      [mkSlide (of_string "1"%string) (VStr (of_string "a"%string))
         (VList [VStr (of_string "point"%string)])
         (VStr (of_string "hint"%string))])].
Proof.
  apply (merged_slides_shape
           [MergeExample.a_part
              [MergeExample.a_section "Intro"%string
                 [MergeExample.a_slide "a"%string]]]
           (mkState
              [(VStr (of_string "Intro"%string),
                [mkSlide (of_string "1"%string) (VStr (of_string "a"%string))
                   (VList [VStr (of_string "point"%string)])
                   (VStr (of_string "hint"%string))])]
              [VStr (of_string "Intro"%string)])).
  reflexivity.
Defined.

(** X8: the teaching points of a slide that has a title and a content.  A
    missing ["teaching_points"] gives the empty string; a list of strings
    gives its lines joined by newlines; a string is taken apart, its
    characters joined by newlines; an explicit null makes line 402 raise
    [TypeError]. *)
Theorem merge_slide_teaching_points (slide_num : nat)
  (d : list (value * value)) (title content : value) :
  Py.dict_get k_title d = Some title ->
  Py.dict_get k_content d = Some content ->
  (Py.dict_get k_teaching_points d = None ->
   merge_slide slide_num (VDict d)
   = Ok (mkSlide (str_of_nat slide_num) title content (VStr [])))
  /\ (forall points,
         Py.dict_get k_teaching_points d = Some (VList (map VStr points)) ->
         merge_slide slide_num (VDict d)
         = Ok (mkSlide (str_of_nat slide_num) title content
                 (VStr (join [NL] points))))
  /\ (forall t,
         Py.dict_get k_teaching_points d = Some (VStr t) ->
         merge_slide slide_num (VDict d)
         = Ok (mkSlide (str_of_nat slide_num) title content
                 (VStr (join [NL] (map (fun c => [c]) t)))))
  /\ (Py.dict_get k_teaching_points d = Some VNone ->
      merge_slide slide_num (VDict d) = Raise TypeError).
Proof.
  intros Ht Hc. unfold merge_slide, Py.subscript, Py.get.
  rewrite Ht, Hc. simpl. repeat split.
  - intros ->. reflexivity.
  - intros points ->. simpl. unfold Py.join_value. simpl.
    rewrite mapM_as_str. reflexivity.
  - intros t ->. simpl. unfold Py.join_value. simpl.
    rewrite <- (map_map (fun c => [c]) VStr), mapM_as_str. reflexivity.
  - intros ->. reflexivity.
Qed.

Lemma merge_slide_teaching_points_witness :
  merge_slide 1
    (VDict [(VStr k_title, VStr (of_string "T"%string));
            (VStr k_content, VList []);
            (VStr k_teaching_points, VStr (of_string "abc"%string))])
  = Ok (mkSlide (of_string "1"%string) (VStr (of_string "T"%string))
          (VList [])
          (VStr (join [NL] [of_string "a"%string; of_string "b"%string;
                            of_string "c"%string]))).
Proof.
  exact (proj1 (proj2 (proj2
           (merge_slide_teaching_points 1
              [(VStr k_title, VStr (of_string "T"%string));
               (VStr k_content, VList []);
               (VStr k_teaching_points, VStr (of_string "abc"%string))]
              (VStr (of_string "T"%string)) (VList [])
              eq_refl eq_refl)))
           (of_string "abc"%string) eq_refl).
Defined.

(** X9: a merge that returns has met mappings only: a chunk result that is
    not a mapping (a reply that parses to plain text, to a list or to
    null) makes line 385 raise, and so does a named section with a slide
    that has no title or no content. *)
Theorem merge_needs_mappings (yaml_parts : list value) (st : merge_state) :
  merge_parts yaml_parts = Ok st -> Forall is_mapping yaml_parts.
Proof.
  unfold merge_parts. generalize empty_state.
  induction yaml_parts as [|part parts IH]; intros st0 H; [constructor|].
  simpl in H. destruct (merge_part st0 part) as [st1|e] eqn:E; [|discriminate].
  simpl in H. constructor; [|eapply IH; exact H].
  destruct part; try discriminate. eexists. reflexivity.
Qed.

Lemma merge_needs_mappings_witness :
  Forall is_mapping
    [MergeExample.a_part
       [MergeExample.a_section "Intro"%string
          [MergeExample.a_slide "a"%string]]].
Proof.
  apply (merge_needs_mappings _
           (mkState
              [(VStr (of_string "Intro"%string),
                [mkSlide (of_string "1"%string) (VStr (of_string "a"%string))
                   (VList [VStr (of_string "point"%string)])
                   (VStr (of_string "hint"%string))])]
              [VStr (of_string "Intro"%string)])).
  reflexivity.
Defined.

(** ** The partitioner: numbering and sizes of the files *)

Section FileLayout.

Lemma file_sections_ok (st : merge_state) (i : nat) :
  well_formed st ->
  exists secs,
    file_sections st i = Ok secs
    /\ map section_name secs
       = slice (i * sections_per_file st)
           (if i <? 7 then (i + 1) * sections_per_file st
            else length (section_order st)) (section_order st)
    /\ map section_number secs = map str_of_nat (seq 1 (length secs)).
Proof.
  intros [Hk Hd]. unfold file_sections.
  destruct (number_sections_spec (sections_dict st)
              (slice (i * sections_per_file st)
                 (if i <? 7 then (i + 1) * sections_per_file st
                  else length (section_order st)) (section_order st)))
    with (n := 1) as (secs & Hs & Hn & Hnum & _).
  - intros k Hin. apply slice_incl in Hin. rewrite <- Hk in Hin.
    apply in_map_iff in Hin as ([k' v] & <- & Hin). exists v. exact Hin.
  - rewrite Hk. exact Hd.
  - exists secs. split; [exact Hs|]. split; [exact Hn|].
    rewrite Hnum, <- Hn, length_map. reflexivity.
Qed.

(** The loop of lines 414-432 adds the document of each file in turn. *)
Lemma yaml_files_exact (name : value) (st : merge_state) (idx : list nat) :
  (forall i, In i idx -> exists secs, file_sections st i = Ok secs) ->
  forall files0,
    foldM (fun files i =>
             secs <- file_sections st i ;;
             Ok (match secs with
                 | [] => files
                 | _ :: _ => files ++ [mkDocument name secs]
                 end)) files0 idx
    = Ok (files0 ++ concat (map (file_document name st) idx)).
Proof.
  induction idx as [|i idx IH]; intros Hok files0.
  - simpl. rewrite app_nil_r. reflexivity.
  - destruct (Hok i (or_introl eq_refl)) as (secs & Hsecs).
    simpl. unfold file_document at 1, sections_of_file at 1.
    rewrite Hsecs. simpl.
    rewrite (IH (fun j H => Hok j (or_intror H))).
    destruct secs; [reflexivity|]. rewrite <- app_assoc. reflexivity.
Qed.

Lemma yaml_files_documents (name : value) (st : merge_state) :
  well_formed st ->
  yaml_files name st = Ok (concat (map (file_document name st) (seq 0 8))).
Proof.
  intros Hwf. unfold yaml_files. rewrite yaml_files_exact; [reflexivity|].
  intros i _. destruct (file_sections_ok st i Hwf) as (secs & Hs & _).
  eauto.
Qed.

Lemma length_slice {A} (a b : nat) (l : list A) :
  length (slice a b l) = Nat.min (b - a) (length l - a).
Proof. unfold slice. rewrite length_firstn, length_skipn. reflexivity. Qed.

Lemma length_sections_of_file (st : merge_state) (i : nat) :
  well_formed st ->
  length (sections_of_file st i)
  = Nat.min ((if i <? 7 then (i + 1) * sections_per_file st
              else length (section_order st)) - i * sections_per_file st)
      (length (section_order st) - i * sections_per_file st).
Proof.
  intros Hwf. destruct (file_sections_ok st i Hwf) as (secs & Hs & Hn & _).
  unfold sections_of_file. rewrite Hs.
  rewrite <- (length_map section_name), Hn. apply length_slice.
Qed.

Lemma file_document_sizes (name : value) (st : merge_state) (i : nat) :
  map (fun f => length (sections f)) (file_document name st i)
  = match length (sections_of_file st i) with
    | 0 => []
    | S k => [S k]
    end.
Proof.
  unfold file_document. destruct (sections_of_file st i); reflexivity.
Qed.

End FileLayout.

(** X10: the sections of every output file are numbered "1", "2", ... in
    the order they have in the file: the numbering restarts in each file
    and does not show a section's place in the lecture. *)
Theorem file_sections_numbered (yaml_parts : list value) (st : merge_state)
  (name : value) (files : list document) :
  merge_parts yaml_parts = Ok st ->
  yaml_files name st = Ok files ->
  Forall (fun f => map section_number (sections f)
                   = map str_of_nat (seq 1 (length (sections f)))) files.
Proof.
  intros Hm Hf. apply merge_parts_well_formed in Hm.
  assert (E : files = concat (map (file_document name st) (seq 0 8)))
    by (rewrite (yaml_files_documents name st Hm) in Hf; congruence).
  subst files.
  apply Forall_forall. intros f Hin.
  apply in_concat in Hin as (fs & Hfs & Hin).
  apply in_map_iff in Hfs as (i & <- & _).
  destruct (file_sections_ok st i Hm) as (secs & Hs & _ & Hnum).
  unfold file_document, sections_of_file in Hin. rewrite Hs in Hin.
  destruct secs as [|s secs]; [destruct Hin|].
  destruct Hin as [<- | []]. exact Hnum.
Qed.

Lemma file_sections_numbered_witness :
  Forall (fun f => map section_number (sections f)
                   = map str_of_nat (seq 1 (length (sections f))))
    PartitionExample.files.
Proof.
  apply (file_sections_numbered PartitionExample.nine_sections
           PartitionExample.merged (VStr (of_string "Lecture"%string)));
    vm_compute; reflexivity.
Defined.

(** X11: how many files there are and how large.  With fewer than eight
    merged sections every section gets a file of its own; with [n >= 8]
    sections there are exactly eight files, the first seven of [n // 8]
    sections and the last one of the remaining [n - 7 * (n // 8)]. *)
Theorem file_layout (yaml_parts : list value) (st : merge_state)
  (name : value) (files : list document) :
  merge_parts yaml_parts = Ok st ->
  yaml_files name st = Ok files ->
  map (fun f => length (sections f)) files
  = if length (section_order st) <? 8
    then repeat 1 (length (section_order st))
    else repeat (length (section_order st) / 8) 7
         ++ [length (section_order st) - 7 * (length (section_order st) / 8)].
Proof.
  intros Hm Hf. apply merge_parts_well_formed in Hm.
  assert (E : files = concat (map (file_document name st) (seq 0 8)))
    by (rewrite (yaml_files_documents name st Hm) in Hf; congruence).
  subst files.
  rewrite concat_map, map_map.
  rewrite (map_ext _ _ (file_document_sizes name st)).
  cbn [seq map].
  rewrite !(length_sections_of_file st _ Hm). unfold sections_per_file.
  remember (length (section_order st)) as n eqn:En. clear En Hf.
  destruct (Nat.ltb_spec n 8) as [Hn | Hn].
  - do 8 (destruct n as [|n]; [reflexivity|]). lia.
  - pose proof (Nat.Div0.mul_div_le n 8) as Hle.
    assert (Hw : 1 <= n / 8) by (apply Nat.div_le_lower_bound; lia).
    rewrite (Nat.max_r 1 (n / 8)) by exact Hw.
    remember (n / 8) as w eqn:Ew. clear Ew. cbn [Nat.ltb Nat.leb].
    replace (Nat.min ((0 + 1) * w - 0 * w) (n - 0 * w)) with w by lia.
    replace (Nat.min ((1 + 1) * w - 1 * w) (n - 1 * w)) with w by lia.
    replace (Nat.min ((2 + 1) * w - 2 * w) (n - 2 * w)) with w by lia.
    replace (Nat.min ((3 + 1) * w - 3 * w) (n - 3 * w)) with w by lia.
    replace (Nat.min ((4 + 1) * w - 4 * w) (n - 4 * w)) with w by lia.
    replace (Nat.min ((5 + 1) * w - 5 * w) (n - 5 * w)) with w by lia.
    replace (Nat.min ((6 + 1) * w - 6 * w) (n - 6 * w)) with w by lia.
    replace (Nat.min (n - 7 * w) (n - 7 * w)) with (n - 7 * w) by lia.
    destruct w as [|w]; [lia|].
    destruct (n - 7 * S w) as [|r] eqn:Er; [lia|]. reflexivity.
Qed.

Lemma file_layout_witness :
  map (fun f => length (sections f)) PartitionExample.files
  = [1; 1; 1; 1; 1; 1; 1; 2].
Proof.
  apply (file_layout PartitionExample.nine_sections PartitionExample.merged
           (VStr (of_string "Lecture"%string)) PartitionExample.files);
    vm_compute; reflexivity.
Defined.

(** ** The size adjuster: requests issued and slides produced *)

Section Requests.

Lemma within_ret {A} (a : A) : within 0 (ret a).
Proof.
  intros tr. exists []. rewrite app_nil_r. split; [reflexivity | simpl; lia].
Qed.

Lemma within_lift {A} (r : result A) : within 0 (lift r).
Proof.
  intros tr. exists []. rewrite app_nil_r. split; [reflexivity | simpl; lia].
Qed.

Lemma within_weaken {A} (n n' : nat) (m : M A) :
  n <= n' -> within n m -> within n' m.
Proof.
  intros Hle Hm tr. destruct (Hm tr) as (new & E & L).
  exists new. split; [exact E | lia].
Qed.

(** The bound on the continuation may use that the first part returned. *)
Lemma within_bind_ok {A B} (n1 n2 : nat) (m : M A) (k : A -> M B) :
  within n1 m ->
  (forall tr a tr1, m tr = (Ok a, tr1) -> within n2 (k a)) ->
  within (n1 + n2) (bindM m k).
Proof.
  intros Hm Hk tr. unfold bindM. destruct (Hm tr) as (new1 & E1 & L1).
  destruct (m tr) as [[a|e] tr1] eqn:Em; simpl in E1; subst tr1.
  - destruct (Hk tr a _ Em (tr ++ new1)) as (new2 & E2 & L2).
    exists (new1 ++ new2). rewrite E2, app_assoc, length_app.
    split; [reflexivity | lia].
  - exists new1. split; [reflexivity | lia].
Qed.

Lemma within_bind {A B} (n1 n2 : nat) (m : M A) (k : A -> M B) :
  within n1 m -> (forall a, within n2 (k a)) -> within (n1 + n2) (bindM m k).
Proof. intros Hm Hk. apply within_bind_ok; auto. Qed.

Lemma within_mapMM {A B} (c : nat) (f : A -> M B) (l : list A) :
  (forall a, In a l -> within c (f a)) -> within (c * length l) (mapMM f l).
Proof.
  induction l as [|a l IH]; intros H.
  - simpl. rewrite Nat.mul_0_r. apply within_ret.
  - simpl. replace (c * S (length l)) with (c + (c * length l + 0)) by lia.
    apply within_bind; [apply H; left; reflexivity|]. intros b.
    apply within_bind; [|intros bs; apply within_ret].
    apply IH. intros a' Ha. apply H. right. exact Ha.
Qed.

Lemma within_mapMM_sum {A B} (c : A -> nat) (f : A -> M B) (l : list A) :
  (forall a, In a l -> within (c a) (f a)) ->
  within (list_sum (map c l)) (mapMM f l).
Proof.
  induction l as [|a l IH]; intros H.
  - apply within_ret.
  - simpl.
    replace (c a + list_sum (map c l))
      with (c a + (list_sum (map c l) + 0)) by lia.
    apply within_bind; [apply H; left; reflexivity|]. intros b.
    apply within_bind; [|intros bs; apply within_ret].
    apply IH. intros a' Ha. apply H. right. exact Ha.
Qed.

Lemma list_sum_scaled {A} (c : nat) (g : A -> nat) (l : list A) :
  list_sum (map (fun a => c * g a) l) = c * list_sum (map g l).
Proof. induction l as [|a l IH]; simpl; [lia | rewrite IH; lia]. Qed.

Lemma list_sum_indicator {A} (p : A -> bool) (l : list A) :
  list_sum (map (fun a => if p a then 1 else 0) l) = length (filter p l).
Proof.
  induction l as [|a l IH]; [reflexivity|].
  simpl. destruct (p a); simpl; rewrite IH; reflexivity.
Qed.

Variable llm : trace -> call -> option str.
Variable yaml_safe_load : str -> option value.
Variable yaml_dump : document -> str.
Variable repr_str : str -> str.

Lemma within_summarize (content : str) (max_tokens : Z) :
  within 1 (summarize_with_openai llm content max_tokens).
Proof.
  intros tr. exists [mkCall content max_tokens].
  split; [reflexivity | simpl; lia].
Qed.

Ltac count_requests :=
  repeat first [ apply within_ret | apply within_lift
               | apply within_summarize
               | (eapply within_bind; [|intros ?]) ].

Lemma within_expand_slide (s : slide) : within 3 (expand_slide llm s).
Proof.
  unfold expand_slide.
  destruct (slide_content s);
    (eapply within_weaken; [|count_requests]; simpl; lia).
Qed.

Lemma within_compress_slide (s : slide) :
  within 3 (compress_slide llm repr_str s).
Proof.
  unfold compress_slide, slide_tasks.
  destruct (slide_content s) as [|b|z|s0|items|d];
    try (eapply within_weaken; [|count_requests]; simpl; lia).
  destruct (5 <? length items);
    (eapply within_weaken; [|count_requests]; simpl; lia).
Qed.

Lemma within_for_each_slide (f : slide -> M slide) (doc : document) :
  (forall s, within 3 (f s)) ->
  within (3 * total_slides doc) (for_each_slide f doc).
Proof.
  intros Hf. unfold for_each_slide, total_slides.
  rewrite <- list_sum_scaled.
  eapply within_weaken;
    [|apply within_bind; [apply within_mapMM_sum | intros ?; apply within_ret]].
  - rewrite Nat.add_0_r. apply Nat.le_refl.
  - intros sec _. cbv beta.
    replace (3 * length (section_slides sec))
      with (3 * length (section_slides sec) + 0) by lia.
    apply within_bind; [|intros ?; apply within_ret].
    apply within_mapMM. intros s _. apply Hf.
Qed.

Lemma within_resummarize_document (doc : document) :
  within (long_sections doc)
    (resummarize_document llm yaml_safe_load repr_str doc).
Proof.
  unfold resummarize_document, long_sections.
  rewrite <- list_sum_indicator.
  eapply within_weaken;
    [|apply within_bind; [apply within_mapMM_sum | intros ?; apply within_ret]].
  - rewrite Nat.add_0_r. apply Nat.le_refl.
  - intros sec _. cbv beta. unfold resummarize_section.
    destruct (10 <? length (section_slides sec)).
    + eapply within_weaken; [|count_requests]; simpl; lia.
    + apply within_ret.
Qed.

Lemma long_sections_same_shape (l l' : list section) :
  Forall2 same_shape l l' ->
  length (filter (fun sec => 10 <? length (section_slides sec)) l')
  = length (filter (fun sec => 10 <? length (section_slides sec)) l).
Proof.
  induction 1 as [|s s' l l' (_ & _ & Hlen) _ IH]; [reflexivity|].
  simpl. rewrite Hlen.
  destruct (10 <? length (section_slides s)); simpl; rewrite IH; reflexivity.
Qed.

Lemma within_adjust (doc : document) (max_chars : Z) :
  within (3 * total_slides doc + long_sections doc)
    (adjust_yaml_size llm yaml_safe_load yaml_dump repr_str doc max_chars).
Proof.
  unfold adjust_yaml_size.
  destruct (dump_size yaml_dump doc <? 8000)%Z.
  - eapply within_weaken; [|apply within_for_each_slide, within_expand_slide].
    lia.
  - destruct (dump_size yaml_dump doc <=? max_chars)%Z.
    + eapply within_weaken; [|apply within_ret]. lia.
    + apply within_bind_ok;
        [apply within_for_each_slide, within_compress_slide|].
      intros tr mid tr1 Hmid.
      apply for_each_slide_shape in Hmid as [_ Hshape].
      destruct (max_chars <? dump_size yaml_dump mid)%Z.
      * unfold long_sections at 1.
        rewrite <- (long_sections_same_shape _ _ Hshape).
        apply within_resummarize_document.
      * eapply within_weaken; [|apply within_ret]. lia.
Qed.

End Requests.

(** X12: the size adjuster never issues more than three requests for a
    slide, plus one for every section of more than ten slides, whether it
    returns or raises; the requests issued before are all kept, in
    order. *)
Theorem request_budget (llm : trace -> call -> option str)
  (yaml_safe_load : str -> option value) (yaml_dump : document -> str)
  (repr_str : str -> str) (doc : document) (max_chars : Z) (tr : trace) :
  exists new,
    snd (adjust_yaml_size llm yaml_safe_load yaml_dump repr_str doc
           max_chars tr) = tr ++ new
    /\ length new <= 3 * total_slides doc + long_sections doc.
Proof. apply within_adjust. Qed.

Section AdjustedSlides.

Variable llm : trace -> call -> option str.
Variable yaml_safe_load : str -> option value.
Variable yaml_dump : document -> str.
Variable repr_str : str -> str.

Ltac split_results H :=
  repeat match type of H with
         | context [match ?x with Ok _ => _ | Raise _ => _ end] =>
             destruct x eqn:?; try discriminate
         end.


(** The requests of lines 208-223 for one slide: one for the content, a
    second one for a content list of more than five items, and one for the
    teaching points. *)
Lemma slide_tasks_shape (s : slide) (tr tr1 : trace)
  (tasks : list (task_type * str)) :
  slide_tasks llm repr_str s tr = (Ok tasks, tr1) ->
  exists r rp,
    tasks = [(TContent, r); (TTeachingPoints, rp)]
    /\ (forall items, slide_content s = VList items -> length items <= 5)
    \/ exists r5 items,
         tasks = [(TContent, r); (TContentLimit, r5); (TTeachingPoints, rp)]
         /\ slide_content s = VList items.
Proof.
  destruct s as [n t c p].
  destruct c as [|b|z|s0|items|d];
    cbv beta iota zeta delta [slide_tasks bindM ret lift
                         summarize_with_openai slide_content
                         slide_teaching_points];
    intros H; split_results H.
  1-4, 6: injection H as <- _; eexists; eexists; left;
    (split; [reflexivity | intros items0 E; discriminate E]).
  destruct (Nat.ltb_spec 5 (length items)) as [Hlt | Hle];
    injection H as <- _; eexists; eexists.
  - right. eexists. eexists. split; reflexivity.
  - left. split; [reflexivity|]. intros items0 E.
    injection E as <-. exact Hle.
Qed.

Lemma compress_slide_spec (s s' : slide) (tr tr' : trace) :
  compress_slide llm repr_str s tr = (Ok s', tr') -> compressed_slide s s'.
Proof.
  unfold compress_slide. intros H.
  apply bindM_inv in H as (tasks & tr1 & Htasks & H).
  injection H as <- _.
  apply slide_tasks_shape in Htasks
    as (r & rp & [[-> Hshort] | (r5 & items & -> & Hc)]);
    unfold compressed_slide;
    cbn [fold_left apply_task slide_content slide_number slide_title
         slide_teaching_points set_content set_teaching_points].
  - destruct s as [n t c p]. cbn [slide_content] in *.
    destruct c as [|b|z|s0|items|d];
      cbn [slide_content slide_number slide_title slide_teaching_points
           set_content set_teaching_points];
      repeat split; eauto.
    exists (stripped_lines r). split; [reflexivity|].
    intros Hlong. specialize (Hshort items eq_refl). lia.
  - rewrite Hc.
    cbn [slide_content slide_number slide_title slide_teaching_points
         set_content set_teaching_points].
    repeat split; eauto.
    exists (firstn 5 (stripped_lines r5)).
    split; [rewrite firstn_map; reflexivity|].
    intros _. apply firstn_le_length.
Qed.

Lemma for_each_slide_related (R : slide -> slide -> Prop)
  (f : slide -> M slide) (doc doc' : document) (tr tr' : trace) :
  (forall s t s' t', f s t = (Ok s', t') -> R s s') ->
  for_each_slide f doc tr = (Ok doc', tr') -> slides_related R doc doc'.
Proof.
  intros Hf H. unfold for_each_slide in H.
  apply bindM_inv in H as (secs & tr1 & Hsecs & H).
  inversion H; subst. split; [reflexivity|]. simpl.
  eapply mapMM_Forall2; [|exact Hsecs].
  intros sec t sec' t' _ Hsec.
  apply bindM_inv in Hsec as (slides & t1 & Hslides & Hsec).
  inversion Hsec; subst. simpl.
  split; [reflexivity|]. split; [reflexivity|].
  eapply mapMM_Forall2; [|exact Hslides].
  intros s t0 s' t0' _. apply Hf.
Qed.

Lemma mapMM_unchanged {A} (f : A -> M A) (l : list A) (tr : trace) :
  Forall (fun a => f a tr = (Ok a, tr)) l -> mapMM f l tr = (Ok l, tr).
Proof.
  induction 1 as [|a l Ha _ IH]; [reflexivity|].
  simpl. rewrite (bindM_ok _ _ _ _ _ Ha), (bindM_ok _ _ _ _ _ IH).
  reflexivity.
Qed.

Lemma for_each_slide_slideless (f : slide -> M slide) (doc : document)
  (tr : trace) :
  Forall (fun sec => section_slides sec = []) (sections doc) ->
  for_each_slide f doc tr = (Ok doc, tr).
Proof.
  intros H. unfold for_each_slide.
  rewrite (bindM_ok _ _ tr tr (sections doc)).
  - destruct doc. reflexivity.
  - apply mapMM_unchanged. eapply Forall_impl; [|exact H].
    intros [n name slides] E. simpl in E. subst slides. reflexivity.
Qed.

Lemma resummarize_slideless (doc : document) (tr : trace) :
  Forall (fun sec => section_slides sec = []) (sections doc) ->
  resummarize_document llm yaml_safe_load repr_str doc tr = (Ok doc, tr).
Proof.
  intros H. unfold resummarize_document.
  rewrite (bindM_ok _ _ tr tr (sections doc)).
  - destruct doc. reflexivity.
  - apply mapMM_unchanged. eapply Forall_impl; [|exact H].
    intros sec E. unfold resummarize_section. rewrite E. reflexivity.
Qed.

End AdjustedSlides.



(** X14: an oversized document is first compressed slide by slide: every
    slide keeps its number and title, its teaching points become one
    string, a list content of more than five items becomes a list of at
    most five lines, and a content that is not a list becomes a string.
    The compressed document is the result when it fits, and a section of
    at most ten slides comes out compressed even when it does not. *)
Theorem compression_result (llm : trace -> call -> option str)
  (yaml_safe_load : str -> option value) (yaml_dump : document -> str)
  (repr_str : str -> str) (doc doc' : document) (max_chars : Z)
  (tr tr' : trace) :
  (8000 <= dump_size yaml_dump doc)%Z ->
  (max_chars < dump_size yaml_dump doc)%Z ->
  adjust_yaml_size llm yaml_safe_load yaml_dump repr_str doc max_chars tr
  = (Ok doc', tr') ->
  exists mid,
    slides_related compressed_slide doc mid
    /\ ((dump_size yaml_dump mid <= max_chars)%Z -> doc' = mid)
    /\ Forall2 (fun m s' => length (section_slides m) <= 10 -> s' = m)
         (sections mid) (sections doc').
Proof.
  intros Hbig Hover H. unfold adjust_yaml_size in H.
  destruct (Z.ltb_spec (dump_size yaml_dump doc) 8000) as [|_]; [lia|].
  destruct (Z.leb_spec (dump_size yaml_dump doc) max_chars) as [|_]; [lia|].
  apply bindM_inv in H as (mid & tr1 & Hmid & H).
  exists mid. split.
  { eapply for_each_slide_related; [|exact Hmid].
    intros s t s' t'. apply compress_slide_spec. }
  destruct (Z.ltb_spec max_chars (dump_size yaml_dump mid)) as [Hlt | Hle].
  - split; [lia|].
    apply resummarize_document_spec in H as [_ Hsecs].
    eapply Forall2_impl; [|exact Hsecs].
    intros m s' (_ & _ & Hkeep & _). exact Hkeep.
  - inversion H; subst. split; [reflexivity|].
    apply Forall2_diag. reflexivity.
Qed.

Lemma compression_result_witness :
  exists mid,
    slides_related compressed_slide big_document mid
    /\ ((dump_size plain_dump mid <= 10000)%Z -> three_entries_document = mid)
    /\ Forall2 (fun m s' => length (section_slides m) <= 10 -> s' = m)
         (sections mid) (sections three_entries_document).
Proof.
  apply (compression_result (reply_with three_entries) toy_load plain_dump
           simple_repr big_document three_entries_document 10000 []
           (snd three_entries_run)).
  - apply Z.leb_le. vm_compute. reflexivity.
  - apply Z.ltb_lt. vm_compute. reflexivity.
  - vm_compute. reflexivity.
Defined.

(** X15: a document none of whose sections has a slide is returned as it
    is, whatever its size, and no request is issued for it. *)
Theorem slideless_unchanged (llm : trace -> call -> option str)
  (yaml_safe_load : str -> option value) (yaml_dump : document -> str)
  (repr_str : str -> str) (doc : document) (max_chars : Z) (tr : trace) :
  Forall (fun sec => section_slides sec = []) (sections doc) ->
  adjust_yaml_size llm yaml_safe_load yaml_dump repr_str doc max_chars tr
  = (Ok doc, tr).
Proof.
  intros H. unfold adjust_yaml_size.
  destruct (dump_size yaml_dump doc <? 8000)%Z;
    [apply for_each_slide_slideless; exact H|].
  destruct (dump_size yaml_dump doc <=? max_chars)%Z; [reflexivity|].
  rewrite (bindM_ok _ _ tr tr doc)
    by (apply for_each_slide_slideless; exact H).
  destruct (max_chars <? dump_size yaml_dump doc)%Z; [|reflexivity].
  apply resummarize_slideless. exact H.
Qed.

Lemma slideless_unchanged_witness :
  adjust_yaml_size unreachable toy_load plain_dump simple_repr
    slideless_document 10000 []
  = (Ok slideless_document, []).
Proof.
  apply (slideless_unchanged unreachable toy_load plain_dump simple_repr
           slideless_document 10000 []).
  repeat constructor.
Defined.

(** ** The chunk analyzer: code fences *)

Section Fences.

Lemma lstrip_suffix (s : str) : exists pre, s = pre ++ lstrip s.
Proof.
  induction s as [|c s [pre IH]]; [exists []; reflexivity|].
  simpl. destruct (isspace c).
  - exists (c :: pre). simpl. f_equal. exact IH.
  - exists []. reflexivity.
Qed.

Lemma rstrip_prefix (s : str) : exists post, s = rstrip s ++ post.
Proof.
  unfold rstrip. destruct (lstrip_suffix (rev s)) as [pre E].
  exists (rev pre). rewrite <- rev_app_distr, <- E, rev_involutive.
  reflexivity.
Qed.

Lemma strip_infix (s : str) : exists pre post, s = pre ++ strip s ++ post.
Proof.
  unfold strip. destruct (lstrip_suffix s) as [pre E].
  destruct (rstrip_prefix (lstrip s)) as [post E'].
  exists pre, post. rewrite <- E'. exact E.
Qed.

Lemma starts_with_app (pat b : str) : starts_with pat (pat ++ b) = true.
Proof.
  induction pat as [|c pat IH]; [reflexivity|].
  simpl. unfold char_eqb. rewrite N.eqb_refl. exact IH.
Qed.

Lemma contains_occurs (pat s : str) : contains pat s -> occurs pat s = true.
Proof.
  intros (a & b & ->). induction a as [|c a IH].
  - simpl. destruct (pat ++ b) as [|c t] eqn:E.
    + destruct pat; [reflexivity | discriminate].
    + simpl. rewrite <- E, starts_with_app. reflexivity.
  - simpl. rewrite IH. apply Bool.orb_true_r.
Qed.

Local Abbreviation ticks := [96; 96; 96]%N.

Lemma remove_other (c : char) (s : str) :
  (c =? 96)%N = false ->
  remove_from ticks 0 (c :: s) = c :: remove_from ticks 0 s.
Proof.
  intros Hc. cbn [remove_from starts_with]. unfold char_eqb.
  rewrite N.eqb_sym, Hc. reflexivity.
Qed.

Lemma occurs_other (c : char) (s : str) :
  (c =? 96)%N = false -> occurs ticks (c :: s) = occurs ticks s.
Proof.
  intros Hc. cbn [occurs starts_with]. unfold char_eqb.
  rewrite N.eqb_sym, Hc. reflexivity.
Qed.

Lemma occurs_tick_other (c : char) (s : str) :
  (c =? 96)%N = false ->
  occurs ticks (96%N :: c :: s) = occurs ticks s.
Proof.
  intros Hc. rewrite <- (occurs_other c s Hc).
  cbn [occurs starts_with]. unfold char_eqb.
  rewrite (N.eqb_sym 96 c), Hc. rewrite Bool.andb_false_r. reflexivity.
Qed.

Lemma occurs_tick_tick_other (c : char) (s : str) :
  (c =? 96)%N = false ->
  occurs ticks (96%N :: 96%N :: c :: s) = occurs ticks s.
Proof.
  intros Hc. rewrite <- (occurs_tick_other c s Hc).
  cbn [occurs starts_with]. unfold char_eqb.
  rewrite (N.eqb_sym 96 c), Hc. rewrite !Bool.andb_false_r. reflexivity.
Qed.

Lemma clean_other (c : char) (s : str) :
  (c =? 96)%N = false ->
  occurs ticks (remove_from ticks 0 s) = false ->
  occurs ticks (remove_from ticks 0 (c :: s)) = false.
Proof.
  intros Hc H. rewrite remove_other, occurs_other by exact Hc. exact H.
Qed.

Lemma clean_tick_other (c : char) (s : str) :
  (c =? 96)%N = false ->
  occurs ticks (remove_from ticks 0 s) = false ->
  occurs ticks (remove_from ticks 0 (96%N :: c :: s)) = false.
Proof.
  intros Hc H.
  assert (E : remove_from ticks 0 (96%N :: c :: s)
              = 96%N :: remove_from ticks 0 (c :: s)).
  { cbn [remove_from starts_with]. unfold char_eqb.
    rewrite (N.eqb_sym 96 c), Hc. reflexivity. }
  rewrite E, remove_other, occurs_tick_other by exact Hc. exact H.
Qed.

Lemma clean_tick_tick_other (c : char) (s : str) :
  (c =? 96)%N = false ->
  occurs ticks (remove_from ticks 0 s) = false ->
  occurs ticks (remove_from ticks 0 (96%N :: 96%N :: c :: s)) = false.
Proof.
  intros Hc H.
  assert (E : remove_from ticks 0 (96%N :: 96%N :: c :: s)
              = 96%N :: 96%N :: remove_from ticks 0 (c :: s)).
  { cbn [remove_from starts_with]. unfold char_eqb.
    rewrite (N.eqb_sym 96 c), Hc. reflexivity. }
  rewrite E, remove_other, occurs_tick_tick_other by exact Hc. exact H.
Qed.

(** What is left after the removal has no run of three backticks. *)
Lemma remove_ticks_clean (n : nat) :
  forall s, length s <= n -> occurs ticks (remove_from ticks 0 s) = false.
Proof.
  induction n as [|n IH]; intros s Hlen.
  - destruct s; [reflexivity | simpl in Hlen; lia].
  - destruct s as [|c1 s]; [reflexivity|]. simpl in Hlen.
    destruct (c1 =? 96)%N eqn:E1;
      [|apply clean_other; [exact E1 | apply IH; lia]].
    apply N.eqb_eq in E1. subst c1.
    destruct s as [|c2 s]; [reflexivity|]. simpl in Hlen.
    destruct (c2 =? 96)%N eqn:E2;
      [|apply clean_tick_other; [exact E2 | apply IH; lia]].
    apply N.eqb_eq in E2. subst c2.
    destruct s as [|c3 s]; [reflexivity|]. simpl in Hlen.
    destruct (c3 =? 96)%N eqn:E3;
      [|apply clean_tick_tick_other; [exact E3 | apply IH; lia]].
    apply N.eqb_eq in E3. subst c3.
    change (remove_from ticks 0 (96%N :: 96%N :: 96%N :: s))
      with (remove_from ticks 0 s).
    apply IH. lia.
Qed.

(** A text without backticks is not changed by the removal of a pattern
    that starts with one. *)
Lemma remove_tickless (pat s rest : str) :
  ~ In backtick s ->
  remove_from (backtick :: pat) 0 (s ++ rest)
  = s ++ remove_from (backtick :: pat) 0 rest.
Proof.
  intros Hs. induction s as [|c s IH]; [reflexivity|].
  assert (Hc : char_eqb backtick c = false).
  { apply N.eqb_neq. intros E. apply Hs. left. symmetry. exact E. }
  rewrite <- app_comm_cons.
  cbn [remove_from starts_with]. rewrite Hc. cbn [andb].
  rewrite <- app_comm_cons. f_equal. apply IH. intros H. apply Hs. right. exact H.
Qed.

End Fences.

(** X16: whatever the model replied, the text handed to the YAML parser
    contains no code fence: no three backticks in a row are left. *)
Theorem no_fence_left (yaml_text : str) :
  ~ contains fence (strip_fences yaml_text).
Proof.
  intros (a & b & E). unfold strip_fences in E.
  destruct (strip_infix (remove_all fence (remove_all fence_yaml yaml_text)))
    as (pre & post & E').
  rewrite E in E'.
  assert (H : contains fence
                (remove_all fence (remove_all fence_yaml yaml_text))).
  { exists (pre ++ a), (b ++ post). rewrite E', <- !app_assoc. reflexivity. }
  apply contains_occurs in H. unfold remove_all in H.
  change fence with [96; 96; 96]%N in H.
  rewrite (remove_ticks_clean _ _ (Nat.le_refl _)) in H. discriminate.
Qed.

(** X17: a reply without backticks reaches the parser stripped and
    otherwise unchanged, and so does one wrapped in a yaml fence. *)
Theorem fenced_reply_unwrapped (body : str) :
  ~ In backtick body ->
  strip_fences body = strip body
  /\ strip_fences (fence_yaml ++ body ++ fence) = strip body.
Proof.
  intros Hb. unfold strip_fences, remove_all. split.
  - rewrite <- (app_nil_r body).
    change fence_yaml with (backtick :: of_string "``yaml"%string).
    change fence with (backtick :: of_string "``"%string).
    rewrite !remove_tickless by exact Hb. reflexivity.
  - assert (E : remove_from fence_yaml 0 (fence_yaml ++ body ++ fence)
                = remove_from fence_yaml 0 (body ++ fence)) by reflexivity.
    rewrite E.
    change fence_yaml with (backtick :: of_string "``yaml"%string).
    rewrite remove_tickless by exact Hb.
    change (remove_from (backtick :: of_string "``yaml"%string) 0 fence)
      with fence.
    change (remove_from fence 0 (body ++ fence))
      with (remove_from (backtick :: of_string "``"%string) 0 (body ++ fence)).
    rewrite remove_tickless by exact Hb.
    change (remove_from (backtick :: of_string "``"%string) 0 fence)
      with (@nil char).
    rewrite app_nil_r. reflexivity.
Qed.

Lemma fenced_reply_unwrapped_witness :
  strip_fences (NL :: of_string "a: 1"%string) = of_string "a: 1"%string
  /\ strip_fences (fence_yaml ++ (NL :: of_string "a: 1"%string) ++ fence)
     = of_string "a: 1"%string.
Proof.
  apply (fenced_reply_unwrapped (NL :: of_string "a: 1"%string)).
  vm_compute. intros H.
  repeat (destruct H as [H | H]; [discriminate H|]). exact H.
Defined.

(** ** Subtitles: runs of one speaker *)

Section SubtitleRuns.

Lemma flush_prefix (pre : str) (sp : option str) (txt : list str) :
  flush (mkCombine pre sp txt) = pre ++ flush (mkCombine [] sp txt).
Proof.
  unfold flush. simpl. destruct sp; [reflexivity|].
  rewrite app_nil_r. reflexivity.
Qed.

(** The text written so far is a prefix of the result. *)
Lemma fold_prefix (l : list str) :
  forall pre sp txt,
    flush (fold_left combine_step l (mkCombine pre sp txt))
    = pre ++ flush (fold_left combine_step l (mkCombine [] sp txt)).
Proof.
  induction l as [|c l IH]; intros pre sp txt; [apply flush_prefix|].
  cbn [fold_left]. unfold combine_step at 2 4.
  cbn [current_speaker current_text combined_text].
  destruct (same_speaker (fst (speaker_and_text c)) sp).
  - apply IH.
  - rewrite IH. rewrite (IH (flush (mkCombine [] sp txt))).
    rewrite (flush_prefix pre). rewrite app_assoc. reflexivity.
Qed.

Lemma fold_same_speaker (sp : str) (l : list str) :
  Forall (fun c => speaker_of c = sp) l ->
  forall pre txt,
    fold_left combine_step l (mkCombine pre (Some sp) txt)
    = mkCombine pre (Some sp) (txt ++ map utterance_of l).
Proof.
  induction 1 as [|c l Hc _ IH]; intros pre txt.
  - simpl. rewrite app_nil_r. reflexivity.
  - cbn [fold_left map]. unfold combine_step at 2.
    cbn [current_speaker current_text combined_text same_speaker].
    fold (speaker_of c). rewrite Hc, str_eqb_refl.
    rewrite IH, <- app_assoc. reflexivity.
Qed.

Lemma first_step (c : str) :
  combine_step initial_state c
  = mkCombine [] (Some (speaker_of c)) [utterance_of c].
Proof. reflexivity. Qed.

Lemma speaker_after (a : list str) (x : str) (st : combine_state) :
  current_speaker (fold_left combine_step (a ++ [x]) st)
  = Some (speaker_of x).
Proof.
  rewrite fold_left_app. cbn [fold_left].
  set (st' := fold_left combine_step a st).
  unfold combine_step. fold (speaker_of x).
  destruct (current_speaker st') as [sp|] eqn:Es; cbn [same_speaker];
    [|reflexivity].
  destruct (str_eqb (speaker_of x) sp) eqn:E; cbn [current_speaker];
    [|reflexivity].
  apply str_eqb_eq in E. rewrite E. reflexivity.
Qed.

Lemma split_newline_single (s : str) : ~ In NL s -> split_newline s = [s].
Proof.
  induction s as [|c s IH]; intros H; [reflexivity|].
  simpl. assert (Hc : char_eqb c NL = false).
  { apply N.eqb_neq. intros E. apply H. left. exact E. }
  rewrite Hc, IH by (intros Hin; apply H; right; exact Hin). reflexivity.
Qed.

Lemma sep_free_single_line (s : str) :
  ~ In NL s -> sep_free (s ++ [NL]) = true.
Proof.
  induction s as [|c s IH]; intros H; [reflexivity|].
  assert (Hc : char_eqb c NL = false).
  { apply N.eqb_neq. intros E. apply H. left. exact E. }
  rewrite <- app_comm_cons.
  destruct (s ++ [NL]) as [|d q] eqn:E; [reflexivity|].
  rewrite sep_free_cons2, Hc. cbn [andb negb].
  apply IH. intros Hin. apply H. right. exact Hin.
Qed.

Lemma combine_run (speaker : str) (subtitles : list str) :
  subtitles <> [] ->
  Forall (fun c => speaker_of c = speaker) subtitles ->
  combine_subtitles subtitles = block speaker (map utterance_of subtitles).
Proof.
  intros Hne H. destruct H as [|c l Hc Hl]; [congruence|].
  unfold combine_subtitles. cbn [fold_left]. rewrite first_step, Hc.
  rewrite (fold_same_speaker speaker l Hl). reflexivity.
Qed.

Lemma split_newline_line (p rest : str) :
  ~ In NL p -> split_newline (p ++ NL :: rest) = p :: split_newline rest.
Proof.
  induction p as [|c p IH]; intros H; [reflexivity|].
  assert (Hc : char_eqb c NL = false).
  { apply N.eqb_neq. intros E. apply H. left. exact E. }
  rewrite <- app_comm_cons. cbn [split_newline]. rewrite Hc.
  rewrite IH by (intros Hin; apply H; right; exact Hin). reflexivity.
Qed.

(** Splitting the joined lines gives the lines back. *)
Lemma split_newline_join (lines : list str) :
  lines <> [] -> Forall (fun l => ~ In NL l) lines ->
  split_newline (join [NL] lines) = lines.
Proof.
  intros Hne H. induction H as [|p l Hp Hl IH];
    [exfalso; apply Hne; reflexivity|].
  destruct l as [|q l]; [apply split_newline_single, Hp|].
  rewrite join_cons2. cbn [app].
  rewrite (split_newline_line p _ Hp). f_equal. apply IH. discriminate.
Qed.

End SubtitleRuns.

(** X18: consecutive subtitles of one speaker give one paragraph: the
    speaker, a full-width colon, the utterances one after the other
    without anything between them, and a blank line. *)
Theorem combine_same_speaker (speaker : str) (subtitles : list str) :
  subtitles <> [] ->
  Forall (fun c => speaker_of c = speaker) subtitles ->
  combine_subtitles subtitles = block speaker (map utterance_of subtitles).
Proof. apply combine_run. Qed.

Lemma combine_same_speaker_witness :
  combine_subtitles [SubtitleExample.says "Ann"%string "Hello. "%string;
                     SubtitleExample.says "Ann"%string "How are you?"%string]
  = of_string "Ann"%string ++ [colon]
    ++ of_string "Hello. How are you?"%string ++ [NL; NL].
Proof.
  apply (combine_same_speaker (of_string "Ann"%string)
           [SubtitleExample.says "Ann"%string "Hello. "%string;
            SubtitleExample.says "Ann"%string "How are you?"%string]).
  - discriminate.
  - repeat constructor.
Defined.

(** X19: where the speaker changes the result is cut: the text of a list
    of subtitles is the text of those up to the change followed by the text
    of those after it. *)
Theorem combine_speaker_change (before after : list str) (x y : str) :
  speaker_of x <> speaker_of y ->
  combine_subtitles (before ++ x :: y :: after)
  = combine_subtitles (before ++ [x]) ++ combine_subtitles (y :: after).
Proof.
  intros Hxy. unfold combine_subtitles.
  replace (before ++ x :: y :: after) with ((before ++ [x]) ++ y :: after)
    by (rewrite <- app_assoc; reflexivity).
  rewrite (fold_left_app combine_step (before ++ [x])).
  pose proof (speaker_after before x initial_state) as Hsp.
  set (st := fold_left combine_step (before ++ [x]) initial_state) in *.
  cbn [fold_left]. rewrite first_step.
  unfold combine_step at 2. rewrite Hsp. cbn [same_speaker].
  fold (speaker_of y). fold (utterance_of y).
  destruct (str_eqb (speaker_of y) (speaker_of x)) eqn:E.
  - apply str_eqb_eq in E. congruence.
  - apply fold_prefix.
Qed.

Lemma combine_speaker_change_witness :
  combine_subtitles SubtitleExample.dialogue
  = combine_subtitles
      [SubtitleExample.says "Ann"%string "Hello. "%string;
       SubtitleExample.says "Ann"%string "How are you?"%string]
    ++ combine_subtitles [SubtitleExample.says "Bob"%string "Fine."%string].
Proof.
  apply (combine_speaker_change
           [SubtitleExample.says "Ann"%string "Hello. "%string]
           []
           (SubtitleExample.says "Ann"%string "How are you?"%string)
           (SubtitleExample.says "Bob"%string "Fine."%string)).
  vm_compute. discriminate.
Defined.

(** X20: subtitles of a single line each carry no speaker: all of them
    are attributed to the unknown speaker and glued into one paragraph, so
    the splitter hands the whole text to the analysis as one chunk,
    whatever the number of parts asked for. *)
Theorem single_line_subtitles_one_chunk (subtitles : list str)
  (num_parts : Z) :
  subtitles <> [] ->
  Forall (fun c => ~ In NL c) subtitles ->
  (1 <= num_parts)%Z ->
  combine_subtitles subtitles = block unknown_speaker subtitles
  /\ split_text (combine_subtitles subtitles) num_parts
     = Ok [unknown_speaker ++ [colon] ++ concat subtitles].
Proof.
  intros Hne Hlines Hparts.
  assert (Hsp : forall c, ~ In NL c ->
                  speaker_and_text c = (unknown_speaker, c)).
  { intros c Hc. unfold speaker_and_text.
    rewrite (split_newline_single c Hc). reflexivity. }
  assert (E : combine_subtitles subtitles = block unknown_speaker subtitles).
  { rewrite (combine_run unknown_speaker subtitles Hne).
    - f_equal. rewrite <- (map_id subtitles) at 2.
      apply map_ext_in. intros c Hc. unfold utterance_of.
      rewrite Hsp; [reflexivity|].
      rewrite Forall_forall in Hlines. apply Hlines. exact Hc.
    - eapply Forall_impl; [|exact Hlines].
      intros c Hc. unfold speaker_of. rewrite (Hsp c Hc). reflexivity. }
  split; [exact E|]. rewrite E. unfold block.
  set (p := unknown_speaker ++ [colon] ++ concat subtitles).
  assert (Hp : ~ In NL p).
  { unfold p. intros Hin. apply in_app_or in Hin as [Hin | Hin].
    - vm_compute in Hin. repeat (destruct Hin as [Hin | Hin]; [discriminate|]).
      exact Hin.
    - destruct Hin as [Hin | Hin]; [discriminate|].
      apply in_concat in Hin as (c & Hc & Hin).
      rewrite Forall_forall in Hlines. exact (Hlines c Hc Hin). }
  assert (Hpar : paragraphs_of (p ++ [NL; NL]) = [p]).
  { unfold paragraphs_of.
    rewrite (split_piece p []) by (apply sep_free_single_line; exact Hp).
    cbn [split_blankline filter].
    replace (nonblank p) with true; [reflexivity|].
    symmetry. rewrite nonblank_ink. unfold p. reflexivity. }
  replace (unknown_speaker ++ [colon] ++ concat subtitles ++ [NL; NL])
    with (p ++ [NL; NL])
    by (unfold p; rewrite <- !app_assoc; reflexivity).
  unfold split_text. rewrite Hpar. cbn [length].
  destruct (Z.leb_spec (Z.of_nat 1) num_parts) as [_ | Hlt]; [reflexivity|].
  simpl in Hlt. lia.
Qed.

Lemma single_line_subtitles_one_chunk_witness :
  combine_subtitles [of_string "Hello."%string; of_string "Bye."%string]
  = block unknown_speaker [of_string "Hello."%string; of_string "Bye."%string]
  /\ split_text
       (combine_subtitles [of_string "Hello."%string; of_string "Bye."%string])
       8
     = Ok [unknown_speaker ++ [colon] ++ of_string "Hello.Bye."%string].
Proof.
  apply (single_line_subtitles_one_chunk
           [of_string "Hello."%string; of_string "Bye."%string] 8).
  - discriminate.
  - repeat constructor; vm_compute; intros H;
      repeat (destruct H as [H | H]; [discriminate H|]); exact H.
  - lia.
Defined.

(** X21: how a subtitle is read.  A subtitle of one line has no speaker
    and is its own text; of two lines, the second is the speaker and the
    first the text; of three lines or more, the second is the speaker, the
    lines from the third on are the text, and the first line is dropped. *)
Theorem subtitle_lines (l0 l1 : str) (rest : list str) :
  Forall (fun l => ~ In NL l) (l0 :: l1 :: rest) ->
  speaker_and_text l0 = (unknown_speaker, l0)
  /\ speaker_and_text (join [NL] [l0; l1]) = (l1, l0)
  /\ (rest <> [] ->
      speaker_and_text (join [NL] (l0 :: l1 :: rest))
      = (l1, join [NL] rest)).
Proof.
  intros H. unfold speaker_and_text.
  pose proof (Forall_inv H) as H0.
  pose proof (Forall_inv (Forall_inv_tail H)) as H1.
  split; [rewrite (split_newline_single l0 H0); reflexivity|].
  split.
  - rewrite split_newline_join; [reflexivity | discriminate |].
    constructor; [exact H0 | constructor; [exact H1 | constructor]].
  - intros Hne. rewrite split_newline_join by (discriminate || exact H).
    destruct rest; [congruence | reflexivity].
Qed.

Lemma subtitle_lines_witness :
  speaker_and_text (of_string "Hello."%string)
  = (unknown_speaker, of_string "Hello."%string)
  /\ speaker_and_text
       (join [NL] [of_string "Hello."%string; of_string "Ann"%string])
     = (of_string "Ann"%string, of_string "Hello."%string)
  /\ ([of_string "Bye."%string] <> [] ->
      speaker_and_text
        (join [NL] [of_string "Hello."%string; of_string "Ann"%string;
                    of_string "Bye."%string])
      = (of_string "Ann"%string, join [NL] [of_string "Bye."%string])).
Proof.
  apply (subtitle_lines (of_string "Hello."%string) (of_string "Ann"%string)
           [of_string "Bye."%string]).
  repeat constructor; vm_compute; intros H;
    repeat (destruct H as [H | H]; [discriminate H|]); exact H.
Defined.

(** ** The splitter of file lists: [check_and_split_yaml] *)

Section FileParts.



End FileParts.





(** X24: a number of parts that is not positive.  For a non-empty list of
    [n] entries, zero parts raise [ZeroDivisionError]; a number below [-n]
    makes the step of [range] zero, which raises [ValueError]; a number
    from [-n] to [-1] makes the step negative, the loop is not entered and
    the result is the empty list. *)
Theorem split_nonpositive_parts (d : list (value * value))
  (entries : list value) (num_parts : Z) :
  Py.dict_get k_file d = Some (VList entries) ->
  entries <> [] ->
  (num_parts <= 0)%Z ->
  check_and_split_yaml (VDict d) num_parts
  = if (num_parts =? 0)%Z then Raise ZeroDivisionError
    else if (num_parts <? - Z.of_nat (length entries))%Z
         then Raise ValueError
         else Ok [].
Proof.
  intros Hfile Hne Hn. unfold check_and_split_yaml. rewrite Hfile.
  destruct entries as [|e0 es] eqn:Ee; [congruence|]. rewrite <- Ee in *.
  replace (Py.truthy (VList entries)) with true by (rewrite Ee; reflexivity).
  cbn [negb seq_len bind].
  destruct (Z.eqb_spec num_parts 0) as [|Hz]; [reflexivity|].
  set (n := length entries).
  assert (Hn0 : 0 < n) by (unfold n; rewrite Ee; simpl; lia).
  unfold py_range0, py_ceil_div.
  pose proof (Z.div_mod (- Z.of_nat n) num_parts Hz) as Hd.
  pose proof (Z.mod_neg_bound (- Z.of_nat n) num_parts ltac:(lia)) as Hb.
  destruct (Z.ltb_spec num_parts (- Z.of_nat n)) as [Hlt | Hge].
  - replace (- (- Z.of_nat n / num_parts))%Z with 0%Z by nia. reflexivity.
  - destruct (Z.eqb_spec (- (- Z.of_nat n / num_parts)) 0) as [E0 | _];
      [nia|].
    destruct (Z.ltb_spec (- (- Z.of_nat n / num_parts)) 0) as [_ | Hpos];
      [reflexivity | nia].
Qed.

Lemma split_nonpositive_parts_witness :
  check_and_split_yaml (VDict SplitterExample.listing) (-2) = Ok [].
Proof.
  apply (split_nonpositive_parts SplitterExample.listing
           SplitterExample.three_files (-2)).
  - reflexivity.
  - discriminate.
  - lia.
Defined.

(** ** The archive: names of the entries *)

Section ArchiveNames.








End ArchiveNames.


(** ** The documents of a transcript *)

Section BlankText.

Lemma cons_head_chars (c : char) (l : list str) (s : str) :
  Forall (fun p => incl p s) l ->
  Forall (fun p => incl p (c :: s)) (cons_head c l).
Proof.
  intros H. destruct H as [|p l Hp Hl]; simpl.
  - constructor; [|constructor]. intros x [<- | []]. left. reflexivity.
  - constructor.
    + intros x [<- | Hx]; [left; reflexivity | right; apply Hp, Hx].
    + eapply Forall_impl; [|exact Hl]. intros q Hq. apply incl_tl, Hq.
Qed.

(** The pieces between blank lines are made of characters of the text. *)
Lemma split_blankline_chars (s : str) :
  Forall (fun p => incl p s) (split_blankline s).
Proof.
  induction s as [|c|c d s IHs IHd] using str_pair_ind.
  - constructor; [apply incl_refl | constructor].
  - constructor; [apply incl_refl | constructor].
  - rewrite split_blankline_cons2.
    destruct (char_eqb c NL && char_eqb d NL).
    + constructor; [intros x []|].
      eapply Forall_impl; [|exact IHs].
      intros p Hp. apply incl_tl, incl_tl, Hp.
    + apply cons_head_chars, IHd.
Qed.

Lemma blank_has_no_paragraph (text : str) :
  has_ink text = false -> paragraphs_of text = [].
Proof.
  intros Hblank. unfold paragraphs_of. apply filter_nil_iff.
  eapply Forall_impl; [|apply split_blankline_chars].
  intros p Hp. cbv beta in Hp. rewrite nonblank_ink.
  destruct (has_ink p) eqn:E; [|reflexivity].
  unfold has_ink in E. apply existsb_exists in E as (x & Hx & Hink).
  assert (H : has_ink text = true)
    by (apply existsb_exists; exists x; split; [apply Hp, Hx | exact Hink]).
  congruence.
Qed.

End BlankText.

(** X26: a transcript without any visible character is rejected before
    any chunk is analysed: there is no paragraph, hence no chunk and no
    chunk result, and line 371 raises [ValueError], whatever the model and
    the YAML parser would have answered. *)
Theorem blank_text_rejected (chat : str -> nat -> nat -> option str)
  (yaml_safe_load : str -> option value) (text : str) :
  has_ink text = false ->
  analysis_files chat yaml_safe_load text = Raise ValueError.
Proof.
  intros Hblank. unfold analysis_files, split_text.
  rewrite (blank_has_no_paragraph text Hblank). reflexivity.
Qed.

Lemma blank_text_rejected_witness :
  analysis_files AnalyzeExample.echo AnalyzeExample.text_load
    (of_string "  "%string ++ [NL; NL] ++ of_string " "%string)
  = Raise ValueError.
Proof.
  apply (blank_text_rejected AnalyzeExample.echo AnalyzeExample.text_load).
  reflexivity.
Defined.

(** X27: when the documents of a transcript are produced, there was at
    least one chunk, the result of the first chunk is a mapping with a
    ["lecture_name"] that is not null, and every document carries that
    name, whatever names the other chunks gave.  There are at most eight
    documents and none is without sections. *)
Theorem analysis_files_named (chat : str -> nat -> nat -> option str)
  (yaml_safe_load : str -> option value) (text : str)
  (files : list document) :
  analysis_files chat yaml_safe_load text = Ok files ->
  exists text_parts first rest name,
    split_text text 8 = Ok text_parts
    /\ process_all_parts chat yaml_safe_load text_parts = Ok (first :: rest)
    /\ Py.get first k_lecture_name VNone = Ok name
    /\ name <> VNone
    /\ Forall (fun f => lecture_name f = name /\ sections f <> []) files
    /\ length files <= 8.
Proof.
  unfold analysis_files. intros H.
  destruct (split_text text 8) as [text_parts|e] eqn:Esplit; [|discriminate].
  cbn [bind] in H.
  destruct (process_all_parts chat yaml_safe_load text_parts)
    as [yaml_parts|e] eqn:Eparts; [|discriminate].
  cbn [bind] in H.
  destruct (lecture_name_of yaml_parts) as [name|e] eqn:Ename;
    [|discriminate].
  cbn [bind] in H.
  destruct (merge_parts yaml_parts) as [st|e] eqn:Est; [|discriminate].
  cbn [bind] in H.
  destruct yaml_parts as [|first rest]; [discriminate|].
  unfold lecture_name_of in Ename.
  destruct (Py.get first k_lecture_name VNone) as [v|e] eqn:Ev;
    [|discriminate].
  cbn [bind] in Ename.
  assert (Hv : v = name /\ name <> VNone).
  { destruct v; try discriminate; injection Ename as <-;
      (split; [reflexivity | discriminate]). }
  destruct Hv as [-> Hnn].
  exists text_parts, first, rest, name.
  do 4 (split; [reflexivity || assumption|]).
  apply merge_parts_well_formed in Est.
  destruct (yaml_files_loop name st (seq 0 8)) with (files0 := @nil document)
    as (fs & Hf & _ & Hall & Hlen).
  { intros i _. destruct (file_sections_ok st i Est) as (secs & Hs & _).
    eauto. }
  unfold yaml_files in H. rewrite Hf in H. injection H as <-.
  split; [|exact Hlen].
  eapply Forall_impl; [|exact Hall]. intros f [Hs Hname]. auto.
Qed.

Lemma analysis_files_named_witness :
  exists text_parts first rest name,
    split_text (of_string "hello"%string) 8 = Ok text_parts
    /\ process_all_parts PipelineExample.lecture_reply
         PipelineExample.lecture_load text_parts
       = Ok (first :: rest)
    /\ Py.get first k_lecture_name VNone = Ok name
    /\ name <> VNone
    /\ Forall (fun f => lecture_name f = name /\ sections f <> [])
         PipelineExample.files
    /\ length PipelineExample.files <= 8.
Proof.
  apply (analysis_files_named PipelineExample.lecture_reply
           PipelineExample.lecture_load (of_string "hello"%string)
           PipelineExample.files).
  vm_compute. reflexivity.
Defined.

(** ** The merger: chunk boundaries *)

Section ChunkBoundaries.

Lemma merge_over_boundaries (yaml_parts : list value)
  (section_lists : list (list value)) :
  Forall2 (fun part secs => Py.get part k_sections (VList []) = Ok (VList secs))
    yaml_parts section_lists ->
  forall st,
    foldM merge_part st yaml_parts
    = foldM merge_section st (concat section_lists).
Proof.
  induction 1 as [|part secs parts lists Hpart _ IH]; intros st;
    [reflexivity|].
  cbn [foldM concat]. rewrite foldM_app.
  unfold merge_part at 1. rewrite Hpart. cbn [bind Py.iter].
  destruct (foldM merge_section st secs) as [st1|e]; [|reflexivity].
  cbn [bind]. apply IH.
Qed.

End ChunkBoundaries.

(** X28: the merge does not see where one chunk ends and the next begins:
    merging the chunk results gives what merging a single result with all
    their sections, in order, gives -- the same state or the same
    exception. *)
Theorem merge_ignores_chunk_boundaries (yaml_parts : list value)
  (section_lists : list (list value)) :
  Forall2 (fun part secs => Py.get part k_sections (VList []) = Ok (VList secs))
    yaml_parts section_lists ->
  merge_parts yaml_parts
  = merge_parts [VDict [(VStr k_sections, VList (concat section_lists))]].
Proof.
  intros H. unfold merge_parts.
  rewrite (merge_over_boundaries yaml_parts section_lists H).
  cbn [foldM]. unfold merge_part.
  change (Py.get (VDict [(VStr k_sections, VList (concat section_lists))])
            k_sections (VList []))
    with (Ok (VList (concat section_lists))).
  cbn [bind Py.iter].
  destruct (foldM merge_section empty_state (concat section_lists));
    reflexivity.
Qed.

Lemma merge_ignores_chunk_boundaries_witness :
  merge_parts MergeExample.two_chunks
  = merge_parts
      [VDict [(VStr k_sections,
               VList [MergeExample.a_section "Intro"%string
                        [MergeExample.a_slide "a"%string;
                         MergeExample.a_slide "b"%string];
                      MergeExample.a_section "Intro"%string
                        [MergeExample.a_slide "c"%string]])]].
Proof.
  apply (merge_ignores_chunk_boundaries MergeExample.two_chunks
           [[MergeExample.a_section "Intro"%string
               [MergeExample.a_slide "a"%string;
                MergeExample.a_slide "b"%string]];
            [MergeExample.a_section "Intro"%string
               [MergeExample.a_slide "c"%string]]]).
  repeat constructor.
Defined.

(** ** The size adjuster: what a resummarization leaves of a section *)

Section ResummarizedFacts.

Variable llm : trace -> call -> option str.
Variable yaml_safe_load : str -> option value.
Variable yaml_dump : document -> str.
Variable repr_str : str -> str.

Lemma resummarize_section_long (sec : section) (t : trace) :
  10 < length (section_slides sec) ->
  resummarize_section llm yaml_safe_load repr_str sec t
  = (Ok (set_slides sec
           (summary_slides yaml_safe_load repr_str
              (reply_to llm t (summary_request repr_str (section_slides sec)))
              (section_slides sec))),
     t ++ [summary_request repr_str (section_slides sec)]).
Proof.
  intros H. unfold resummarize_section. apply Nat.ltb_lt in H. rewrite H.
  reflexivity.
Qed.

Lemma resummarize_section_short (sec : section) (t : trace) :
  length (section_slides sec) <= 10 ->
  resummarize_section llm yaml_safe_load repr_str sec t = (Ok sec, t).
Proof.
  intros H. unfold resummarize_section.
  destruct (Nat.ltb_spec 10 (length (section_slides sec))); [lia|].
  reflexivity.
Qed.

Lemma resummarize_section_extends (sec : section) (t t1 : trace)
  (r : result section) :
  resummarize_section llm yaml_safe_load repr_str sec t = (r, t1) ->
  exists new, t1 = t ++ new.
Proof.
  destruct (Nat.le_gt_cases (length (section_slides sec)) 10) as [Hle | Hgt].
  - rewrite (resummarize_section_short sec t Hle). intros H.
    injection H as _ <-. exists []. rewrite app_nil_r. reflexivity.
  - rewrite (resummarize_section_long sec t Hgt). intros H.
    injection H as _ <-. eexists. reflexivity.
Qed.

(** Every element is handled at some point after the start, and the
    requests issued for it are part of the requests of the loop. *)
Lemma mapMM_traced {A B} (f : A -> M B) (l : list A) :
  (forall a t r t1, f a t = (r, t1) -> exists new, t1 = t ++ new) ->
  forall tr bs tr',
    mapMM f l tr = (Ok bs, tr') ->
    (exists new, tr' = tr ++ new)
    /\ Forall2 (fun a b =>
                  exists earlier later t1,
                    f a (tr ++ earlier) = (Ok b, t1) /\ tr' = t1 ++ later)
         l bs.
Proof.
  intros Hmono. induction l as [|a l IH]; intros tr bs tr' H.
  - injection H as <- <-. split; [exists []; rewrite app_nil_r; reflexivity|].
    constructor.
  - cbn [mapMM] in H. apply bindM_inv in H as (b & tr1 & Hb & H).
    apply bindM_inv in H as (bs' & tr2 & Hbs & H).
    injection H as <- <-.
    destruct (Hmono a tr (Ok b) tr1 Hb) as (x1 & ->).
    destruct (IH _ _ _ Hbs) as ((x2 & ->) & Hall).
    split; [exists (x1 ++ x2); rewrite app_assoc; reflexivity|].
    constructor.
    + exists [], x2, (tr ++ x1). rewrite app_nil_r. split; [exact Hb|].
      reflexivity.
    + eapply Forall2_impl; [|exact Hall].
      intros a' b' (earlier & later & t1 & Hf & E).
      exists (x1 ++ earlier), later, t1. rewrite app_assoc.
      split; [exact Hf | exact E].
Qed.

Lemma resummarize_document_traced (doc doc' : document) (tr tr' : trace) :
  resummarize_document llm yaml_safe_load repr_str doc tr = (Ok doc', tr') ->
  lecture_name doc' = lecture_name doc
  /\ Forall2 (fun m s' =>
                exists earlier later t1,
                  resummarize_section llm yaml_safe_load repr_str m
                    (tr ++ earlier) = (Ok s', t1)
                  /\ tr' = t1 ++ later)
       (sections doc) (sections doc').
Proof.
  unfold resummarize_document. intros H.
  apply bindM_inv in H as (secs & tr2 & Hsecs & H).
  injection H as <- <-. split; [reflexivity|]. cbn [sections].
  apply mapMM_traced in Hsecs as [_ Hall]; [exact Hall|].
  intros a t r t1. apply resummarize_section_extends.
Qed.

Lemma same_shape_section_kept (tr tr' : trace) (s s' : section) :
  same_shape s s' -> section_kept llm yaml_safe_load repr_str tr tr' s s'.
Proof. intros (Hn & _ & Hl). split; [exact Hn|]. intros H. left. lia. Qed.

(** A section after compression and resummarization. *)
Lemma resummarized_section_kept (tr x tr' : trace) (s m s' : section)
  (earlier later t1 : trace) :
  same_shape s m ->
  resummarize_section llm yaml_safe_load repr_str m ((tr ++ x) ++ earlier)
  = (Ok s', t1) ->
  tr' = t1 ++ later ->
  section_kept llm yaml_safe_load repr_str tr tr' s s'.
Proof.
  intros Hshape Hsec Htr. pose proof Hshape as (Hn & _ & Hl).
  destruct (Nat.le_gt_cases (length (section_slides m)) 10) as [Hle | Hgt].
  - rewrite (resummarize_section_short m _ Hle) in Hsec.
    injection Hsec as <- _. apply same_shape_section_kept. exact Hshape.
  - rewrite (resummarize_section_long m _ Hgt) in Hsec.
    injection Hsec as <- <-. split; [exact Hn|]. intros H1.
    cbn [set_slides section_slides].
    destruct (length (summary_slides yaml_safe_load repr_str
                        (reply_to llm ((tr ++ x) ++ earlier)
                           (summary_request repr_str (section_slides m)))
                        (section_slides m))) as [|k] eqn:Ek; [|left; lia].
    right.
    destruct (summary_slides_empty yaml_safe_load repr_str _ _ Hgt Ek)
      as (data & Hd & Hi).
    exists m, (x ++ earlier), later, data.
    rewrite (app_assoc tr x earlier).
    split; [exact Hshape|]. split; [exact Hgt|].
    split; [rewrite Htr, <- app_assoc; reflexivity|].
    split; [exact Hd|]. split; [exact Hi|].
    apply length_zero_iff_nil. exact Ek.
Qed.

End ResummarizedFacts.

(** C6 (as amended): the document returned by the adjuster has the lecture
    name of its input, and section by section the same names; a section
    that had a slide still has one, except a section that is still of more
    than ten slides after compression, for whose request, at the point
    where the adjuster issued it, the model's reply (or, when the call
    failed, the truncated request) parses to an empty list of slides. *)
Theorem adjust_frame (llm : trace -> call -> option str)
  (yaml_safe_load : str -> option value) (yaml_dump : document -> str)
  (repr_str : str -> str) (doc doc' : document) (max_chars : Z)
  (tr tr' : trace) :
  adjust_yaml_size llm yaml_safe_load yaml_dump repr_str doc max_chars tr
  = (Ok doc', tr') ->
  lecture_name doc' = lecture_name doc
  /\ Forall2 (section_kept llm yaml_safe_load repr_str tr tr')
       (sections doc) (sections doc').
Proof.
  unfold adjust_yaml_size.
  destruct (dump_size yaml_dump doc <? 8000)%Z.
  { intros H. apply for_each_slide_shape in H as [Hn Hs].
    split; [exact Hn|].
    eapply Forall2_impl; [|exact Hs].
    intros a b. apply same_shape_section_kept. }
  destruct (dump_size yaml_dump doc <=? max_chars)%Z.
  { intros H. injection H as <- <-. split; [reflexivity|].
    apply Forall2_diag. intros x. apply same_shape_section_kept.
    repeat split. }
  intros H. apply bindM_inv in H as (mid & tr1 & Hmid & H).
  destruct (within_for_each_slide (compress_slide llm repr_str) doc
              (within_compress_slide llm repr_str) tr) as (x & Hx & _).
  rewrite Hmid in Hx. cbn [snd] in Hx. subst tr1.
  apply for_each_slide_shape in Hmid as [Hn Hs].
  destruct (max_chars <? dump_size yaml_dump mid)%Z.
  - apply resummarize_document_traced in H as [Hn' Hs'].
    split; [congruence|].
    eapply Forall2_compose; [|exact Hs|exact Hs'].
    intros s m s' Hshape (earlier & later & t1 & Hsec & Htr).
    eapply resummarized_section_kept; eassumption.
  - injection H as <- <-. split; [exact Hn|].
    eapply Forall2_impl; [|exact Hs].
    intros a b. apply same_shape_section_kept.
Qed.

Lemma adjust_frame_witness :
  lecture_name three_entries_document = lecture_name big_document
  /\ Forall2 (section_kept (reply_with three_entries) toy_load simple_repr []
                (snd three_entries_run))
       (sections big_document) (sections three_entries_document).
Proof.
  apply (adjust_frame (reply_with three_entries) toy_load plain_dump
           simple_repr big_document three_entries_document 10000 []
           (snd three_entries_run)).
  vm_compute. reflexivity.
Defined.

(** C9 (as amended): when the document is still too large after the pass
    over the slides, every section of more than ten slides gets the slides
    built from what came back for its own request, at the point where the
    adjuster issued it.  They are numbered 1, 2, ..., k without gaps, where
    k is the number of entries of the parsed reply (ten only if the reply
    has ten entries), and k = 10 when the reply does not parse and the
    handler builds them. *)
Theorem resummarized_renumbered (llm : trace -> call -> option str)
  (yaml_safe_load : str -> option value) (yaml_dump : document -> str)
  (repr_str : str -> str) (doc mid : document) (max_chars : Z)
  (tr tr1 : trace) :
  (8000 <= dump_size yaml_dump doc)%Z ->
  (max_chars < dump_size yaml_dump doc)%Z ->
  for_each_slide (compress_slide llm repr_str) doc tr = (Ok mid, tr1) ->
  (max_chars < dump_size yaml_dump mid)%Z ->
  exists doc' tr',
    adjust_yaml_size llm yaml_safe_load yaml_dump repr_str doc max_chars tr
    = (Ok doc', tr')
    /\ Forall2 (resummarized_by llm yaml_safe_load repr_str tr1 tr')
         (sections mid) (sections doc').
Proof.
  intros Hlo Hhi Hmid Hbig.
  destruct (resummarize_document_total llm yaml_safe_load repr_str mid tr1)
    as (doc' & tr' & Hdoc).
  exists doc', tr'. split.
  - unfold adjust_yaml_size.
    destruct (Z.ltb_spec (dump_size yaml_dump doc) 8000); [lia|].
    destruct (Z.leb_spec (dump_size yaml_dump doc) max_chars); [lia|].
    rewrite (bindM_ok _ _ _ _ _ Hmid).
    destruct (Z.ltb_spec max_chars (dump_size yaml_dump mid));
      [exact Hdoc | lia].
  - apply resummarize_document_traced in Hdoc as [_ Hs].
    eapply Forall2_impl; [|exact Hs].
    intros m s' (earlier & later & t1 & Hsec & Htr) Hgt.
    rewrite (resummarize_section_long llm yaml_safe_load repr_str m _ Hgt)
      in Hsec.
    injection Hsec as <- <-.
    exists earlier, later.
    split; [rewrite Htr, <- app_assoc; reflexivity|].
    cbv zeta. cbn [set_slides section_slides].
    split; [reflexivity|].
    split; [apply summary_slides_numbered|].
    destruct (summary_slides_length yaml_safe_load repr_str
                (reply_to llm (tr1 ++ earlier)
                   (summary_request repr_str (section_slides m)))
                (section_slides m) Hgt) as [H1 H2].
    split; [exact H1|].
    intros Hnone. apply H2. left. unfold parse_summary. rewrite Hnone.
    reflexivity.
Qed.

Lemma resummarized_renumbered_witness :
  exists doc' tr',
    adjust_yaml_size (reply_with three_entries) toy_load plain_dump
      simple_repr big_document 10000 [] = (Ok doc', tr')
    /\ Forall2 (resummarized_by (reply_with three_entries) toy_load
                  simple_repr (snd compressed_big) tr')
         (sections big_after_compression) (sections doc').
Proof.
  apply (resummarized_renumbered (reply_with three_entries) toy_load
           plain_dump simple_repr big_document big_after_compression
           10000 [] (snd compressed_big)).
  - apply Z.leb_le. vm_compute. reflexivity.
  - apply Z.ltb_lt. vm_compute. reflexivity.
  - vm_compute. reflexivity.
  - apply Z.ltb_lt. vm_compute. reflexivity.
Defined.
